(** * Chaos sandbox: replication layer, tools, chaos loops and black holes

    A shallow embedding of the JavaScript sources

      - [lib/multiplayer/sync.js]   (modules [Sync], [SyncEvents], [Seed])
      - [lib/multiplayer/peer.js]   (module [Peer])
      - [lib/physics/engine.js]     (module [Engine])
      - [lib/physics/objects.js]    (module [Objects])
      - [lib/physics/tools.js]      (modules [Tools], [ToolActions])
      - [lib/physics/special.js]    (modules [Special], [TimeControl], [Magnets])
      - [lib/physics/chaos.js]      (modules [Chaos], [ChaosState])

    and the properties of the system description that can be settled on
    them.

    Conventions of the embedding.

    - JavaScript numbers are read as real numbers ([R]): rounding, [NaN]
      and the infinities of IEEE doubles are not represented.
    - Objects that the program shares and mutates (Matter.js bodies, black
      hole records) live in a store, a [gmap] from locations to records;
      the arrays of the program hold locations, so that two references to
      one object stay aliased.
    - Module-level [let] variables are the fields of the state records.
    - [Math.random()] reads the next value of a sequence [random : nat -> R]
      carried by the host state; [Date.now()] reads the host clock.
    - [setInterval] / [setTimeout] register a defunctionalised callback in
      the timer table of the host; the event loop is the relation
      [Runtime.fires].
    - Feedback hooks (screen shake, particles, status line) and the console
      append to a log; status messages are written without their emoji. *)

From Stdlib Require Import Reals Lra Lia ZArith String List DecimalString.
From Stdlib Require DecimalZ.
From stdpp Require Import gmap strings.

Open Scope R_scope.

(** ** JavaScript comparisons and [||] on numbers *)

Definition Rltb (a b : R) : bool := if Rlt_dec a b then true else false.
Definition Rleb (a b : R) : bool := if Rle_dec a b then true else false.
Definition Reqb (a b : R) : bool := if Req_dec_T a b then true else false.

(** [v || d] for a possibly absent number: [undefined] and [0] are falsy. *)
Definition orElse (v : option R) (d : R) : R :=
  match v with
  | Some a => if Reqb a 0 then d else a
  | None => d
  end.

(** ** Matter.Vector *)

Module Vector.

Record t : Type := mk { x : R; y : R }.

Definition zero : t := mk 0 0.

(** [Vector.sub(a, b)] *)
Definition sub (a b : t) : t := mk (x a - x b) (y a - y b).

Definition add (a b : t) : t := mk (x a + x b) (y a + y b).

Definition scale (k : R) (v : t) : t := mk (k * x v) (k * y v).

(** [Vector.magnitude(v)] is [Math.sqrt(v.x * v.x + v.y * v.y)]. *)
Definition magnitude (v : t) : R := sqrt (x v * x v + y v * y v).

(** [Vector.normalise(v)]: the zero vector when the magnitude is zero. *)
Definition normalise (v : t) : t :=
  let m := magnitude v in
  if Reqb m 0 then mk 0 0 else mk (x v / m) (y v / m).

End Vector.

(** ** lib/multiplayer/sync.js *)

Module Sync.

(** [SYNC_EVENTS] of constants.js *)
Definition SPAWN : string := "spawn".
Definition FORCE : string := "force".
Definition TOOL : string := "tool".
Definition GRAVITY : string := "gravity".
Definition CURSOR : string := "cursor".

Definition recognized : list string := [SPAWN; FORCE; TOOL; GRAVITY; CURSOR].

Section WithData.
(** The payload [data] is passed through untouched. *)
Context {D : Type}.

Record Event : Type := mkEvent {
  type : string;
  timestamp : Z;
  senderId : string;
  data : D
}.

(** The five handler slots. A slot that is absent (falsy) is skipped. *)
Inductive Slot : Type := OnSpawn | OnForce | OnTool | OnGravity | OnCursor.

Record Handlers : Type := mkHandlers {
  onSpawn : bool;
  onForce : bool;
  onTool : bool;
  onGravity : bool;
  onCursor : bool
}.

(** What a call of [handleSyncEvent] does to the outside. *)
Inductive Effect : Type :=
| Invoke (slot : Slot) (payload : D) (sender : string)
| Warn (message : string) (ty : string).

(** [let localPlayerId = null] *)
Record State : Type := mkState { localPlayerId : option string }.

Definition init : State := mkState None.

Definition setPlayerId (id : string) (st : State) : State := mkState (Some id).

(** The template string [`player_${Date.now()}`]. *)
Definition fallbackId (now : Z) : string :=
  "player_" ++ NilZero.string_of_int (Z.to_int now).

(** [localPlayerId || `player_${Date.now()}`]: [null] and the empty
    string are falsy. [now] is what [Date.now()] returns at this call. *)
Definition getPlayerId (st : State) (now : Z) : string :=
  match localPlayerId st with
  | Some id => if String.eqb id "" then fallbackId now else id
  | None => fallbackId now
  end.

(** [createEvent]: [Date.now()] is read for the timestamp and, when no
    identifier is set, once more inside [getPlayerId]. *)
Definition createEvent (ty : string) (d : D) (st : State) (now now' : Z) : Event :=
  mkEvent ty now (getPlayerId st now') d.

Definition invokeIf (present : bool) (slot : Slot) (ev : Event) : list Effect :=
  if present then [Invoke slot (data ev) (senderId ev)] else [].

Definition handleSyncEvent (st : State) (now : Z) (ev : Event) (hs : Handlers)
  : list Effect :=
  if String.eqb (senderId ev) (getPlayerId st now) then []
  else if String.eqb (type ev) SPAWN then invokeIf (onSpawn hs) OnSpawn ev
  else if String.eqb (type ev) FORCE then invokeIf (onForce hs) OnForce ev
  else if String.eqb (type ev) TOOL then invokeIf (onTool hs) OnTool ev
  else if String.eqb (type ev) GRAVITY then invokeIf (onGravity hs) OnGravity ev
  else if String.eqb (type ev) CURSOR then invokeIf (onCursor hs) OnCursor ev
  else [Warn "Unknown sync event type:" (type ev)].

Definition invokes_handler (e : Effect) : bool :=
  match e with Invoke _ _ _ => true | Warn _ _ => false end.

End WithData.

Arguments Event : clear implicits.
Arguments Effect : clear implicits.

End Sync.

(** ** Matter.js bodies, as far as the program reads and writes them *)

Abbreviation loc := positive.

Module Matter.

(** The [render] option: [strokeStyle] and [lineWidth] are left to
    Matter when the program does not give them. *)
Record Render : Type := mkRender {
  fillStyle : string;
  strokeStyle : option string;
  lineWidth : option R
}.

(** The [Matter.Bodies] factory that built the body, with its arguments. *)
Inductive Shape : Type :=
| Rectangle (width height : R)
| Circle (radius : R)
| Polygon (sides : nat) (radius : R)
| Trapezoid (width height slope : R).

(** [`obj_${Date.now()}_${n}`] and [`special_${Date.now()}_${n}`] *)
Inductive CustomId : Type :=
| ObjId (ms : R) (n : nat)
| SpecialId (ms : R) (n : nat).

Record Body : Type := mkBody {
  label : string;
  shape : Shape;
  chamfer : option R;
(** product of the factors passed to [Matter.Body.scale] so far *)
scaleX : R;
scaleY : R;
position : Vector.t;
velocity : Vector.t;
angularVelocity : R;
(** force accumulated by [Matter.Body.applyForce] for the next step *)
force : Vector.t;
isStatic : bool;
isSensor : bool;
friction : R;
frictionAir : R;
restitution : R;
density : R;
render : Render;
(** properties the program adds to the body object *)
customId : option CustomId;
customScale : option R;
isExplosive : bool;
explosionForce : option R;
explosionRadius : option R;
isFloaty : bool
}.

(** [Body.setVelocity(body, v)] *)
Definition setVelocity (v : Vector.t) (b : Body) : Body :=
  mkBody (label b) (shape b) (chamfer b) (scaleX b) (scaleY b) (position b)
    v (angularVelocity b) (force b) (isStatic b) (isSensor b)
    (friction b) (frictionAir b) (restitution b) (density b) (render b)
    (customId b) (customScale b) (isExplosive b) (explosionForce b)
    (explosionRadius b) (isFloaty b).

(** [Body.setAngularVelocity(body, w)] *)
Definition setAngularVelocity (w : R) (b : Body) : Body :=
  mkBody (label b) (shape b) (chamfer b) (scaleX b) (scaleY b) (position b)
    (velocity b) w (force b) (isStatic b) (isSensor b)
    (friction b) (frictionAir b) (restitution b) (density b) (render b)
    (customId b) (customScale b) (isExplosive b) (explosionForce b)
    (explosionRadius b) (isFloaty b).

(** [Body.setPosition(body, p)] *)
Definition setPosition (p : Vector.t) (b : Body) : Body :=
  mkBody (label b) (shape b) (chamfer b) (scaleX b) (scaleY b) p
    (velocity b) (angularVelocity b) (force b) (isStatic b) (isSensor b)
    (friction b) (frictionAir b) (restitution b) (density b) (render b)
    (customId b) (customScale b) (isExplosive b) (explosionForce b)
    (explosionRadius b) (isFloaty b).

(** [Body.applyForce(body, body.position, f)]: applied at the centre, the
    force adds to [body.force] and contributes no torque. *)
Definition applyForce (f : Vector.t) (b : Body) : Body :=
  mkBody (label b) (shape b) (chamfer b) (scaleX b) (scaleY b) (position b)
    (velocity b) (angularVelocity b) (Vector.add (force b) f)
    (isStatic b) (isSensor b)
    (friction b) (frictionAir b) (restitution b) (density b) (render b)
    (customId b) (customScale b) (isExplosive b) (explosionForce b)
    (explosionRadius b) (isFloaty b).

(** [Body.scale(body, sx, sy)] *)
Definition scale (sx sy : R) (b : Body) : Body :=
  mkBody (label b) (shape b) (chamfer b) (scaleX b * sx) (scaleY b * sy)
    (position b) (velocity b) (angularVelocity b) (force b)
    (isStatic b) (isSensor b)
    (friction b) (frictionAir b) (restitution b) (density b) (render b)
    (customId b) (customScale b) (isExplosive b) (explosionForce b)
    (explosionRadius b) (isFloaty b).

(** [body.customScale = s] *)
Definition setCustomScale (s : R) (b : Body) : Body :=
  mkBody (label b) (shape b) (chamfer b) (scaleX b) (scaleY b) (position b)
    (velocity b) (angularVelocity b) (force b) (isStatic b) (isSensor b)
    (friction b) (frictionAir b) (restitution b) (density b) (render b)
    (customId b) (Some s) (isExplosive b) (explosionForce b)
    (explosionRadius b) (isFloaty b).

(** [body.restitution = e] *)
Definition setRestitution (e : R) (b : Body) : Body :=
  mkBody (label b) (shape b) (chamfer b) (scaleX b) (scaleY b) (position b)
    (velocity b) (angularVelocity b) (force b) (isStatic b) (isSensor b)
    (friction b) (frictionAir b) e (density b) (render b)
    (customId b) (customScale b) (isExplosive b) (explosionForce b)
    (explosionRadius b) (isFloaty b).

(** [body.friction = f; body.frictionAir = fa] *)
Definition setFrictions (f fa : R) (b : Body) : Body :=
  mkBody (label b) (shape b) (chamfer b) (scaleX b) (scaleY b) (position b)
    (velocity b) (angularVelocity b) (force b) (isStatic b) (isSensor b)
    f fa (restitution b) (density b) (render b)
    (customId b) (customScale b) (isExplosive b) (explosionForce b)
    (explosionRadius b) (isFloaty b).

(** [chamfer: { radius: r }] among the creation options *)
Definition setChamfer (r : R) (b : Body) : Body :=
  mkBody (label b) (shape b) (Some r) (scaleX b) (scaleY b) (position b)
    (velocity b) (angularVelocity b) (force b) (isStatic b) (isSensor b)
    (friction b) (frictionAir b) (restitution b) (density b) (render b)
    (customId b) (customScale b) (isExplosive b) (explosionForce b)
    (explosionRadius b) (isFloaty b).

(** [isFloaty: true] among the creation options *)
Definition setFloaty (b : Body) : Body :=
  mkBody (label b) (shape b) (chamfer b) (scaleX b) (scaleY b) (position b)
    (velocity b) (angularVelocity b) (force b) (isStatic b) (isSensor b)
    (friction b) (frictionAir b) (restitution b) (density b) (render b)
    (customId b) (customScale b) (isExplosive b) (explosionForce b)
    (explosionRadius b) true.

(** [isExplosive: true, explosionForce: f, explosionRadius: r] among the
    creation options *)
Definition setExplosive (f r : R) (b : Body) : Body :=
  mkBody (label b) (shape b) (chamfer b) (scaleX b) (scaleY b) (position b)
    (velocity b) (angularVelocity b) (force b) (isStatic b) (isSensor b)
    (friction b) (frictionAir b) (restitution b) (density b) (render b)
    (customId b) (customScale b) true (Some f) (Some r) (isFloaty b).

(** A body fresh from a [Matter.Bodies] factory: at rest, unscaled, with
    Matter's default air friction, and none of the program's extras. *)
Definition create (lbl : string) (sh : Shape) (pos : Vector.t)
    (static sensor : bool) (fr re de : R) (rd : Render)
    (cid : option CustomId) : Body :=
  mkBody lbl sh None 1 1 pos Vector.zero 0 Vector.zero static sensor
    fr (1 / 100) re de rd cid None false None None false.

End Matter.

(** ** The host: clock, [Math.random], timers, [window] hooks, console *)

Module Host.

(** The closures handed to [setInterval] and [setTimeout]. *)
Inductive Callback : Type :=
| FloodTick (intensity : nat)
| RulesTick
| ExplosionCheck
| ChainRescan (pos : Vector.t) (radius : R)
| ChainExplode (body : loc)
| BlackHoleExpire (hole : loc)
| Burst (x y : R) (count : nat) (color : string).

Record Timer : Type := mkTimer {
  due : R;
(** [Some ms] for [setInterval], [None] for [setTimeout] *)
period : option R;
callback : Callback
}.

Inductive Output : Type :=
| WindowParticles (x y : R) (count : nat) (color : string)
| WindowShake (intensity : R)
| WindowStatus (message : string)
| ParticleCallback (x y : R) (count : nat) (color : string)
| ShakeCallback (intensity : R)
| StatusCallback (message : string)
| ConsoleError (message : string).

Record t : Type := mk {
  clock : R;
  random : nat -> R;
  drawn : nat;
  timers : gmap positive Timer;
  nextTimer : positive;
(** is [window.spawnParticles] / [triggerScreenShake] /
    [showChaosStatus] installed *)
hasParticles : bool;
hasShake : bool;
hasStatus : bool;
output : list Output
}.

(** [Date.now()] *)
Definition now (h : t) : R := clock h.

(** [Math.random()] *)
Definition mathRandom (h : t) : R * t :=
  (random h (drawn h),
   mk (clock h) (random h) (S (drawn h)) (timers h) (nextTimer h)
      (hasParticles h) (hasShake h) (hasStatus h) (output h)).

Definition emit (o : Output) (h : t) : t :=
  mk (clock h) (random h) (drawn h) (timers h) (nextTimer h)
     (hasParticles h) (hasShake h) (hasStatus h) (output h ++ [o]).

Definition setTimers (ts : gmap positive Timer) (n : positive) (h : t) : t :=
  mk (clock h) (random h) (drawn h) ts n
     (hasParticles h) (hasShake h) (hasStatus h) (output h).

Definition setClock (c : R) (h : t) : t :=
  mk c (random h) (drawn h) (timers h) (nextTimer h)
     (hasParticles h) (hasShake h) (hasStatus h) (output h).

(** Timer identifiers are positive integers, handed out in order. *)
Definition setInterval (cb : Callback) (ms : R) (h : t) : positive * t :=
  (nextTimer h,
   setTimers (<[nextTimer h := mkTimer (clock h + ms) (Some ms) cb]> (timers h))
     (Pos.succ (nextTimer h)) h).

Definition setTimeout (cb : Callback) (ms : R) (h : t) : positive * t :=
  (nextTimer h,
   setTimers (<[nextTimer h := mkTimer (clock h + ms) None cb]> (timers h))
     (Pos.succ (nextTimer h)) h).

Definition clearInterval (id : positive) (h : t) : t :=
  setTimers (delete id (timers h)) (nextTimer h) h.

(** [if (window.spawnParticles) window.spawnParticles(x, y, n, c)] *)
Definition windowParticles (x y : R) (n : nat) (c : string) (h : t) : t :=
  if hasParticles h then emit (WindowParticles x y n c) h else h.

Definition windowShake (i : R) (h : t) : t :=
  if hasShake h then emit (WindowShake i) h else h.

Definition windowStatus (m : string) (h : t) : t :=
  if hasStatus h then emit (WindowStatus m) h else h.

End Host.

(** ** Module-level state of the physics library files *)

Module State.

(** [engine.world.bodies], [engine.gravity], [engine.timing.timeScale] *)
Record EngineRec : Type := mkEngine {
  bodies : list loc;
  gravity : Vector.t;
  timeScale : R
}.

(** The [let] variables of chaos.js. Timer handles are [null] or an
    identifier; the three callbacks are registered or not. *)
Record ChaosVars : Type := mkChaos {
  chaosEnabled : bool;
  objectFloodEnabled : bool;
  suddenRulesEnabled : bool;
  autoExplodeEnabled : bool;
  floodInterval : option positive;
  rulesInterval : option positive;
  explosionCheckInterval : option positive;
  screenShakeCallback : bool;
  particleCallback : bool;
  statusCallback : bool;
(** index into [RULES] *)
currentRule : option nat
}.

(** A black hole record of special.js. *)
Record BlackHole : Type := mkBlackHole {
  body : loc;
  pullRadius : R;
  pullStrength : R;
  createdAt : R;
  lifetime : R;
  x : R;
  y : R;
  consumedBodies : list loc;
  eventHorizon : R
}.

Record SpecialVars : Type := mkSpecial {
  specialIdCounter : nat;
(** the black hole objects, and the array [activeBlackHoles] of
    references to them *)
holes : gmap loc BlackHole;
nextHole : loc;
activeBlackHoles : list loc
}.

Record Sys : Type := mkSys {
  host : Host.t;
(** the body objects *)
heap : gmap loc Matter.Body;
nextLoc : loc;
(** engine.js: [let engine = null] *)
engine : option EngineRec;
(** objects.js: [let objectIdCounter = 0] *)
objectIdCounter : nat;
chaos : ChaosVars;
special : SpecialVars
}.

Definition setHost (h : Host.t) (s : Sys) : Sys :=
  mkSys h (heap s) (nextLoc s) (engine s) (objectIdCounter s) (chaos s) (special s).

Definition setHeap (m : gmap loc Matter.Body) (s : Sys) : Sys :=
  mkSys (host s) m (nextLoc s) (engine s) (objectIdCounter s) (chaos s) (special s).

Definition setEngine (e : option EngineRec) (s : Sys) : Sys :=
  mkSys (host s) (heap s) (nextLoc s) e (objectIdCounter s) (chaos s) (special s).

Definition setObjectIdCounter (n : nat) (s : Sys) : Sys :=
  mkSys (host s) (heap s) (nextLoc s) (engine s) n (chaos s) (special s).

Definition setChaos (c : ChaosVars) (s : Sys) : Sys :=
  mkSys (host s) (heap s) (nextLoc s) (engine s) (objectIdCounter s) c (special s).

Definition setSpecial (sp : SpecialVars) (s : Sys) : Sys :=
  mkSys (host s) (heap s) (nextLoc s) (engine s) (objectIdCounter s) (chaos s) sp.

(** A new body object. *)
Definition alloc (b : Matter.Body) (s : Sys) : loc * Sys :=
  (nextLoc s,
   mkSys (host s) (<[nextLoc s := b]> (heap s)) (Pos.succ (nextLoc s))
     (engine s) (objectIdCounter s) (chaos s) (special s)).

(** Mutation of the body object at [l]. *)
Definition update (f : Matter.Body -> Matter.Body) (l : loc) (s : Sys) : Sys :=
  setHeap (alter f l (heap s)) s.

(** [Math.random()] *)
Definition mathRandom (s : Sys) : R * Sys :=
  let '(r, h) := Host.mathRandom (host s) in (r, setHost h s).

Definition onHost (f : Host.t -> Host.t) (s : Sys) : Sys := setHost (f (host s)) s.

(** Nothing created yet, no engine, every flag off. *)
Definition initial (rnd : nat -> R) : Sys :=
  mkSys (Host.mk 0 rnd 0 ∅ 1%positive false false false []) ∅ 1%positive None 0
    (mkChaos false false false false None None None false false false None)
    (mkSpecial 0 ∅ 1%positive []).

End State.

(** ** lib/physics/engine.js *)

Module Engine.
Import State.

(** [CANVAS] and [PHYSICS] of constants.js *)
Definition CANVAS_WIDTH : R := 1200.
Definition CANVAS_HEIGHT : R := 800.
Definition PHYSICS_GRAVITY : Vector.t := Vector.mk 0 1.

(** The static rectangles of [initEngine]; what the options leave out is
    Matter's default (friction 0.1, restitution 0, density 0.001). *)
Definition boundary (lbl : string) (x y w h : R) : Matter.Body :=
  Matter.create lbl (Matter.Rectangle w h) (Vector.mk x y) true false
    (1 / 10) 0 (1 / 1000) (Matter.mkRender "#1a1a2e" None None) None.

(** [initEngine]: a new engine whose world holds ground, walls and
    ceiling. (Renderer, runner and mouse constraint carry no body.) *)
Definition initEngine (s : Sys) : Sys :=
  let '(ground, s) :=
    alloc (boundary "ground" (CANVAS_WIDTH / 2) (CANVAS_HEIGHT + 30)
             (CANVAS_WIDTH + 100) 60) s in
  let '(leftWall, s) :=
    alloc (boundary "wall" (-30) (CANVAS_HEIGHT / 2) 60 (CANVAS_HEIGHT + 100)) s in
  let '(rightWall, s) :=
    alloc (boundary "wall" (CANVAS_WIDTH + 30) (CANVAS_HEIGHT / 2) 60
             (CANVAS_HEIGHT + 100)) s in
  let '(ceiling, s) :=
    alloc (boundary "ceiling" (CANVAS_WIDTH / 2) (-30) (CANVAS_WIDTH + 100) 60) s in
  setEngine (Some (mkEngine [ground; leftWall; rightWall; ceiling] PHYSICS_GRAVITY 1)) s.

Definition getEngine (s : Sys) : option EngineRec := engine s.

Definition withBodies (bs : list loc) (e : EngineRec) : EngineRec :=
  mkEngine bs (gravity e) (timeScale e).

(** [body.isStatic] of the object at [l] *)
Definition isStaticAt (s : Sys) (l : loc) : bool :=
  match heap s !! l with
  | Some b => Matter.isStatic b
  | None => false
  end.

(** [Composite.removeBody]: [indexOf] then [splice], so the first
    occurrence goes and an absent body changes nothing. *)
Fixpoint removeFirst (l : loc) (bs : list loc) : list loc :=
  match bs with
  | [] => []
  | b :: rest => if Pos.eqb b l then rest else b :: removeFirst l rest
  end.

(** [World.remove(world, array)] removes the elements one after another. *)
Definition removeAll (toRemove bs : list loc) : list loc :=
  fold_left (fun acc l => removeFirst l acc) toRemove bs.

(** [clearWorld] *)
Definition clearWorld (s : Sys) : Sys :=
  match engine s with
  | Some e =>
      let bodies := bodies e in
      let toRemove := List.filter (fun l => negb (isStaticAt s l)) bodies in
      setEngine (Some (withBodies (removeAll toRemove (State.bodies e)) e)) s
  | None => s
  end.

(** [setGravity] *)
Definition setGravity (g : Vector.t) (s : Sys) : Sys :=
  match engine s with
  | Some e => setEngine (Some (mkEngine (bodies e) g (timeScale e))) s
  | None => s
  end.

(** [flipGravity]: [undefined] without an engine. *)
Definition flipGravity (s : Sys) : option Vector.t * Sys :=
  match engine s with
  | Some e =>
      let g := Vector.mk (Vector.x (gravity e)) (Vector.y (gravity e) * -1) in
      (Some g, setEngine (Some (mkEngine (bodies e) g (timeScale e))) s)
  | None => (None, s)
  end.

(** [getGravity] *)
Definition getGravity (s : Sys) : Vector.t :=
  match engine s with
  | Some e => gravity e
  | None => PHYSICS_GRAVITY
  end.

(** [getAllBodies]: a fresh array of the bodies of the world. *)
Definition getAllBodies (s : Sys) : list loc :=
  match engine s with
  | Some e => bodies e
  | None => []
  end.

(** [getBodyAtPosition]. [contains b p] stands for Matter's
    [Bounds.contains(b.bounds, p)]. *)
Definition getBodyAtPosition (contains : Matter.Body -> Vector.t -> bool)
    (position : Vector.t) (s : Sys) : option loc :=
  match engine s with
  | Some e =>
      List.find (fun l =>
        match heap s !! l with
        | Some body =>
            if Matter.isStatic body then false else contains body position
        | None => false
        end) (bodies e)
  | None => None
  end.

(** [addBody] *)
Definition addBody (l : loc) (s : Sys) : Sys :=
  match engine s with
  | Some e => setEngine (Some (withBodies (bodies e ++ [l]) e)) s
  | None => s
  end.

(** [removeBody] *)
Definition removeBody (l : loc) (s : Sys) : Sys :=
  match engine s with
  | Some e => setEngine (Some (withBodies (removeFirst l (bodies e)) e)) s
  | None => s
  end.

(** [applyForce(body, force)] on a body reference, which is truthy. *)
Definition applyForce (l : loc) (f : Vector.t) (s : Sys) : Sys :=
  update (Matter.applyForce f) l s.

(** [scaleBody(body, scaleX, scaleY)] *)
Definition scaleBody (l : loc) (sx sy : R) (s : Sys) : Sys :=
  update (Matter.scale sx sy) l s.

(** [setTimeScale] *)
Definition setTimeScale (k : R) (s : Sys) : Sys :=
  match engine s with
  | Some e => setEngine (Some (mkEngine (bodies e) (gravity e) k)) s
  | None => s
  end.

(** [getTimeScale] *)
Definition getTimeScale (s : Sys) : R :=
  match engine s with
  | Some e => timeScale e
  | None => 1
  end.

End Engine.

(** ** lib/physics/objects.js *)

Module Objects.
Import State.

(** The [options] object: the archetype properties it overrides. *)
Record Options : Type := mkOptions {
  width : option R;
  height : option R;
  radius : option R;
  size : option R;
  color : option string;
  friction : option R;
  restitution : option R;
  density : option R;
  explosionForce : option R;
  explosionRadius : option R
}.

(** [options = {}] *)
Definition noOptions : Options :=
  mkOptions None None None None None None None None None None.

(** [COLORS] of constants.js *)
Definition COLORS_BOX : string := "#ff6b6b".
Definition COLORS_CIRCLE : string := "#4ecdc4".
Definition COLORS_TRIANGLE : string := "#ffe66d".
Definition COLORS_PLANK : string := "#95afc0".
Definition COLORS_BALLOON : string := "#ff9ff3".
Definition COLORS_EXPLOSIVE : string := "#ff4757".
Definition COLORS_JELLY : string := "#7bed9f".
Definition COLORS_ANVIL : string := "#57606f".

(** The type tags of [OBJECTS], in the order of its keys. *)
Definition types : list string :=
  ["box"; "circle"; "triangle"; "plank"; "balloon"; "explosive"; "jelly"; "anvil"]%string.

(** [generateId]: [`obj_${Date.now()}_${objectIdCounter++}`] *)
Definition generateId (s : Sys) : Matter.CustomId * Sys :=
  (Matter.ObjId (Host.now (host s)) (objectIdCounter s),
   setObjectIdCounter (S (objectIdCounter s)) s).

(** In each factory [config = { ...OBJECTS.X, ...options }]: a property is
    the override when [options] has it and the archetype's value
    otherwise. *)

Definition createBox (x y : R) (options : Options) (s : Sys) : loc * Sys :=
  let '(id, s) := generateId s in
  alloc (Matter.create "box"
           (Matter.Rectangle (default 50 (width options)) (default 50 (height options)))
           (Vector.mk x y) false false
           (default (5 / 10) (friction options))
           (default (3 / 10) (restitution options))
           (default (1 / 1000) (density options))
           (Matter.mkRender (default COLORS_BOX (color options)) (Some "#ffffff22"%string) (Some 2))
           (Some id)) s.

Definition createCircle (x y : R) (options : Options) (s : Sys) : loc * Sys :=
  let '(id, s) := generateId s in
  alloc (Matter.create "circle"
           (Matter.Circle (default 25 (radius options)))
           (Vector.mk x y) false false
           (default (1 / 10) (friction options))
           (default (6 / 10) (restitution options))
           (default (1 / 1000) (density options))
           (Matter.mkRender (default COLORS_CIRCLE (color options)) (Some "#ffffff22"%string) (Some 2))
           (Some id)) s.

Definition createTriangle (x y : R) (options : Options) (s : Sys) : loc * Sys :=
  let '(id, s) := generateId s in
  alloc (Matter.create "triangle"
           (Matter.Polygon 3 (default 50 (size options) / 2))
           (Vector.mk x y) false false
           (default (4 / 10) (friction options))
           (default (2 / 10) (restitution options))
           (default (1 / 1000) (density options))
           (Matter.mkRender (default COLORS_TRIANGLE (color options)) (Some "#ffffff22"%string) (Some 2))
           (Some id)) s.

Definition createPlank (x y : R) (options : Options) (s : Sys) : loc * Sys :=
  let '(id, s) := generateId s in
  alloc (Matter.create "plank"
           (Matter.Rectangle (default 150 (width options)) (default 20 (height options)))
           (Vector.mk x y) false false
           (default (8 / 10) (friction options))
           (default (1 / 10) (restitution options))
           (default (2 / 1000) (density options))
           (Matter.mkRender (default COLORS_PLANK (color options)) (Some "#ffffff22"%string) (Some 2))
           (Some id)) s.

Definition createBalloon (x y : R) (options : Options) (s : Sys) : loc * Sys :=
  let '(id, s) := generateId s in
  alloc (Matter.setFloaty
           (Matter.create "balloon"
              (Matter.Circle (default 30 (radius options)))
              (Vector.mk x y) false false
              (default (1 / 10) (friction options))
              (default (8 / 10) (restitution options))
              (default (1 / 10000) (density options))
              (Matter.mkRender (default COLORS_BALLOON (color options)) (Some "#ffffff44"%string) (Some 3))
              (Some id))) s.

Definition createExplosive (x y : R) (options : Options) (s : Sys) : loc * Sys :=
  let '(id, s) := generateId s in
  alloc (Matter.setExplosive
           (default (5 / 10) (explosionForce options))
           (default 200 (explosionRadius options))
           (Matter.create "explosive"
              (Matter.Rectangle (default 40 (width options)) (default 60 (height options)))
              (Vector.mk x y) false false
              (default (6 / 10) (friction options))
              (default (2 / 10) (restitution options))
              (default (2 / 1000) (density options))
              (Matter.mkRender (default COLORS_EXPLOSIVE (color options)) (Some "#ff000088"%string) (Some 4))
              (Some id))) s.

Definition createJelly (x y : R) (options : Options) (s : Sys) : loc * Sys :=
  let '(id, s) := generateId s in
  alloc (Matter.setChamfer 10
           (Matter.create "jelly"
              (Matter.Rectangle (default 60 (width options)) (default 60 (height options)))
              (Vector.mk x y) false false
              (default (2 / 10) (friction options))
              (default (9 / 10) (restitution options))
              (default (8 / 10000) (density options))
              (Matter.mkRender (default COLORS_JELLY (color options)) (Some "#ffffff44"%string) (Some 2))
              (Some id))) s.

(** [createAnvil]: [config.width * 1.5 || 100], [config.height * 1.3 || 65]
    and [config.density || 0.015]; the colour is fixed. *)
Definition createAnvil (x y : R) (options : Options) (s : Sys) : loc * Sys :=
  let width := orElse (Some (default 70 (width options) * (15 / 10))) 100 in
  let height := orElse (Some (default 50 (height options) * (13 / 10))) 65 in
  let '(id, s) := generateId s in
  alloc (Matter.create "anvil"
           (Matter.Trapezoid width height (4 / 10))
           (Vector.mk x y) false false
           (default (9 / 10) (friction options))
           (default (5 / 100) (restitution options))
           (orElse (Some (default (1 / 100) (density options))) (15 / 1000))
           (Matter.mkRender "#2c3e50" (Some "#1a252f"%string) (Some 5))
           (Some id)) s.

(** [createObject]: the [switch] on the type tag, with its [default]. *)
Definition createObject (type : string) (x y : R) (options : Options) (s : Sys)
  : loc * Sys :=
  if String.eqb type "box" then createBox x y options s
  else if String.eqb type "circle" then createCircle x y options s
  else if String.eqb type "triangle" then createTriangle x y options s
  else if String.eqb type "plank" then createPlank x y options s
  else if String.eqb type "balloon" then createBalloon x y options s
  else if String.eqb type "explosive" then createExplosive x y options s
  else if String.eqb type "jelly" then createJelly x y options s
  else if String.eqb type "anvil" then createAnvil x y options s
  else createBox x y options s.

(** [Math.floor(r * n)] for [0 <= r < 1]: the largest [k <= n] with
    [k <= r * n]. *)
Fixpoint floorMul (r : R) (n k : nat) : nat :=
  match k with
  | O => O
  | S k' => if Rleb (INR k) (r * INR n) then k else floorMul r n k'
  end.

(** [getRandomObjectType] *)
Definition getRandomObjectType (s : Sys) : string * Sys :=
  let '(r, s) := mathRandom s in
  (nth (floorMul r (length types) (length types)) types "box"%string, s).

End Objects.

(** ** lib/physics/tools.js *)

Module Tools.
Import State.

(** [TOOLS] of constants.js *)
Definition TOOLS_PUSH_force : R := 5 / 100.
Definition TOOLS_EXPLODE_force : R := 3 / 10.
Definition TOOLS_EXPLODE_radius : R := 150.
Definition TOOLS_SCALE_scaleFactor : R := 15 / 10.

Record PushResult : Type := mkPushResult {
  push_position : Vector.t;
  push_direction : Vector.t;
  push_force : R;
  push_affectedCount : nat
}.

Record ExplodeResult : Type := mkExplodeResult {
  explode_position : Vector.t;
  explode_force : R;
  explode_radius : R;
  explode_affectedCount : nat
}.

Record ScaleResult : Type := mkScaleResult {
  scale_bodyId : option Matter.CustomId;
  scale_scale : R;
  scale_grow : bool
}.

Record SpawnResult : Type := mkSpawnResult {
  spawn_type : string;
  spawn_position : Vector.t;
  spawn_id : option Matter.CustomId
}.

(** The force [toolPush] applies to a body at [distance]. *)
Definition pushForce (direction : Vector.t) (force radius distance : R) : Vector.t :=
  let falloff := 1 - distance / radius in
  Vector.mk (Vector.x direction * force * falloff * (15 / 10))
            (Vector.y direction * force * falloff * (15 / 10)).

(** The body of the [forEach] of [toolPush]. *)
Definition pushBody (position direction : Vector.t) (force radius : R)
    (acc : Sys * nat) (l : loc) : Sys * nat :=
  let '(s, affectedCount) := acc in
  match heap s !! l with
  | None => acc
  | Some body =>
      if Matter.isStatic body then acc
      else
        let distance := Vector.magnitude (Vector.sub (Matter.position body) position) in
        if Rltb distance radius then
          (Engine.applyForce l (pushForce direction force radius distance) s,
           S affectedCount)
        else acc
  end.

(** [toolPush(position, direction, force = TOOLS.PUSH.force)] *)
Definition toolPush (position direction : Vector.t) (force : option R) (s : Sys)
  : PushResult * Sys :=
  let force := default TOOLS_PUSH_force force in
  let bodies := Engine.getAllBodies s in
  let radius := 120 in
  let '(s, affectedCount) :=
    fold_left (pushBody position direction force radius) bodies (s, 0%nat) in
  let s :=
    if Nat.ltb 0 affectedCount then
      onHost (fun h =>
        Host.windowShake (2 / 10)
          (Host.windowParticles (Vector.x position) (Vector.y position) 8 "#6c5ce7" h)) s
    else s in
  (mkPushResult position direction force affectedCount, s).

(** The force [toolExplode] applies to a body that sits at [direction]
    from the centre, [distance] away. *)
Definition explosionForce (direction : Vector.t) (force radius distance : R) : Vector.t :=
  let falloff := 1 - distance / radius in
  let normalizedDir := Vector.normalise direction in
  Vector.mk (Vector.x normalizedDir * force * falloff * (12 / 10))
            (Vector.y normalizedDir * force * falloff * (12 / 10)).

(** The body of the [forEach] of [toolExplode]. *)
Definition explodeBodyAt (position : Vector.t) (force radius : R)
    (acc : Sys * nat) (l : loc) : Sys * nat :=
  let '(s, affectedCount) := acc in
  match heap s !! l with
  | None => acc
  | Some body =>
      if Matter.isStatic body then acc
      else
        let direction := Vector.sub (Matter.position body) position in
        let distance := Vector.magnitude direction in
        if Rltb distance radius && Rltb 0 distance then
          let falloff := 1 - distance / radius in
          let s := Engine.applyForce l (explosionForce direction force radius distance) s in
          let '(r, s) := mathRandom s in
          let s := update (Matter.setAngularVelocity ((r - 5 / 10) * (8 / 10) * falloff)) l s in
          (s, S affectedCount)
        else acc
  end.

(** [toolExplode(position, force = TOOLS.EXPLODE.force,
    radius = TOOLS.EXPLODE.radius)] *)
Definition toolExplode (position : Vector.t) (force radius : option R) (s : Sys)
  : ExplodeResult * Sys :=
  let force := default TOOLS_EXPLODE_force force in
  let radius := default TOOLS_EXPLODE_radius radius in
  let bodies := Engine.getAllBodies s in
  let '(s, affectedCount) :=
    fold_left (explodeBodyAt position force radius) bodies (s, 0%nat) in
  let s :=
    onHost (fun h =>
      Host.windowShake (12 / 10)
        (Host.windowParticles (Vector.x position) (Vector.y position) 25 "#ff6b6b" h)) s in
  (mkExplodeResult position force radius affectedCount, s).

(** [grow ? TOOLS.SCALE.scaleFactor : 1 / TOOLS.SCALE.scaleFactor] *)
Definition scaleFactor (grow : bool) : R :=
  if grow then TOOLS_SCALE_scaleFactor else 1 / TOOLS_SCALE_scaleFactor.

(** [body.customScale || 1], the tracked cumulative scale of a body *)
Definition currentScale (body : Matter.Body) : R :=
  orElse (Matter.customScale body) 1.

(** [toolScale(position, grow = true)] *)
Definition toolScale (contains : Matter.Body -> Vector.t -> bool)
    (position : Vector.t) (grow : bool) (s : Sys) : option ScaleResult * Sys :=
  match Engine.getBodyAtPosition contains position s with
  | None => (None, s)
  | Some l =>
      match heap s !! l with
      | None => (None, s)
      | Some body =>
          if negb (Matter.isStatic body) then
            let factor := scaleFactor grow in
            let currentScale := currentScale body in
            let newScale := currentScale * factor in
            if Rleb (3 / 10) newScale && Rleb newScale 3 then
              let s := Engine.scaleBody l factor factor s in
              let s := update (Matter.setCustomScale newScale) l s in
              let s :=
                onHost (Host.windowParticles
                          (Vector.x (Matter.position body)) (Vector.y (Matter.position body))
                          8 (if grow then "#00cec9" else "#ff9ff3")) s in
              (Some (mkScaleResult (Matter.customId body) newScale grow), s)
            else (None, s)
          else (None, s)
      end
  end.

(** [body.render?.fillStyle || '#4ecdc4'] *)
Definition particleColor (s : Sys) (l : loc) : string :=
  match heap s !! l with
  | Some body =>
      let c := Matter.fillStyle (Matter.render body) in
      if String.eqb c "" then "#4ecdc4"%string else c
  | None => "#4ecdc4"%string
  end.

(** [body.customId] of the object at [l] *)
Definition customIdAt (s : Sys) (l : loc) : option Matter.CustomId :=
  match heap s !! l with
  | Some body => Matter.customId body
  | None => None
  end.

(** [toolSpawn(type, position, options = {})] *)
Definition toolSpawn (type : string) (position : Vector.t)
    (options : Objects.Options) (s : Sys) : SpawnResult * Sys :=
  let '(body, s) :=
    Objects.createObject type (Vector.x position) (Vector.y position) options s in
  let s := Engine.addBody body s in
  let s :=
    onHost (Host.windowParticles (Vector.x position) (Vector.y position) 5
              (particleColor s body)) s in
  (mkSpawnResult type position (customIdAt s body), s).

(** What one round of the [forEach] of [toolPush] does to a body object. *)
Definition pushEffect (position direction : Vector.t) (force radius : R)
    (body : Matter.Body) : Matter.Body :=
  if Matter.isStatic body then body
  else
    let distance := Vector.magnitude (Vector.sub (Matter.position body) position) in
    if Rltb distance radius then
      Matter.applyForce (pushForce direction force radius distance) body
    else body.

(** What one round of the [forEach] of [toolExplode] does to a body
    object, [r] being the value [Math.random()] returns in that round. *)
Definition explodeEffect (position : Vector.t) (force radius r : R)
    (body : Matter.Body) : Matter.Body :=
  if Matter.isStatic body then body
  else
    let direction := Vector.sub (Matter.position body) position in
    let distance := Vector.magnitude direction in
    if Rltb distance radius && Rltb 0 distance then
      Matter.setAngularVelocity ((r - 5 / 10) * (8 / 10) * (1 - distance / radius))
        (Matter.applyForce (explosionForce direction force radius distance) body)
    else body.

(** The force a call has added to the body object at [l]: [body.force]
    after the call minus [body.force] before it. *)
Definition appliedForce (before after : Sys) (l : loc) : Vector.t :=
  match heap before !! l, heap after !! l with
  | Some b, Some b' => Vector.sub (Matter.force b') (Matter.force b)
  | _, _ => Vector.zero
  end.

(** A sequence of [toolScale] calls, each with its position and flag. *)
Definition scaleMany (contains : Matter.Body -> Vector.t -> bool)
    (calls : list (Vector.t * bool)) (s : Sys) : Sys :=
  fold_left (fun s call => (toolScale contains call.1 call.2 s).2) calls s.

(** Every body object carries a tracked scale within the bounds. *)
Definition scalesWithinBounds (s : Sys) : Prop :=
  forall l body, heap s !! l = Some body ->
    3 / 10 <= currentScale body <= 3.

End Tools.

(** ** lib/physics/special.js: black holes *)

Module Special.
Import State.

Record Options : Type := mkOptions {
  radius : option R;
  pullRadius : option R;
  pullStrength : option R;
  lifetime : option R
}.

Definition noOptions : Options := mkOptions None None None None.

Definition withHoles (m : gmap loc BlackHole) (n : loc) (sp : SpecialVars) : SpecialVars :=
  mkSpecial (specialIdCounter sp) m n (activeBlackHoles sp).

Definition withActive (hs : list loc) (sp : SpecialVars) : SpecialVars :=
  mkSpecial (specialIdCounter sp) (holes sp) (nextHole sp) hs.

(** [generateId]: [`special_${Date.now()}_${objectIdCounter++}`] *)
Definition generateId (s : Sys) : Matter.CustomId * Sys :=
  (Matter.SpecialId (Host.now (host s)) (specialIdCounter (special s)),
   setSpecial (mkSpecial (S (specialIdCounter (special s))) (holes (special s))
                 (nextHole (special s)) (activeBlackHoles (special s))) s).

(** [getAllBodiesInternal] *)
Definition getAllBodiesInternal (s : Sys) : list loc :=
  match engine s with
  | None => []
  | Some e => bodies e
  end.

(** [removeBodyInternal] *)
Definition removeBodyInternal (l : loc) (s : Sys) : Sys :=
  match engine s with
  | Some e =>
      setEngine (Some (Engine.withBodies (Engine.removeFirst l (bodies e)) e)) s
  | None => s
  end.

(** [bh.consumedBodies.includes(body)] *)
Definition includes (l : loc) (ls : list loc) : bool := existsb (Pos.eqb l) ls.

(** [bh.consumedBodies.push(body)] on the black hole object [h] *)
Definition pushConsumed (h l : loc) (s : Sys) : Sys :=
  setSpecial
    (withHoles
       (alter (fun bh =>
                 mkBlackHole (body bh) (State.pullRadius bh) (State.pullStrength bh)
                   (createdAt bh) (State.lifetime bh) (x bh) (y bh)
                   (consumedBodies bh ++ [l]) (eventHorizon bh))
          h (holes (special s)))
       (nextHole (special s)) (special s)) s.

(** [bh.consumedBodies] of the black hole object [h] *)
Definition consumedOf (h : loc) (s : Sys) : list loc :=
  match holes (special s) !! h with
  | Some bh => consumedBodies bh
  | None => []
  end.

(** [createBlackHole(x, y, options = {})] *)
Definition createBlackHole (x y : R) (options : Options) (s : Sys)
  : option loc * Sys :=
  match engine s with
  | None =>
      (None,
       onHost (Host.emit (Host.ConsoleError "Black hole: No physics world available")) s)
  | Some _ =>
      let radius := orElse (radius options) 40 in
      let pullRadius := orElse (pullRadius options) 350 in
      let pullStrength := orElse (pullStrength options) (8 / 1000) in
      let lifetime := orElse (lifetime options) 6000 in
      let '(id, s) := generateId s in
      let '(body, s) :=
        alloc (Matter.create "blackhole" (Matter.Circle radius) (Vector.mk x y)
                 true true (1 / 10) 0 (1 / 1000)
                 (Matter.mkRender "#0a0a1a" (Some "#9b59b6"%string) (Some 10))
                 (Some id)) s in
      let s := Engine.addBody body s in
      let blackHole :=
        mkBlackHole body pullRadius pullStrength (Host.now (host s)) lifetime
          x y [] 60 in
      let h := nextHole (special s) in
      let s :=
        setSpecial
          (mkSpecial (specialIdCounter (special s))
             (<[h := blackHole]> (holes (special s))) (Pos.succ h)
             (activeBlackHoles (special s) ++ [h])) s in
      let s :=
        onHost (fun hst =>
          Host.windowParticles x y 30 "#9b59b6"
            (Host.windowShake (8 / 10)
               (Host.windowStatus "BLACK HOLE SPAWNED!" hst))) s in
      let s := onHost (fun hst => (Host.setTimeout (Host.BlackHoleExpire h) lifetime hst).2) s in
      (Some h, s)
  end.

(** [body.isStatic || body.label === 'blackhole'] *)
Definition skipped (b : Matter.Body) : bool :=
  Matter.isStatic b || String.eqb (Matter.label b) "blackhole".

(** The velocity a live black hole at [bhPos] gives to a body at
    [distance >= 20]. *)
Definition pulledVelocity (bhPos : Vector.t) (b : Matter.Body) : Vector.t :=
  let direction := Vector.sub bhPos (Matter.position b) in
  let distance := Vector.magnitude direction in
  let normalizedDir := Vector.normalise direction in
  let pullStrength := Rmin 8 (400 / distance) in
  let vel := Matter.velocity b in
  let newVelX := Vector.x vel + Vector.x normalizedDir * pullStrength * (3 / 10) in
  let newVelY := Vector.y vel + Vector.y normalizedDir * pullStrength * (3 / 10) in
  Vector.mk newVelX newVelY.

(** [Body.setAngularVelocity(body, body.angularVelocity + delta)] *)
Definition spin (delta : R) (b : Matter.Body) : Matter.Body :=
  Matter.setAngularVelocity (Matter.angularVelocity b + delta) b.

(** The body of [bodies.forEach] in [updateBlackHoles], for the black hole
    object [h] whose body sits at [bhPos]. *)
Definition pullBody (h : loc) (bhPos : Vector.t) (s : Sys) (l : loc) : Sys :=
  match heap s !! l with
  | None => s
  | Some b =>
      if skipped b then s
      else
        let direction := Vector.sub bhPos (Matter.position b) in
        let distance := Vector.magnitude direction in
        if Rltb distance 20 then
          let s := update (Matter.setVelocity (Vector.mk 0 0)) l s in
          if negb (includes l (consumedOf h s)) then pushConsumed h l s else s
        else
          let s := update (Matter.setVelocity (pulledVelocity bhPos b)) l s in
          let s :=
            if Rltb distance 80 && negb (includes l (consumedOf h s))
            then pushConsumed h l s else s in
          if Rltb distance 250 then
            let '(r, s) := mathRandom s in
            update (spin ((r - 5 / 10) * (15 / 100))) l s
          else s
  end.


(** The body of [bodies.forEach] in [explodeBlackHole]. *)
Definition scatterBody (bh : BlackHole) (s : Sys) (l : loc) : Sys :=
  match heap s !! l with
  | None => s
  | Some b =>
      if skipped b then s
      else
        let pos := Vector.mk (x bh) (y bh) in
        let wasConsumed := includes l (consumedBodies bh) in
        let '(r1, s) := mathRandom s in
        let randomAngle := r1 * PI * 2 in
        let randomDir := Vector.mk (cos randomAngle) (sin randomAngle) in
        let direction := Vector.sub (Matter.position b) pos in
        let distance := Vector.magnitude direction in
        if wasConsumed || Rltb distance (State.pullRadius bh * 2) then
          let explosionPower :=
            if wasConsumed then 25 / 100
            else 15 / 100 * (1 - distance / (State.pullRadius bh * 2)) in
          let outwardDir :=
            if Rltb 0 distance then Vector.normalise direction else randomDir in
          let chaosDir :=
            Vector.mk
              (Vector.x outwardDir * (3 / 10) + Vector.x randomDir * (7 / 10))
              (Vector.y outwardDir * (3 / 10) + Vector.y randomDir * (7 / 10)) in
          let s :=
            update (Matter.applyForce
                      (Vector.mk (Vector.x chaosDir * explosionPower)
                                 (Vector.y chaosDir * explosionPower))) l s in
          let '(r2, s) := mathRandom s in
          let s := update (Matter.setAngularVelocity ((r2 - 5 / 10) * 4)) l s in
          if wasConsumed then
            let '(r3, s) := mathRandom s in
            let scatterDist := 50 + r3 * 100 in
            let s :=
              update (Matter.setPosition
                        (Vector.mk (Vector.x pos + Vector.x randomDir * scatterDist)
                                   (Vector.y pos + Vector.y randomDir * scatterDist))) l s in
            update (Matter.setVelocity
                      (Vector.mk (Vector.x chaosDir * 30) (Vector.y chaosDir * 30))) l s
          else s
        else s
  end.

(** [explodeBlackHole(blackHole)]; [blackHole.body] is never cleared, so
    the guard at the top always passes. *)
Definition explodeBlackHole (h : loc) (s : Sys) : Sys :=
  match holes (special s) !! h with
  | None => s
  | Some bh =>
      let bodies := getAllBodiesInternal s in
      let s := fold_left (scatterBody bh) bodies s in
      let s := onHost (Host.windowShake 5) s in
      let s :=
        if Host.hasParticles (host s) then
          onHost (fun hst =>
            let hst := Host.windowParticles (x bh) (y bh) 60 "#9b59b6" hst in
            let hst := (Host.setTimeout (Host.Burst (x bh) (y bh) 40 "#e056fd") 50 hst).2 in
            (Host.setTimeout (Host.Burst (x bh) (y bh) 30 "#ff6b6b") 100 hst).2) s
        else s in
      let s := onHost (Host.windowStatus "SUPERNOVA EXPLOSION!") s in
      let s := removeBodyInternal (body bh) s in
      setSpecial
        (withActive
           (List.filter (fun h' => negb (Pos.eqb h' h)) (activeBlackHoles (special s)))
           (special s)) s
  end.

(** The callback of [activeBlackHoles.filter] in [updateBlackHoles]: the
    state after the call and whether the black hole is kept. *)
Definition tickBlackHole (now : R) (bodies : list loc) (acc : Sys * list loc)
    (h : loc) : Sys * list loc :=
  let '(s, kept) := acc in
  match holes (special s) !! h with
  | None => (s, kept)
  | Some bh =>
      match heap s !! body bh with
      | None => (s, kept)
      | Some hb =>
          if Rltb (State.lifetime bh) (now - createdAt bh) then
            (explodeBlackHole h s, kept)
          else
            let bhPos := Matter.position hb in
            (fold_left (pullBody h bhPos) bodies s, kept ++ [h])
      end
  end.

(** [updateBlackHoles] *)
Definition updateBlackHoles (s : Sys) : Sys :=
  let now := Host.now (host s) in
  let bodies := getAllBodiesInternal s in
  match bodies with
  | [] => s
  | _ :: _ =>
      let '(s, kept) :=
        fold_left (tickBlackHole now bodies) (activeBlackHoles (special s)) (s, []) in
      setSpecial (withActive kept (special s)) s
  end.

End Special.

(** ** lib/physics/chaos.js *)

Module Chaos.
Import State.

Definition withChaosEnabled (b : bool) (c : ChaosVars) : ChaosVars :=
mkChaos b (objectFloodEnabled c) (suddenRulesEnabled c) (autoExplodeEnabled c)
  (floodInterval c) (rulesInterval c) (explosionCheckInterval c)
  (screenShakeCallback c) (particleCallback c) (statusCallback c) (currentRule c).

Definition withFlood (enabled : bool) (handle : option positive) (c : ChaosVars)
  : ChaosVars :=
mkChaos (chaosEnabled c) enabled (suddenRulesEnabled c) (autoExplodeEnabled c)
  handle (rulesInterval c) (explosionCheckInterval c)
  (screenShakeCallback c) (particleCallback c) (statusCallback c) (currentRule c).

Definition withRules (enabled : bool) (handle : option positive) (c : ChaosVars)
  : ChaosVars :=
mkChaos (chaosEnabled c) (objectFloodEnabled c) enabled (autoExplodeEnabled c)
  (floodInterval c) handle (explosionCheckInterval c)
  (screenShakeCallback c) (particleCallback c) (statusCallback c) (currentRule c).

Definition withExplosions (enabled : bool) (handle : option positive) (c : ChaosVars)
  : ChaosVars :=
mkChaos (chaosEnabled c) (objectFloodEnabled c) (suddenRulesEnabled c) enabled
  (floodInterval c) (rulesInterval c) handle
  (screenShakeCallback c) (particleCallback c) (statusCallback c) (currentRule c).

Definition withCurrentRule (r : option nat) (c : ChaosVars) : ChaosVars :=
mkChaos (chaosEnabled c) (objectFloodEnabled c) (suddenRulesEnabled c)
  (autoExplodeEnabled c) (floodInterval c) (rulesInterval c)
  (explosionCheckInterval c)
  (screenShakeCallback c) (particleCallback c) (statusCallback c) r.

(** [registerEffectCallbacks(onShake, onParticle, onStatus)]; an argument is
    [true] when a function is passed. *)
Definition registerEffectCallbacks (onShake onParticle onStatus : bool) (s : Sys) : Sys :=
setChaos
  (mkChaos (chaosEnabled (chaos s)) (objectFloodEnabled (chaos s))
     (suddenRulesEnabled (chaos s)) (autoExplodeEnabled (chaos s))
     (floodInterval (chaos s)) (rulesInterval (chaos s))
     (explosionCheckInterval (chaos s))
     onShake onParticle onStatus (currentRule (chaos s))) s.

(** [triggerScreenShake(intensity = 1)] *)
Definition triggerScreenShake (intensity : R) (s : Sys) : Sys :=
if screenShakeCallback (chaos s) then onHost (Host.emit (Host.ShakeCallback intensity)) s
else s.

(** [showStatus(message)] *)
Definition showStatus (message : string) (s : Sys) : Sys :=
if statusCallback (chaos s) then onHost (Host.emit (Host.StatusCallback message)) s
else s.

(** [spawnParticles(x, y, count = 10, color = '#ff6b6b')] *)
Definition spawnParticles (x y : R) (count : nat) (color : string) (s : Sys) : Sys :=
if particleCallback (chaos s) then
  onHost (Host.emit (Host.ParticleCallback x y count color)) s
else s.

(** [clearInterval(handle)] under [if (handle)]: a handle is [null] or a
    positive identifier. *)
Definition clearIfSet (handle : option positive) (s : Sys) : Sys :=
match handle with
| Some id => onHost (Host.clearInterval id) s
| None => s
end.

(** [handle = setInterval(callback, ms)] *)
Definition setIntervalIn (cb : Host.Callback) (ms : R) (s : Sys) : positive * Sys :=
let '(id, h) := Host.setInterval cb ms (host s) in (id, setHost h s).

(** [setTimeout(callback, ms)] *)
Definition setTimeoutIn (cb : Host.Callback) (ms : R) (s : Sys) : Sys :=
setHost (Host.setTimeout cb ms (host s)).2 s.

(** *** Object flood *)

(** [startObjectFlood(intensity = 5, intervalMs = 2000)] *)
Definition startObjectFlood (intensity : nat) (intervalMs : R) (s : Sys) : Sys :=
let s := clearIfSet (floodInterval (chaos s)) s in
let s := setChaos (withFlood true (floodInterval (chaos s)) (chaos s)) s in
let s := showStatus "OBJECT FLOOD ACTIVATED!" s in
let '(id, s) := setIntervalIn (Host.FloodTick intensity) intervalMs s in
setChaos (withFlood (objectFloodEnabled (chaos s)) (Some id) (chaos s)) s.

(** [stopObjectFlood] *)
Definition stopObjectFlood (s : Sys) : Sys :=
let s :=
  match floodInterval (chaos s) with
  | Some id =>
      setChaos (withFlood (objectFloodEnabled (chaos s)) None (chaos s))
        (onHost (Host.clearInterval id) s)
  | None => s
  end in
setChaos (withFlood false (floodInterval (chaos s)) (chaos s)) s.

(** [a === b] on [customId] values: strings or [undefined]. *)
Definition sameId (a b : option Matter.CustomId) : bool :=
match a, b with
| None, None => true
| Some (Matter.ObjId t n), Some (Matter.ObjId t' n') => Reqb t t' && Nat.eqb n n'
| Some (Matter.SpecialId t n), Some (Matter.SpecialId t' n') => Reqb t t' && Nat.eqb n n'
| _, _ => false
end.

(** [getAllBodies().find(b => b.customId === id)] *)
Definition findById (id : option Matter.CustomId) (s : Sys) : option loc :=
List.find (fun l => sameId (Tools.customIdAt s l) id) (Engine.getAllBodies s).

(** One round of the [for] loop of the flood callback. *)
Definition floodOne (s : Sys) : Sys :=
let '(r1, s) := mathRandom s in
let x := 50 + r1 * (Engine.CANVAS_WIDTH - 100) in
let '(r2, s) := mathRandom s in
let y := 50 + r2 * 30 in
let '(type, s) := Objects.getRandomObjectType s in
let '(result, s) := Tools.toolSpawn type (Vector.mk x y) Objects.noOptions s in
match findById (Tools.spawn_id result) s with
| Some newBody =>
    let '(r3, s) := mathRandom s in
    let '(r4, s) := mathRandom s in
    let s :=
      update (Matter.setVelocity (Vector.mk ((r3 - 5 / 10) * 12) (3 + r4 * 8))) newBody s in
    let '(r5, s) := mathRandom s in
    update (Matter.setAngularVelocity ((r5 - 5 / 10) * (5 / 10))) newBody s
| None => s
end.

(** The callback of the flood interval. *)
Definition floodTick (intensity : nat) (s : Sys) : Sys :=
Nat.iter intensity floodOne s.

(** *** Sudden rules *)

Definition spinAllObjects (s : Sys) : Sys :=
fold_left (fun s l =>
  if Engine.isStaticAt s l then s
  else
    let '(r, s) := mathRandom s in
    update (Matter.setAngularVelocity ((r - 5 / 10) * 1)) l s)
  (Engine.getAllBodies s) s.

Definition explodeRandomObject (s : Sys) : Sys :=
let bodies := List.filter (fun l => negb (Engine.isStaticAt s l)) (Engine.getAllBodies s) in
if Nat.ltb 0 (length bodies) then
  let '(r, s) := mathRandom s in
  match nth_error bodies (Objects.floorMul r (length bodies) (length bodies)) with
  | Some randomBody =>
      match heap s !! randomBody with
      | Some b =>
          let pos := Matter.position b in
          let s := (Tools.toolExplode pos (Some (3 / 10)) (Some 150) s).2 in
          let s := triggerScreenShake 1 s in
          spawnParticles (Vector.x pos) (Vector.y pos) 15 "#ffeaa7" s
      | None => s
      end
  | None => s
  end
else s.

Definition makeEverythingFloaty (s : Sys) : Sys :=
fold_left (fun s l =>
  if Engine.isStaticAt s l then s
  else Engine.applyForce l (Vector.mk 0 (- (1 / 100))) s)
  (Engine.getAllBodies s) s.

Definition makeEverythingBouncy (s : Sys) : Sys :=
fold_left (fun s l =>
  if Engine.isStaticAt s l then s
  else update (Matter.setRestitution (95 / 100)) l s)
  (Engine.getAllBodies s) s.

Definition removeFriction (s : Sys) : Sys :=
fold_left (fun s l =>
  if Engine.isStaticAt s l then s
  else update (Matter.setFrictions 0 0) l s)
  (Engine.getAllBodies s) s.

Definition launchEverythingUp (s : Sys) : Sys :=
let s :=
  fold_left (fun s l =>
    if Engine.isStaticAt s l then s
    else
      let '(r, s) := mathRandom s in
      update (fun b =>
        Matter.setVelocity
          (Vector.mk (Vector.x (Matter.velocity b)) (- 15 - r * 10)) b) l s)
    (Engine.getAllBodies s) s in
triggerScreenShake (15 / 10) s.

(** [RULES]: names and actions, by index. *)
Definition ruleName (i : nat) : string :=
nth i ["GRAVITY FLIP!"; "SIDEWAYS GRAVITY!"; "LOW GRAVITY!"; "HEAVY GRAVITY!";
       "CHAOS SPIN!"; "EVERYTHING EXPLODES!"; "FLOATY TIME!"; "SUPER BOUNCY!";
       "FRICTION OFF!"; "LAUNCH PARTY!"]%string ""%string.

Definition ruleAction (i : nat) (s : Sys) : Sys :=
match i with
| 0%nat =>
    let g := Engine.getGravity s in
    Engine.setGravity (Vector.mk (Vector.x g) (- Vector.y g)) s
| 1%nat => Engine.setGravity (Vector.mk 1 (2 / 10)) s
| 2%nat => Engine.setGravity (Vector.mk 0 (2 / 10)) s
| 3%nat => Engine.setGravity (Vector.mk 0 3) s
| 4%nat => spinAllObjects s
| 5%nat => explodeRandomObject s
| 6%nat => makeEverythingFloaty s
| 7%nat => makeEverythingBouncy s
| 8%nat => removeFriction s
| 9%nat => launchEverythingUp s
| _ => s
end.

Definition RULES_length : nat := 10.

(** [applyRandomRule] *)
Definition applyRandomRule (s : Sys) : Sys :=
let '(r, s) := mathRandom s in
let rule := Objects.floorMul r RULES_length RULES_length in
let s := setChaos (withCurrentRule (Some rule) (chaos s)) s in
let s := showStatus (ruleName rule) s in
ruleAction rule s.

(** [startSuddenRules(intervalMs = 10000)] *)
Definition startSuddenRules (intervalMs : R) (s : Sys) : Sys :=
let s := clearIfSet (rulesInterval (chaos s)) s in
let s := setChaos (withRules true (rulesInterval (chaos s)) (chaos s)) s in
let s := showStatus "SUDDEN RULES MODE!" s in
let s := applyRandomRule s in
let '(id, s) := setIntervalIn Host.RulesTick intervalMs s in
setChaos (withRules (suddenRulesEnabled (chaos s)) (Some id) (chaos s)) s.

(** The callback of the rules interval. *)
Definition rulesTick (s : Sys) : Sys :=
triggerScreenShake (5 / 10) (applyRandomRule s).

(** [stopSuddenRules] *)
Definition stopSuddenRules (s : Sys) : Sys :=
let s :=
  match rulesInterval (chaos s) with
  | Some id =>
      setChaos (withRules (suddenRulesEnabled (chaos s)) None (chaos s))
        (onHost (Host.clearInterval id) s)
  | None => s
  end in
let s := setChaos (withRules false (rulesInterval (chaos s)) (chaos s)) s in
Engine.setGravity (Vector.mk 0 1) s.

(** *** Chain reaction explosions *)

(** [explodeBody(body)] *)
Definition explodeBody (l : loc) (s : Sys) : Sys :=
match heap s !! l with
| None => s
| Some body =>
    let pos := Matter.position body in
    let force := orElse (Matter.explosionForce body) (5 / 10) in
    let radius := orElse (Matter.explosionRadius body) 200 in
    let s := triggerScreenShake (force * 2) s in
    let s := spawnParticles (Vector.x pos) (Vector.y pos) 20 "#ff4757" s in
    let s := (Tools.toolExplode pos (Some force) (Some radius) s).2 in
    let s := Engine.removeBody l s in
    setTimeoutIn (Host.ChainRescan pos radius) 50 s
end.

(** [other.isExplosive && !other.isStatic] and
    [Vector.magnitude(Vector.sub(other.position, pos)) < radius * 0.8] *)
Definition inChainRange (pos : Vector.t) (radius : R) (other : Matter.Body) : bool :=
Matter.isExplosive other && negb (Matter.isStatic other)
&& Rltb (Vector.magnitude (Vector.sub (Matter.position other) pos)) (radius * (8 / 10)).

(** The callback of the 50 ms timeout of [explodeBody]. *)
Definition chainRescan (pos : Vector.t) (radius : R) (s : Sys) : Sys :=
fold_left (fun s other =>
  match heap s !! other with
  | Some b =>
      if inChainRange pos radius b then
        let '(r, s) := mathRandom s in
        setTimeoutIn (Host.ChainExplode other) (100 + r * 200) s
      else s
  | None => s
  end)
  (Engine.getAllBodies s) s.

(** The callback of the explosion check interval. *)
Definition explosionCheck (s : Sys) : Sys :=
fold_left (fun s l =>
  match heap s !! l with
  | Some body =>
      if Matter.isExplosive body && negb (Matter.isStatic body) then
        let speed := Vector.magnitude (Matter.velocity body) in
        if Rltb 15 speed then explodeBody l s else s
      else s
  | None => s
  end)
  (Engine.getAllBodies s) s.

(** [startExplosionChain] *)
Definition startExplosionChain (s : Sys) : Sys :=
let s := clearIfSet (explosionCheckInterval (chaos s)) s in
let s := setChaos (withExplosions true (explosionCheckInterval (chaos s)) (chaos s)) s in
let '(id, s) := setIntervalIn Host.ExplosionCheck 100 s in
setChaos (withExplosions (autoExplodeEnabled (chaos s)) (Some id) (chaos s)) s.

(** [stopExplosionChain] *)
Definition stopExplosionChain (s : Sys) : Sys :=
let s :=
  match explosionCheckInterval (chaos s) with
  | Some id =>
      setChaos (withExplosions (autoExplodeEnabled (chaos s)) None (chaos s))
        (onHost (Host.clearInterval id) s)
  | None => s
  end in
setChaos (withExplosions false (explosionCheckInterval (chaos s)) (chaos s)) s.

(** What the chain reaction reads of a body object. *)
Definition chainData (b : Matter.Body) : Vector.t * bool * bool * option R * option R :=
(Matter.position b, Matter.isStatic b, Matter.isExplosive b,
 Matter.explosionForce b, Matter.explosionRadius b).

(** [chainData] of the object at [l] *)
Definition chainDataAt (s : Sys) (l : loc) :
  option (Vector.t * bool * bool * option R * option R) :=
chainData <$> heap s !! l.

(** Is the object at [l] moved by [toolExplode(position, _, radius)]: not
    static, closer than [radius], not at the centre. *)
Definition affectedAt (s : Sys) (position : Vector.t) (radius : R) (l : loc) : bool :=
match chainDataAt s l with
| Some (p, static, _, _, _) =>
    negb static
    && (Rltb (Vector.magnitude (Vector.sub p position)) radius
        && Rltb 0 (Vector.magnitude (Vector.sub p position)))
| None => false
end.

(** Is the object at [l] queued by the rescan around [pos]. *)
Definition inRangeAt (s : Sys) (pos : Vector.t) (radius : R) (l : loc) : bool :=
match chainDataAt s l with
| Some (p, static, explosive, _, _) =>
    explosive && negb static
    && Rltb (Vector.magnitude (Vector.sub p pos)) (radius * (8 / 10))
| None => false
end.

(** The timeouts a rescan registers for [targets], in order: timer table,
    next identifier and number of random values drawn. *)
Fixpoint schedule (clock : R) (rnd : nat -> R) (targets : list loc)
    (table : gmap positive Host.Timer) (n : positive) (k : nat)
  : gmap positive Host.Timer * positive * nat :=
match targets with
| [] => (table, n, k)
| l :: rest =>
    schedule clock rnd rest
      (<[n := Host.mkTimer (clock + (100 + rnd k * 200)) None (Host.ChainExplode l)]> table)
      (Pos.succ n) (S k)
end.

(** *** Master toggle *)

(** [enableChaos] *)
Definition enableChaos (s : Sys) : Sys :=
let s := setChaos (withChaosEnabled true (chaos s)) s in
let s := startObjectFlood 3 3000 s in
let s := startSuddenRules 12000 s in
let s := startExplosionChain s in
showStatus "CHAOS MODE ENABLED!" s.

(** [disableChaos] *)
Definition disableChaos (s : Sys) : Sys :=
let s := setChaos (withChaosEnabled false (chaos s)) s in
let s := stopObjectFlood s in
let s := stopSuddenRules s in
let s := stopExplosionChain s in
showStatus "Chaos disabled" s.

(** [toggleChaos] *)
Definition toggleChaos (s : Sys) : bool * Sys :=
let s := if chaosEnabled (chaos s) then disableChaos s else enableChaos s in
(chaosEnabled (chaos s), s).

(** [isChaosEnabled] *)
Definition isChaosEnabled (s : Sys) : bool := chaosEnabled (chaos s).

(** The timer table after [if (handle) clearInterval(handle)]. *)
Definition clearHandle (handle : option positive) (table : gmap positive Host.Timer)
  : gmap positive Host.Timer :=
match handle with
| Some id => delete id table
| None => table
end.

(** The timers of the three loops. *)
Definition isLoopTimer (t : Host.Timer) : bool :=
match Host.callback t with
| Host.FloodTick _ | Host.RulesTick | Host.ExplosionCheck => true
| _ => false
end.

(** The identifiers held by the three timer handles. *)
Definition handles (c : ChaosVars) : list positive :=
omap (fun h => h) [floodInterval c; rulesInterval c; explosionCheckInterval c].

(** Every running loop timer is the one its handle refers to. *)
Definition loopsTracked (s : Sys) : Prop :=
forall id t, Host.timers (host s) !! id = Some t -> isLoopTimer t = true ->
  id ∈ handles (chaos s).

End Chaos.

(** ** The event loop of the host *)

Module Runtime.
Import State.

(** What a callback does when its timer fires. The guard-less
    [window.spawnParticles] call of the delayed bursts is modelled guarded. *)
Definition run (cb : Host.Callback) (s : Sys) : Sys :=
match cb with
| Host.FloodTick intensity => Chaos.floodTick intensity s
| Host.RulesTick => Chaos.rulesTick s
| Host.ExplosionCheck => Chaos.explosionCheck s
| Host.ChainRescan pos radius => Chaos.chainRescan pos radius s
| Host.ChainExplode l => Chaos.explodeBody l s
| Host.BlackHoleExpire h => Special.explodeBlackHole h s
| Host.Burst x y count color => onHost (Host.windowParticles x y count color) s
end.

(** The timer [id] is due: the clock moves to its due time, a timeout
    leaves the table and an interval is scheduled again. *)
Definition advance (id : positive) (t : Host.Timer) (s : Sys) : Sys :=
let time := Rmax (Host.clock (host s)) (Host.due t) in
let table :=
  match Host.period t with
  | Some ms => <[id := Host.mkTimer (time + ms) (Some ms) (Host.callback t)]> (Host.timers (host s))
  | None => delete id (Host.timers (host s))
  end in
onHost (fun h => Host.setClock time (Host.setTimers table (Host.nextTimer h) h)) s.

(** The timer [id] fires: its callback runs at its due time. *)
Definition fire (id : positive) (t : Host.Timer) (s : Sys) : Sys :=
run (Host.callback t) (advance id t s).

(** No timer of the table is due before [t]. *)
Definition earliest (s : Sys) (t : Host.Timer) : Prop :=
forall id' t', Host.timers (host s) !! id' = Some t' -> Host.due t <= Host.due t'.

(** One turn of the event loop. Between two turns nothing moves: the
    physics step of Matter's runner is not part of the model, as when the
    runner is stopped or the time scale is 0. *)
Inductive fires : Sys -> Host.Callback -> Sys -> Prop :=
| fires_timer (s : Sys) (id : positive) (t : Host.Timer) :
    Host.timers (host s) !! id = Some t ->
    earliest s t ->
    fires s (Host.callback t) (fire id t s).

(** Turns of the event loop, with the callbacks fired in order. *)
Inductive runs : Sys -> list Host.Callback -> Sys -> Prop :=
| runs_nil (s : Sys) : runs s [] s
| runs_cons (s s1 s2 : Sys) (cb : Host.Callback) (cbs : list Host.Callback) :
    fires s cb s1 -> runs s1 cbs s2 -> runs s (cb :: cbs) s2.

(** The bodies exploded by a run: those of the [explodeBody] timeouts. *)
Definition exploded (cbs : list Host.Callback) : list loc :=
omap (fun cb => match cb with Host.ChainExplode l => Some l | _ => None end) cbs.

End Runtime.

(** ** Projections of the state used in the statements *)

Module View.
Import State.

(** What the master toggle is about: the variables of chaos.js and the
    timer table. *)
Definition control (s : Sys) : ChaosVars * gmap positive Host.Timer * positive :=
(chaos s, Host.timers (host s), Host.nextTimer (host s)).

(** The part of the state the chain reaction depends on. *)
Definition chainView (s : Sys)
  : list loc * gmap positive Host.Timer * positive * R * nat :=
(Engine.getAllBodies s, Host.timers (host s), Host.nextTimer (host s),
 Host.clock (host s), Host.drawn (host s)).

(** Same body objects as far as the chain reaction reads them, and the same
    random sequence. *)
Definition sameChain (s s' : Sys) : Prop :=
(forall l, Chaos.chainDataAt s' l = Chaos.chainDataAt s l)
/\ Host.random (host s') = Host.random (host s).

(** [s'] is [s] for the chain reaction. *)
Definition chainEq (s s' : Sys) : Prop := sameChain s s' /\ chainView s' = chainView s.

End View.

(** ** Scenarios *)

Module Scenario.
Import State.

(** [Math.random()] returning 0.5 every time. *)
Definition half : nat -> R := fun _ => 1 / 2.

(** The engine just initialised: ground, walls and ceiling are the
    objects 1 to 4. *)
Definition fresh (rnd : nat -> R) : Sys := Engine.initEngine (initial rnd).

(** [toolSpawn(type, position)] for each item in turn. *)
Definition spawnAll (items : list (string * Vector.t)) (s : Sys) : Sys :=
  fold_left (fun s item => (Tools.toolSpawn item.1 item.2 Objects.noOptions s).2)
    items s.

(** The [n]-th object made, when it is a box spawned at (x, y) at time 0
    without options. *)
Definition box (x y : R) (n : nat) : Matter.Body :=
  Matter.create "box" (Matter.Rectangle 50 50) (Vector.mk x y) false false
    (5 / 10) (3 / 10) (1 / 1000)
    (Matter.mkRender Objects.COLORS_BOX (Some "#ffffff22"%string) (Some 2))
    (Some (Matter.ObjId 0 n)).

(** One box, 50 units away from the point (600, 400). *)
Definition oneBox : Sys :=
  spawnAll [("box"%string, Vector.mk 630 440)] (fresh half).


Definition centre : Vector.t := Vector.mk 600 400.

(** [oneBox] after [createBlackHole(600, 400)]: the black hole is the
    black hole object 1 and its body the object 6. *)
Definition withHole : Sys :=
  (Special.createBlackHole 600 400 Special.noOptions oneBox).2.


Definition hole : BlackHole :=
  mkBlackHole 6%positive 350 (8 / 1000) 0 6000 600 400 [] 60.

(** The [n]-th object made, when it is an explosive barrel spawned at
    (x, y) at time 0 without options. *)
Definition barrel (x y : R) (n : nat) : Matter.Body :=
Matter.setExplosive (5 / 10) 200
  (Matter.create "explosive" (Matter.Rectangle 40 60) (Vector.mk x y) false false
     (6 / 10) (2 / 10) (2 / 1000)
     (Matter.mkRender Objects.COLORS_EXPLOSIVE (Some "#ff000088"%string) (Some 4))
     (Some (Matter.ObjId 0 n))).

(** [Math.random()] returning 0 at its third call and 0.5 otherwise. *)
Definition thirdZero : nat -> R := fun n => if Nat.eqb n 2 then 0 else 1 / 2.

(** A line of three barrels, 50 units apart, each within 0.8 * 200 of the
    next: the objects 5, 6 and 7. *)
Definition threeBarrels : Sys :=
spawnAll [("explosive"%string, Vector.mk 100 100);
          ("explosive"%string, Vector.mk 150 100);
          ("explosive"%string, Vector.mk 200 100)]
  (fresh thirdZero).

(** The timers of the run of [threeBarrels] after barrel 5 is ignited: the
    rescans around the three barrels, and the queued explosions. *)
Definition rescan5 : Host.Timer :=
Host.mkTimer 50 None (Host.ChainRescan (Vector.mk 100 100) 200).
Definition explode6 : Host.Timer := Host.mkTimer 150 None (Host.ChainExplode 6).
Definition explode7 : Host.Timer := Host.mkTimer 250 None (Host.ChainExplode 7).
Definition rescan6 : Host.Timer :=
Host.mkTimer 200 None (Host.ChainRescan (Vector.mk 150 100) 200).
Definition explode7again : Host.Timer := Host.mkTimer 400 None (Host.ChainExplode 7).
Definition rescan7 : Host.Timer :=
Host.mkTimer 300 None (Host.ChainRescan (Vector.mk 200 100) 200).
Definition rescan7again : Host.Timer :=
Host.mkTimer 450 None (Host.ChainRescan (Vector.mk 200 100) 200).

(** The states of that run, one for each callback fired. *)
Definition ignited : Sys := Chaos.explodeBody 5 threeBarrels.
Definition run1 : Sys := Runtime.fire 1 rescan5 ignited.
Definition run2 : Sys := Runtime.fire 2 explode6 run1.
Definition run3 : Sys := Runtime.fire 4 rescan6 run2.
Definition run4 : Sys := Runtime.fire 3 explode7 run3.
Definition run5 : Sys := Runtime.fire 6 rescan7 run4.
Definition run6 : Sys := Runtime.fire 5 explode7again run5.
Definition run7 : Sys := Runtime.fire 7 rescan7again run6.

(** The callbacks of that run, in the order they fire. *)
Definition chainRun : list Host.Callback :=
[Host.ChainRescan (Vector.mk 100 100) 200; Host.ChainExplode 6;
 Host.ChainRescan (Vector.mk 150 100) 200; Host.ChainExplode 7;
 Host.ChainRescan (Vector.mk 200 100) 200; Host.ChainExplode 7;
 Host.ChainRescan (Vector.mk 200 100) 200].

(** Every point belongs to the bounds of every body. *)
Definition everywhere (body : Matter.Body) (p : Vector.t) : bool := true.

End Scenario.

(** ** lib/multiplayer/peer.js *)

Module Peer.

(** [ROOM.ID_LENGTH] of constants.js *)
Definition ROOM_ID_LENGTH : nat := 6.

Definition chars : string := "ABCDEFGHIJKLMNOPQRSTUVWXYZ0123456789".

(** [s.charAt(i)]: the empty string when [i] is out of range. *)
Definition charAt (i : nat) (s : string) : string :=
match String.get i s with
| Some c => String c EmptyString
| None => EmptyString
end.

(** The rounds of the [for] loop of [generateRoomId]. *)
Fixpoint generateRoomIdFrom (rounds : nat) (id : string) (h : Host.t) : string * Host.t :=
match rounds with
| O => (id, h)
| S rounds' =>
    let '(r, h) := Host.mathRandom h in
    generateRoomIdFrom rounds'
      (id ++ charAt (Objects.floorMul r (String.length chars) (String.length chars)) chars) h
end.

(** [generateRoomId] *)
Definition generateRoomId (h : Host.t) : string * Host.t :=
generateRoomIdFrom ROOM_ID_LENGTH EmptyString h.

Section WithMessage.
(** The messages that travel over the connections. *)
Context {M : Type}.

(** A PeerJS data connection object, as far as the program reads it. *)
Record Conn : Type := mkConn {
  peer : string;
  open : bool
}.

(** What the functions do to the outside. *)
Inductive Effect : Type :=
| Send (conn : positive) (data : M)
| ConsoleLog (message argument : string)
| MessageCallback (data : M) (from : string)
| ConnectionCallback (from : string)
| DisconnectCallback (from : string).

(** The [let] variables of peer.js. The connection objects live in a
    store; the array [connections] holds references to them. The three
    callbacks are registered or [null]. *)
Record State : Type := mkState {
  peerCreated : bool;
  conns : gmap positive Conn;
  connections : list positive;
  roomId : option string;
  isHost : bool;
  onMessageCallback : bool;
  onConnectionCallback : bool;
  onDisconnectCallback : bool
}.

Definition withConnections (cs : list positive) (st : State) : State :=
mkState (peerCreated st) (conns st) cs (roomId st) (isHost st)
  (onMessageCallback st) (onConnectionCallback st) (onDisconnectCallback st).

(** [conn.peer] of the connection object at [c] *)
Definition peerOf (st : State) (c : positive) : string :=
match conns st !! c with
| Some conn => peer conn
| None => EmptyString
end.

(** [relayMessage(data, senderId)] *)
Definition relayMessage (data : M) (senderId : string) (st : State) : list Effect :=
fold_left (fun out c =>
  match conns st !! c with
  | Some conn =>
      if negb (String.eqb (peer conn) senderId) && open conn
      then out ++ [Send c data] else out
  | None => out
  end) (connections st) [].

(** [broadcast(data)] *)
Definition broadcast (data : M) (st : State) : list Effect :=
fold_left (fun out c =>
  match conns st !! c with
  | Some conn => if open conn then out ++ [Send c data] else out
  | None => out
  end) (connections st) [].

(** The ['data'] listener that [handleConnection] puts on [conn]. *)
Definition onData (c : positive) (data : M) (st : State) : list Effect :=
(if onMessageCallback st then [MessageCallback data (peerOf st c)] else [])
++ (if isHost st then relayMessage data (peerOf st c) st else []).

(** The ['close'] listener that [handleConnection] puts on [conn]. *)
Definition onClose (c : positive) (st : State) : list Effect * State :=
(ConsoleLog "Connection closed:" (peerOf st c)
 :: (if onDisconnectCallback st then [DisconnectCallback (peerOf st c)] else []),
 withConnections (List.filter (fun c' => negb (Pos.eqb c' c)) (connections st)) st).

(** [handleConnection(conn)] *)
Definition handleConnection (c : positive) (st : State) : list Effect * State :=
let st := withConnections (connections st ++ [c]) st in
(ConsoleLog "New connection:" (peerOf st c)
 :: (if onConnectionCallback st then [ConnectionCallback (peerOf st c)] else []),
 st).

(** [getRoomId], [getIsHost], [getConnectionCount], [isConnected] *)
Definition getRoomId (st : State) : option string := roomId st.
Definition getIsHost (st : State) : bool := isHost st.
Definition getConnectionCount (st : State) : nat := length (connections st).
Definition isConnected (st : State) : bool :=
peerCreated st && (isHost st || Nat.ltb 0 (length (connections st))).

(** Is the connection object at [c] open. *)
Definition isOpen (st : State) (c : positive) : bool :=
match conns st !! c with
| Some conn => open conn
| None => false
end.

(** Is the connection object at [c] open, with a peer other than [sender]. *)
Definition relayTarget (st : State) (sender : string) (c : positive) : bool :=
match conns st !! c with
| Some conn => negb (String.eqb (peer conn) sender) && open conn
| None => false
end.

(** The connections a message was sent over, in order. *)
Definition recipients (out : list Effect) : list positive :=
omap (fun e => match e with Send c _ => Some c | _ => None end) out.

End WithMessage.

Arguments Effect : clear implicits.

End Peer.

(** ** lib/multiplayer/sync.js: the senders *)

Module SyncEvents.

Section WithPayload.
(** The [options] of a spawn and the [params] of a tool use travel
    untouched; [noOptions] and [noParams] stand for the default [{}]. *)
Context {O P : Type} (noOptions : O) (noParams : P).

(** The [data] objects of the five kinds of event. *)
Inductive Data : Type :=
| SpawnData (objectType : string) (position : Vector.t) (rotation : R) (options : O)
| ForceData (objectId : option Matter.CustomId) (position direction : Vector.t)
    (strength : R)
| ToolData (toolType : string) (position : Vector.t) (params : P)
| GravityData (gravity : Vector.t)
| CursorData (position : Vector.t) (toolId : string).

(** What a sender needs of its surroundings: the identifier variable of
    sync.js, the two readings of [Date.now()] of [createEvent], and the
    connections of peer.js. *)
Record Env : Type := mkEnv {
  sync : Sync.State;
  now : Z;
  now' : Z;
  peers : Peer.State
}.

(** [const event = createEvent(type, data); broadcast(event); return event] *)
Definition send (ty : string) (d : Data) (env : Env)
  : Sync.Event Data * list (Peer.Effect (Sync.Event Data)) :=
let event := Sync.createEvent ty d (sync env) (now env) (now' env) in
(event, Peer.broadcast event (peers env)).

(** [syncSpawn(objectType, position, rotation = 0, options = {})] *)
Definition syncSpawn (objectType : string) (position : Vector.t)
    (rotation : option R) (options : option O) :=
send Sync.SPAWN
  (SpawnData objectType position (default 0 rotation) (default noOptions options)).

(** [syncForce(objectId, position, direction, strength)] *)
Definition syncForce (objectId : option Matter.CustomId) (position direction : Vector.t)
    (strength : R) :=
send Sync.FORCE (ForceData objectId position direction strength).

(** [syncTool(toolType, position, params = {})] *)
Definition syncTool (toolType : string) (position : Vector.t) (params : option P) :=
send Sync.TOOL (ToolData toolType position (default noParams params)).

(** [syncGravity(gravity)] *)
Definition syncGravity (gravity : Vector.t) :=
send Sync.GRAVITY (GravityData gravity).

(** [syncCursor(position, toolId)] *)
Definition syncCursor (position : Vector.t) (toolId : string) :=
send Sync.CURSOR (CursorData position toolId).

(** What the five senders return: the event, and what [broadcast] did. *)
Inductive Sent (env : Env)
  : Sync.Event Data * list (Peer.Effect (Sync.Event Data)) -> Prop :=
| sent_spawn objectType position rotation options :
    Sent env (syncSpawn objectType position rotation options env)
| sent_force objectId position direction strength :
    Sent env (syncForce objectId position direction strength env)
| sent_tool toolType position params :
    Sent env (syncTool toolType position params env)
| sent_gravity gravity :
    Sent env (syncGravity gravity env)
| sent_cursor position toolId :
    Sent env (syncCursor position toolId env).

(** The handler slot an event built by a sender is meant for. *)
Definition slotOf (d : Data) : Sync.Slot :=
match d with
| SpawnData _ _ _ _ => Sync.OnSpawn
| ForceData _ _ _ _ => Sync.OnForce
| ToolData _ _ _ => Sync.OnTool
| GravityData _ => Sync.OnGravity
| CursorData _ _ => Sync.OnCursor
end.

(** Is the handler of that slot given. *)
Definition present (slot : Sync.Slot) (hs : Sync.Handlers) : bool :=
match slot with
| Sync.OnSpawn => Sync.onSpawn hs
| Sync.OnForce => Sync.onForce hs
| Sync.OnTool => Sync.onTool hs
| Sync.OnGravity => Sync.onGravity hs
| Sync.OnCursor => Sync.onCursor hs
end.

End WithPayload.

Arguments Data : clear implicits.

End SyncEvents.

(** ** lib/multiplayer/sync.js: seeds *)

Module Seed.

(** [ToInt32]: the integer modulo 2^32, read in two's complement. *)
Definition toInt32 (z : Z) : Z := ((z + 2147483648) mod 4294967296 - 2147483648)%Z.

(** [a << n] *)
Definition shl (a n : Z) : Z := toInt32 (Z.shiftl (toInt32 a) (Z.land n 31)).

(** [a & b] *)
Definition band (a b : Z) : Z := Z.land (toInt32 a) (toInt32 b).

(** One round of the loop of [getRoomSeed]; [char] is
    [roomId.charCodeAt(i)]. The numbers involved are integers below 2^53,
    on which the arithmetic of doubles is exact. *)
Definition hashStep (hash char : Z) : Z :=
let hash := (shl hash 5 - hash + char)%Z in
band hash hash.

(** [getRoomSeed(roomId)], on the UTF-16 code units of the string. *)
Definition getRoomSeed (roomId : list Z) : Z :=
Z.abs (fold_left hashStep roomId 0%Z).

(** The code units of a string of characters below 256. *)
Definition codeUnits (s : string) : list Z :=
map (fun c => Z.of_nat (Ascii.nat_of_ascii c)) (list_ascii_of_string s).



(** The Java string hash: the polynomial in 31 of the code units. *)
Definition poly (roomId : list Z) : Z :=
fold_left (fun h c => (31 * h + c)%Z) roomId 0%Z.

End Seed.

(** ** Notions used in the statements *)

Module Terms.
Import State.

(** The body object at [l] exists, is not static, and has [position]
    within its bounds. *)
Definition hit (contains : Matter.Body -> Vector.t -> bool) (position : Vector.t)
    (s : Sys) (l : loc) : Prop :=
exists body,
  heap s !! l = Some body /\ Matter.isStatic body = false
  /\ contains body position = true.

(** Every identifier that objects.js has given out carries a counter
    value below the current one. *)
Definition idsBelowCounter (s : Sys) : Prop :=
forall l body t n,
  heap s !! l = Some body -> Matter.customId body = Some (Matter.ObjId t n) ->
  (n < objectIdCounter s)%nat.

(** Every value of [Math.random()] lies in [0, 1). *)
Definition randomInUnit (s : Sys) : Prop :=
forall k, 0 <= Host.random (host s) k < 1.

(** Every body of the world is static. *)
Definition allStatic (s : Sys) : Prop :=
forall l, In l (Engine.getAllBodies s) -> Engine.isStaticAt s l = true.


(** [s'] has the world of [s], every body object where it was and static
    or not as it was, and the static body objects untouched. *)
Definition sameLayout (s s' : Sys) : Prop :=
Engine.getAllBodies s' = Engine.getAllBodies s
/\ (forall l,
      (fun b => (Matter.position b, Matter.isStatic b)) <$> heap s' !! l
      = (fun b => (Matter.position b, Matter.isStatic b)) <$> heap s !! l)
/\ (forall l b, heap s !! l = Some b -> Matter.isStatic b = true ->
      heap s' !! l = Some b).

(** The timer handles of chaos.js point to timers made earlier. *)
Definition handlesBelowNext (s : Sys) : Prop :=
forall id, id ∈ Chaos.handles (chaos s) -> (id < Host.nextTimer (host s))%positive.

(** Timer identifiers not handed out yet are not in the timer table. *)
Definition timersBelowNext (s : Sys) : Prop :=
forall id, (Host.nextTimer (host s) <= id)%positive -> Host.timers (host s) !! id = None.

(** What the explosion check reads of the body object at [l]. *)
Definition motionAt (s : Sys) (l : loc) : option (Vector.t * bool * bool) :=
(fun b => (Matter.velocity b, Matter.isExplosive b, Matter.isStatic b)) <$> heap s !! l.

(** The body object at [l] is explosive, not static and faster than 15. *)
Definition fastAt (s : Sys) (l : loc) : bool :=
match motionAt s l with
| Some (v, explosive, static) =>
    explosive && negb static && Rltb 15 (Vector.magnitude v)
| None => false
end.

(** [s'] has the velocity and the flags of every body object of [s]. *)
Definition sameMotion (s s' : Sys) : Prop :=
forall l, motionAt s' l = motionAt s l.

(** The identifier [n + i]. *)
Definition timerAfter (n : positive) (i : nat) : positive :=
Pos.of_nat (Pos.to_nat n + i).

(** From [s] to [s'] every black hole has recorded, after the bodies it had
    consumed before, bodies of [ls] that it had not consumed, each once. *)
Definition consumedMore (ls : list loc) (s s' : Sys) : Prop :=
forall h, exists extra,
  Special.consumedOf h s' = Special.consumedOf h s ++ extra
  /\ NoDup extra
  /\ forall l, l ∈ extra -> l ∈ ls /\ l ∉ Special.consumedOf h s.

End Terms.

(** ** lib/physics/tools.js: the other tool actions *)

Module ToolActions.
Import State.

(** How a call ends: it returns a value, or an exception escapes. *)
Inductive Outcome (A : Type) : Type :=
| Returned (value : A)
| Threw (error : string).

Arguments Returned {A} value.
Arguments Threw {A} error.

(** [toolGravityFlip]. Without an engine [flipGravity] returns
    [undefined], and reading [newGravity.y] for the status line throws. *)
Definition toolGravityFlip (s : Sys) : Outcome (option Vector.t) * Sys :=
let '(newGravity, s) := Engine.flipGravity s in
let s := onHost (Host.windowShake (8 / 10)) s in
if Host.hasStatus (host s) then
  match newGravity with
  | Some g =>
      let s :=
        onHost (Host.windowStatus
                  (if Rltb (Vector.y g) 0 then "GRAVITY UP!" else "GRAVITY DOWN!")) s in
      let s :=
        onHost (Host.windowParticles (Engine.CANVAS_WIDTH / 2) (Engine.CANVAS_HEIGHT / 2)
                  15 "#ffeaa7") s in
      (Returned (Some g), s)
  | None => (Threw "TypeError", s)
  end
else
  let s :=
    onHost (Host.windowParticles (Engine.CANVAS_WIDTH / 2) (Engine.CANVAS_HEIGHT / 2)
              15 "#ffeaa7") s in
  (Returned newGravity, s).






(** The [params] of [executeTool]: every call of the program gives a
    position; the other properties may be missing. *)
Record Params : Type := mkParams {
  objectType : option string;
  position : Vector.t;
  direction : option Vector.t;
  grow : option bool
}.

(** What [executeTool] returns when it is not [null]. [Flipped None] is
    the [undefined] of a gravity flip without an engine. *)
Inductive ToolResult : Type :=
| Spawned (result : Tools.SpawnResult)
| Pushed (result : Tools.PushResult)
| Exploded (result : Tools.ExplodeResult)
| Flipped (gravity : option Vector.t)
| Scaled (result : Tools.ScaleResult).

(** [params.objectType || 'box'] *)
Definition objectTypeOr (objectType : option string) : string :=
match objectType with
| Some t => if String.eqb t "" then "box"%string else t
| None => "box"%string
end.

(** [executeTool(toolId, params)] *)
Definition executeTool (contains : Matter.Body -> Vector.t -> bool)
    (toolId : string) (params : Params) (s : Sys)
  : Outcome (option ToolResult) * Sys :=
if String.eqb toolId "spawn" then
  let '(r, s) :=
    Tools.toolSpawn (objectTypeOr (objectType params)) (position params)
      Objects.noOptions s in
  (Returned (Some (Spawned r)), s)
else if String.eqb toolId "push" then
  let '(r, s) :=
    Tools.toolPush (position params) (default (Vector.mk 0 (-1)) (direction params))
      None s in
  (Returned (Some (Pushed r)), s)
else if String.eqb toolId "explode" then
  let '(r, s) := Tools.toolExplode (position params) None None s in
  (Returned (Some (Exploded r)), s)
else if String.eqb toolId "gravity" then
  let '(r, s) := toolGravityFlip s in
  (match r with
   | Returned g => Returned (Some (Flipped g))
   | Threw e => Threw e
   end, s)
else if String.eqb toolId "scale" then
  let '(r, s) := Tools.toolScale contains (position params) (default true (grow params)) s in
  (Returned (Scaled <$> r), s)
else (Returned None, s).

(** The identifiers of [TOOLS]. *)
Definition toolIds : list string := ["spawn"; "push"; "explode"; "gravity"; "scale"]%string.

End ToolActions.

(** ** lib/physics/chaos.js: the state report *)

Module ChaosState.
Import State.

Record Report : Type := mkReport {
  chaos : bool;
  flood : bool;
  rules : bool;
  explosions : bool;
  currentRule : option string
}.

(** [getChaosState]; [currentRule?.name] is [undefined] before the first
    rule. *)
Definition getChaosState (s : Sys) : Report :=
mkReport (chaosEnabled (State.chaos s)) (objectFloodEnabled (State.chaos s))
  (suddenRulesEnabled (State.chaos s)) (autoExplodeEnabled (State.chaos s))
  (Chaos.ruleName <$> State.currentRule (State.chaos s)).

End ChaosState.

(** ** lib/physics/special.js: time control, magnets and the clean up *)

Module TimeControl.
Import State.

(** [let isSlowMo = false; let isFrozen = false;] *)
Record Flags : Type := mkFlags {
  isSlowMo : bool;
  isFrozen : bool
}.

Definition off : Flags := mkFlags false false.

(** [engine.timing.timeScale = k] on the engine [e] *)
Definition withTimeScale (k : R) (e : EngineRec) (s : Sys) : Sys :=
  setEngine (Some (mkEngine (bodies e) (gravity e) k)) s.

(** [toggleSlowMotion] *)
Definition toggleSlowMotion (st : Sys * Flags) : bool * (Sys * Flags) :=
  let '(s, f) := st in
  match engine s with
  | None =>
      (false,
       (onHost (Host.emit (Host.ConsoleError "Time control: No physics engine available")) s,
        f))
  | Some e =>
      if isSlowMo f then
        (false,
         (onHost (Host.windowStatus "NORMAL SPEED") (withTimeScale 1 e s),
          mkFlags false (isFrozen f)))
      else
        (true,
         (onHost (Host.windowStatus "SLOW MOTION!") (withTimeScale (2 / 10) e s),
          mkFlags true (isFrozen f)))
  end.

(** [toggleFreeze] *)
Definition toggleFreeze (st : Sys * Flags) : bool * (Sys * Flags) :=
  let '(s, f) := st in
  match engine s with
  | None => (false, (s, f))
  | Some e =>
      if isFrozen f then
        (false,
         (onHost (Host.windowStatus "UNFROZEN") (withTimeScale 1 e s),
          mkFlags (isSlowMo f) false))
      else
        (true,
         (onHost (Host.windowStatus "FROZEN!") (withTimeScale 0 e s),
          mkFlags (isSlowMo f) true))
  end.

(** The two keys of the time control. *)
Inductive Press : Type := Slow | Freeze.

Definition isSlow (p : Press) : bool :=
  match p with Slow => true | Freeze => false end.

Definition isFreeze (p : Press) : bool :=
  match p with Slow => false | Freeze => true end.

(** One call of the toggle of the key, its result dropped. *)
Definition press (st : Sys * Flags) (p : Press) : Sys * Flags :=
  match p with
  | Slow => (toggleSlowMotion st).2
  | Freeze => (toggleFreeze st).2
  end.

(** The calls of a sequence of key presses, one after another. *)
Definition presses (ps : list Press) (st : Sys * Flags) : Sys * Flags :=
  fold_left press ps st.

(** How many presses of the sequence satisfy [which]. *)
Definition count (which : Press -> bool) (ps : list Press) : nat :=
  length (List.filter which ps).

(** [engine.timing.timeScale], when there is an engine *)
Definition timeScaleOf (s : Sys) : option R := timeScale <$> engine s.

End TimeControl.

Module Magnets.
Import State.

(** A magnet record of special.js; nothing writes to it after its
    creation. *)
Record Magnet : Type := mkMagnet {
  body : loc;
  polarity : R;
  strength : R;
  range : R
}.



(** [body.isStatic || body.label === 'magnet' || body.label === 'blackhole'] *)
Definition skipped (b : Matter.Body) : bool :=
  Matter.isStatic b || String.eqb (Matter.label b) "magnet"
  || String.eqb (Matter.label b) "blackhole".

(** The velocity a magnet at [magnetPos] gives to a body within its
    range. *)
Definition attractedVelocity (magnet : Magnet) (magnetPos : Vector.t)
    (b : Matter.Body) : Vector.t :=
  let direction := Vector.sub magnetPos (Matter.position b) in
  let distance := Vector.magnitude direction in
  let normalizedDir := Vector.normalise direction in
  let pullStrength := Rmin 5 (200 / distance) * polarity magnet in
  let vel := Matter.velocity b in
  Vector.mk (Vector.x vel + Vector.x normalizedDir * pullStrength * (25 / 100))
            (Vector.y vel + Vector.y normalizedDir * pullStrength * (25 / 100)).

(** The body of [bodies.forEach] in [updateMagnets], for a magnet whose
    body sits at [magnetPos]. *)
Definition attractBody (magnet : Magnet) (magnetPos : Vector.t) (s : Sys) (l : loc)
  : Sys :=
  match heap s !! l with
  | None => s
  | Some b =>
      if skipped b then s
      else
        let direction := Vector.sub magnetPos (Matter.position b) in
        let distance := Vector.magnitude direction in
        if Rltb distance (range magnet) && Rltb 30 distance then
          let s := update (Matter.setVelocity (attractedVelocity magnet magnetPos b)) l s in
          let '(r, s) := mathRandom s in
          update (Special.spin ((r - 5 / 10) * (1 / 10))) l s
        else s
  end.


(** The callback of [activeMagnets.filter] in [updateMagnets]: the state
    after the call and the magnets kept so far. *)
Definition tickMagnet (bodies : list loc) (acc : Sys * list Magnet) (magnet : Magnet)
  : Sys * list Magnet :=
  let '(s, kept) := acc in
  match heap s !! body magnet with
  | None => (s, kept)
  | Some mb =>
      (fold_left (attractBody magnet (Matter.position mb)) bodies s, kept ++ [magnet])
  end.

(** [updateMagnets] *)
Definition updateMagnets (st : Sys * list Magnet) : Sys * list Magnet :=
  let '(s, activeMagnets) := st in
  let bodies := Special.getAllBodiesInternal s in
  match bodies with
  | [] => st
  | _ :: _ => fold_left (tickMagnet bodies) activeMagnets (s, [])
  end.




(** [updateSpecialObjects] *)
Definition updateSpecialObjects (st : Sys * list Magnet) : Sys * list Magnet :=
  let '(s, activeMagnets) := st in
  updateMagnets (Special.updateBlackHoles s, activeMagnets).




End Magnets.

(** ** More scenarios *)

Module Scenes.
Import State.





Definition magnet : Magnets.Magnet := Magnets.mkMagnet 6%positive 1 (8 / 1000) 400.

End Scenes.

(** * Properties *)

(** ** Replication layer *)

Section SyncProperties.
Context {D : Type}.
Implicit Types (ev : Sync.Event D) (hs : Sync.Handlers) (st : Sync.State).

Lemma getPlayerId_set (id : string) st now :
  id <> ""%string -> Sync.getPlayerId (Sync.setPlayerId id st) now = id.
Proof.
  intros Hid. unfold Sync.getPlayerId, Sync.setPlayerId. simpl.
  destruct (String.eqb_spec id ""); [contradiction | reflexivity].
Qed.

Lemma handleSyncEvent_self st now ev hs :
  Sync.senderId ev = Sync.getPlayerId st now ->
  Sync.handleSyncEvent st now ev hs = [].
Proof.
  intros Heq. unfold Sync.handleSyncEvent.
  rewrite Heq, String.eqb_refl. reflexivity.
Qed.

(** C1. Once the local identifier has been set (to a non-empty string) with
    [setPlayerId], every event whose [senderId] is that identifier is
    dropped by [handleSyncEvent] before the dispatch: no handler slot is
    invoked (and nothing is logged), whatever the clock reads. *)
Theorem handleSyncEvent_echo_suppressed (id : string) st now ev hs :
  id <> ""%string ->
  Sync.senderId ev = id ->
  Sync.handleSyncEvent (Sync.setPlayerId id st) now ev hs = [].
Proof.
  intros Hid Hsender. apply handleSyncEvent_self.
  rewrite getPlayerId_set by assumption. exact Hsender.
Qed.

(** An event of an unrecognized type that does not come from the local
    player falls through every [case]. *)
Lemma handleSyncEvent_default st now ev hs :
  Sync.senderId ev <> Sync.getPlayerId st now ->
  ~ In (Sync.type ev) Sync.recognized ->
  Sync.handleSyncEvent st now ev hs
  = [Sync.Warn "Unknown sync event type:" (Sync.type ev)].
Proof.
  intros Hother Hty. unfold Sync.handleSyncEvent.
  destruct (String.eqb_spec (Sync.senderId ev) (Sync.getPlayerId st now));
    [contradiction |].
  unfold Sync.recognized in Hty. simpl in Hty.
  repeat match goal with
  | |- context [String.eqb (Sync.type ev) ?c] =>
      destruct (String.eqb_spec (Sync.type ev) c); [exfalso; apply Hty; auto 10 |]
  end.
  reflexivity.
Qed.

(** C8 (as amended). An event that is not the local player's own and whose
    type is none of the five recognized ones makes [handleSyncEvent] log
    exactly one warning and invoke no handler; the function is total, so
    it returns. *)
Theorem handleSyncEvent_unrecognized st now ev hs :
  Sync.senderId ev <> Sync.getPlayerId st now ->
  ~ In (Sync.type ev) Sync.recognized ->
  Sync.handleSyncEvent st now ev hs
  = [Sync.Warn "Unknown sync event type:" (Sync.type ev)]
  /\ forallb (fun e => negb (Sync.invokes_handler e))
       (Sync.handleSyncEvent st now ev hs) = true.
Proof.
  intros Hother Hty.
  rewrite handleSyncEvent_default by assumption. split; reflexivity.
Qed.

End SyncProperties.

Lemma handleSyncEvent_echo_suppressed_witness :
  Sync.handleSyncEvent (Sync.setPlayerId "player_1700000000000" Sync.init) 5
    (Sync.mkEvent "spawn" 3 "player_1700000000000" tt)
    (Sync.mkHandlers true true true true true) = [].
Proof.
  apply (handleSyncEvent_echo_suppressed "player_1700000000000");
    [discriminate | reflexivity].
Defined.

(** Without [setPlayerId] the identifier is derived from the clock at each
    call: an event built locally at time 3 is dispatched when it comes back
    at time 5. *)
Example handleSyncEvent_unset_id_not_suppressed :
  let ev := Sync.createEvent Sync.SPAWN tt Sync.init 3 3 in
  Sync.handleSyncEvent Sync.init 5 ev (Sync.mkHandlers true true true true true)
  = [Sync.Invoke Sync.OnSpawn tt "player_3"].
Proof. reflexivity. Qed.

Lemma handleSyncEvent_unrecognized_witness :
  Sync.handleSyncEvent (Sync.setPlayerId "alice" Sync.init) 0
    (Sync.mkEvent "teleport" 0 "bob" tt) (Sync.mkHandlers true true true true true)
  = [Sync.Warn "Unknown sync event type:" "teleport"]
  /\ forallb (fun e => negb (Sync.invokes_handler e))
       (Sync.handleSyncEvent (Sync.setPlayerId "alice" Sync.init) 0
          (Sync.mkEvent "teleport" 0 "bob" tt)
          (Sync.mkHandlers true true true true true)) = true.
Proof.
  apply handleSyncEvent_unrecognized.
  - vm_compute. discriminate.
  - vm_compute. intuition discriminate.
Defined.

(** C8, as stated, fails for the local player's own events: an event of an
    unrecognized type that carries the local identifier is discarded by the
    echo guard, which sits before the [switch], and no warning is logged. *)
Lemma handleSyncEvent_unrecognized_self_silent :
  let st := Sync.setPlayerId "alice" Sync.init in
  let ev := Sync.mkEvent "teleport" 0 "alice" tt in
  ~ In (Sync.type ev) Sync.recognized
  /\ Sync.handleSyncEvent st 0 ev (Sync.mkHandlers true true true true true) = [].
Proof.
  split.
  - vm_compute. intuition discriminate.
  - reflexivity.
Qed.

(** ** World adapter *)

Section EngineProperties.
Import State.

Lemma removeFirst_other (l x : loc) (bs : list loc) :
  x <> l -> Engine.removeFirst l (x :: bs) = x :: Engine.removeFirst l bs.
Proof.
  intros Hne. simpl. destruct (Pos.eqb_spec x l); [contradiction | reflexivity].
Qed.

Lemma removeFirst_head (l : loc) (bs : list loc) :
  Engine.removeFirst l (l :: bs) = bs.
Proof. simpl. rewrite Pos.eqb_refl. reflexivity. Qed.

(** Removing bodies that all differ from the head leaves the head. *)
Lemma removeAll_keeps_head (toRemove : list loc) (x : loc) (bs : list loc) :
  (forall r, In r toRemove -> r <> x) ->
  Engine.removeAll toRemove (x :: bs) = x :: Engine.removeAll toRemove bs.
Proof.
  revert bs. induction toRemove as [| r toRemove IH]; intros bs Hne.
  - reflexivity.
  - unfold Engine.removeAll in *. cbn [fold_left].
    rewrite removeFirst_other by (intros ->; apply (Hne r); [left |]; reflexivity).
    apply IH. intros r' Hr'. apply Hne. right. exact Hr'.
Qed.

(** [World.remove] of the filtered array leaves exactly the rest. *)
Lemma removeAll_filter (keep : loc -> bool) (bs : list loc) :
  Engine.removeAll (List.filter (fun l => negb (keep l)) bs) bs
  = List.filter keep bs.
Proof.
  induction bs as [| x bs IH].
  - reflexivity.
  - cbn [List.filter]. destruct (keep x) eqn:Hx; cbn [negb].
    + rewrite removeAll_keeps_head.
      * rewrite IH. reflexivity.
      * intros r Hr ->. apply filter_In in Hr as [_ Hr].
        rewrite Hx in Hr. discriminate.
    + unfold Engine.removeAll in *. cbn [fold_left].
      rewrite removeFirst_head. exact IH.
Qed.

(** C9. Without an engine [clearWorld] changes nothing. With one, the
    world keeps exactly its static bodies, in their order: every body of
    the world that is not static is gone, every static one is still
    there, and no body object, gravity or time scale is touched. *)
Theorem clearWorld_removes_exactly_non_static (s : Sys) :
  match engine s with
  | None => Engine.clearWorld s = s
  | Some e =>
      Engine.clearWorld s
      = setEngine (Some (Engine.withBodies
                           (List.filter (Engine.isStaticAt s) (bodies e)) e)) s
      /\ heap (Engine.clearWorld s) = heap s
      /\ (forall l, In l (bodies e) -> Engine.isStaticAt s l = false ->
            ~ In l (Engine.getAllBodies (Engine.clearWorld s)))
      /\ (forall l, In l (bodies e) -> Engine.isStaticAt s l = true ->
            In l (Engine.getAllBodies (Engine.clearWorld s)))
  end.
Proof.
  unfold Engine.clearWorld. destruct (engine s) as [e |] eqn:He; [| reflexivity].
  rewrite removeAll_filter.
  split; [reflexivity |]. split; [reflexivity |].
  unfold Engine.getAllBodies. cbn.
  split; intros l Hin Hst.
  - intros Hl. apply filter_In in Hl as [_ Hl]. congruence.
  - apply filter_In. split; assumption.
Qed.

End EngineProperties.

(** ** Object registry *)

Section ObjectsProperties.
Import State.

Lemma createObject_default (type : string) (x y : R) (o : Objects.Options) (s : Sys) :
  ~ In type Objects.types ->
  Objects.createObject type x y o s = Objects.createBox x y o s.
Proof.
  intros Hty. unfold Objects.createObject.
  unfold Objects.types in Hty. simpl in Hty.
  repeat match goal with
  | |- context [String.eqb type ?c] =>
      destruct (String.eqb_spec type c); [exfalso; apply Hty; auto 10 |]
  end.
  reflexivity.
Qed.

(** Every factory allocates one new body object at the requested place. *)
Lemma createObject_allocates (type : string) (x y : R) (o : Objects.Options) (s : Sys) :
  exists body,
    Objects.createObject type x y o s
    = (nextLoc s,
       mkSys (host s) (<[nextLoc s := body]> (heap s)) (Pos.succ (nextLoc s))
         (engine s) (S (objectIdCounter s)) (chaos s) (special s))
    /\ Matter.position body = Vector.mk x y
    /\ Matter.isStatic body = false
    /\ Matter.customId body
       = Some (Matter.ObjId (Host.now (host s)) (objectIdCounter s))
    /\ Matter.customScale body = None.
Proof.
  unfold Objects.createObject.
  repeat match goal with
  | |- context [String.eqb type ?c] => destruct (String.eqb type c)
  end;
  eexists; (split; [reflexivity | repeat split]).
Qed.

(** C10. For every type string [createObject] returns a reference to a
    new body object placed at the given position; for a string that is
    none of the eight archetype tags the call is [createBox] with the
    same position and options, so that the body is a box with the
    archetype's dimensions unless overridden. [toolSpawn] then returns a
    result that carries the requested type, the position and the
    identifier of that body, and the body is in the world (when there is
    one). *)
Theorem createObject_total_with_box_fallback
    (type : string) (position : Vector.t) (o : Objects.Options) (s : Sys) :
  let x := Vector.x position in
  let y := Vector.y position in
  let created := Objects.createObject type x y o s in
  let spawned := Tools.toolSpawn type position o s in
  exists body,
    created.1 = nextLoc s
    /\ heap created.2 !! created.1 = Some body
    /\ Matter.position body = Vector.mk x y
    /\ (~ In type Objects.types ->
          created = Objects.createBox x y o s
          /\ Matter.label body = "box"%string
          /\ Matter.shape body
             = Matter.Rectangle (default 50 (Objects.width o))
                                (default 50 (Objects.height o)))
    /\ spawned.1 = Tools.mkSpawnResult type position (Matter.customId body)
    /\ heap spawned.2 !! nextLoc s = Some body
    /\ (forall e, engine s = Some e ->
          Engine.getAllBodies spawned.2 = bodies e ++ [nextLoc s]).
Proof.
  intros x y created spawned.
  destruct (createObject_allocates type x y o s) as (body & Hc & Hpos & _ & Hid & _).
  exists body. subst created spawned. unfold Tools.toolSpawn.
  fold x y. rewrite Hc. cbn [fst snd].
  split; [reflexivity |].
  split; [apply lookup_insert_eq |].
  split; [exact Hpos |].
  split.
  { intros Hty. rewrite createObject_default in Hc by exact Hty.
    split; [symmetry; exact Hc |].
    unfold Objects.createBox, Objects.generateId, alloc in Hc. cbn in Hc.
    injection Hc as Hc. apply (f_equal (fun m => m !! nextLoc s)) in Hc.
    rewrite !lookup_insert_eq in Hc. injection Hc as <-. split; reflexivity. }
  unfold Tools.customIdAt, Engine.addBody, onHost, setHost, setEngine.
  destruct (engine s) as [e |] eqn:He; cbn;
    rewrite !lookup_insert_eq; (split; [reflexivity |]); (split; [reflexivity |]).
  - intros e' [= <-]. unfold Engine.getAllBodies. cbn. reflexivity.
  - intros e' [=].
Qed.

End ObjectsProperties.

(** ** Tool executor *)

Lemma Rltb_true (a b : R) : Rltb a b = true <-> a < b.
Proof. unfold Rltb. destruct (Rlt_dec a b); split; intros; auto; discriminate. Qed.

Lemma Rltb_false (a b : R) : Rltb a b = false <-> b <= a.
Proof.
  unfold Rltb. destruct (Rlt_dec a b); split; intros; auto; try discriminate; lra.
Qed.

Lemma Rleb_true (a b : R) : Rleb a b = true <-> a <= b.
Proof. unfold Rleb. destruct (Rle_dec a b); split; intros; auto; discriminate. Qed.

Lemma Rleb_false (a b : R) : Rleb a b = false <-> b < a.
Proof.
  unfold Rleb. destruct (Rle_dec a b); split; intros; auto; try discriminate; lra.
Qed.

Lemma Reqb_true (a b : R) : Reqb a b = true <-> a = b.
Proof. unfold Reqb. destruct (Req_dec_T a b); split; intros; auto; discriminate. Qed.

Lemma Reqb_false (a b : R) : Reqb a b = false <-> a <> b.
Proof.
  unfold Reqb. destruct (Req_dec_T a b); split; intros; auto; try discriminate.
  contradiction.
Qed.

Section ScaleProperties.
Import State.
Variable contains : Matter.Body -> Vector.t -> bool.

(** The two ways [toolScale] ends. *)
Lemma toolScale_cases (position : Vector.t) (grow : bool) (s : Sys) :
  Tools.toolScale contains position grow s = (None, s)
  \/ exists l body,
       Engine.getBodyAtPosition contains position s = Some l
       /\ heap s !! l = Some body
       /\ let newScale := Tools.currentScale body * Tools.scaleFactor grow in
          3 / 10 <= newScale <= 3
          /\ heap (Tools.toolScale contains position grow s).2
             = alter (Matter.setCustomScale newScale)
                 l (alter (Matter.scale (Tools.scaleFactor grow) (Tools.scaleFactor grow))
                      l (heap s)).
Proof.
  unfold Tools.toolScale.
  destruct (Engine.getBodyAtPosition contains position s) as [l |] eqn:Hfind;
    [| left; reflexivity].
  destruct (heap s !! l) as [body |] eqn:Hl; [| left; reflexivity].
  destruct (Matter.isStatic body); cbn [negb]; [left; reflexivity |].
  destruct (Rleb (3 / 10) _) eqn:Hlo; [| left; reflexivity].
  destruct (Rleb _ 3) eqn:Hhi; cbn [andb]; [| left; reflexivity].
  right. exists l, body. apply Rleb_true in Hlo, Hhi.
  split; [reflexivity |]. split; [exact Hl |]. cbn. split; [lra | reflexivity].
Qed.

Lemma currentScale_setCustomScale (n : R) (body : Matter.Body) :
  n <> 0 -> Tools.currentScale (Matter.setCustomScale n body) = n.
Proof.
  intros Hn. unfold Tools.currentScale. cbn.
  destruct (Reqb n 0) eqn:Hz; [apply Reqb_true in Hz; contradiction | reflexivity].
Qed.

Lemma toolScale_preserves_bounds (position : Vector.t) (grow : bool) (s : Sys) :
  Tools.scalesWithinBounds s ->
  Tools.scalesWithinBounds (Tools.toolScale contains position grow s).2.
Proof.
  intros Hok.
  destruct (toolScale_cases position grow s)
    as [-> | (l & body & _ & Hl & Hrange & Hheap)]; [exact Hok |].
  intros l' body' Hl'. rewrite Hheap in Hl'.
  destruct (decide (l' = l)) as [-> |Hne].
  - rewrite !lookup_alter_eq, Hl in Hl'. cbn in Hl'. injection Hl' as <-.
    rewrite currentScale_setCustomScale by lra. exact Hrange.
  - rewrite !lookup_alter_ne in Hl' by congruence. exact (Hok _ _ Hl').
Qed.

Lemma scaleMany_preserves_bounds (calls : list (Vector.t * bool)) (s : Sys) :
  Tools.scalesWithinBounds s ->
  Tools.scalesWithinBounds (Tools.scaleMany contains calls s).
Proof.
  revert s. induction calls as [| call calls IH]; intros s Hok; [exact Hok |].
  unfold Tools.scaleMany in *. cbn [fold_left]. apply IH.
  apply toolScale_preserves_bounds. exact Hok.
Qed.

Lemma toolScale_rejects (position : Vector.t) (grow : bool) (s : Sys) (l : loc)
    (body : Matter.Body) :
  Engine.getBodyAtPosition contains position s = Some l ->
  heap s !! l = Some body ->
  ~ (3 / 10 <= Tools.currentScale body * Tools.scaleFactor grow <= 3) ->
  Tools.toolScale contains position grow s = (None, s).
Proof.
  intros Hfind Hl Hout.
  destruct (toolScale_cases position grow s)
    as [-> | (l' & body' & Hfind' & Hl' & Hrange & _)]; [reflexivity |].
  rewrite Hfind in Hfind'. injection Hfind' as <-.
  rewrite Hl in Hl'. injection Hl' as <-. cbn in Hrange. contradiction.
Qed.

(** C3. Starting from bodies whose tracked scale lies in [0.3, 3] (a new
    body has none, which counts as 1), any sequence of [toolScale] calls,
    growing or shrinking, at any positions, leaves the tracked scale of
    every body in [0.3, 3]. A call that finds a body whose scale times the
    factor would leave [0.3, 3] returns [null] and leaves the whole state
    as it was: the body is not scaled and its tracked scale is not
    written. *)
Theorem toolScale_keeps_scale_within_bounds
    (calls : list (Vector.t * bool)) (s : Sys) :
  Tools.scalesWithinBounds s ->
  (forall l body, heap (Tools.scaleMany contains calls s) !! l = Some body ->
     3 / 10 <= Tools.currentScale body <= 3)
  /\ (forall position grow l body,
        Engine.getBodyAtPosition contains position s = Some l ->
        heap s !! l = Some body ->
        ~ (3 / 10 <= Tools.currentScale body * Tools.scaleFactor grow <= 3) ->
        Tools.toolScale contains position grow s = (None, s)).
Proof.
  intros Hok. split.
  - exact (scaleMany_preserves_bounds calls s Hok).
  - intros position grow l body. apply toolScale_rejects.
Qed.

End ScaleProperties.

(** *** Vectors *)




(** [magnitude v < b] from the squares. *)
Lemma magnitude_lt (v : Vector.t) (b : R) :
  0 < b -> Vector.x v * Vector.x v + Vector.y v * Vector.y v < b * b ->
  Vector.magnitude v < b.
Proof.
  intros Hb Hsq. unfold Vector.magnitude.
  rewrite <- (sqrt_square b) by lra. apply sqrt_lt_1; nra.
Qed.

Lemma magnitude_pos (v : Vector.t) :
  0 < Vector.x v * Vector.x v + Vector.y v * Vector.y v -> 0 < Vector.magnitude v.
Proof. intros H. apply sqrt_lt_R0. exact H. Qed.

(** *** Push and explode *)

Section ForceProperties.
Import State.

(** Rounds of a [forEach] that each rewrite the object they visit, over
    an array without repetition: an object outside the array is left
    alone, one inside is rewritten once. *)
Lemma lookup_fold_alter_notin {V : Type} (f : loc -> V -> V) (ls : list loc)
    (m : gmap loc V) (l : loc) :
  l ∉ ls ->
  fold_left (fun m l => alter (f l) l m) ls m !! l = m !! l.
Proof.
  revert m. induction ls as [| a ls IH]; intros m Hnotin; [reflexivity |].
  apply not_elem_of_cons in Hnotin as [Hne Hnotin].
  cbn [fold_left]. rewrite IH by exact Hnotin.
  apply lookup_alter_ne. congruence.
Qed.

Lemma lookup_fold_alter_in {V : Type} (f : loc -> V -> V) (ls : list loc)
    (m : gmap loc V) (l : loc) :
  NoDup ls -> l ∈ ls ->
  fold_left (fun m l => alter (f l) l m) ls m !! l = f l <$> m !! l.
Proof.
  revert m. induction ls as [| a ls IH]; intros m Hnd Hin;
    [apply elem_of_nil in Hin; destruct Hin |].
  apply NoDup_cons in Hnd as [Ha Hnd]. cbn [fold_left].
  apply elem_of_cons in Hin as [-> | Hin].
  - rewrite lookup_fold_alter_notin by exact Ha. apply lookup_alter_eq.
  - rewrite IH by assumption. rewrite lookup_alter_ne; [reflexivity |].
    intros ->. contradiction.
Qed.

Lemma pushBody_heap (position direction : Vector.t) (force radius : R)
    (s : Sys) (n : nat) (l : loc) :
  heap (Tools.pushBody position direction force radius (s, n) l).1
  = alter (Tools.pushEffect position direction force radius) l (heap s).
Proof.
  unfold Tools.pushBody, Tools.pushEffect.
  destruct (heap s !! l) as [body |] eqn:Hl.
  - destruct (Matter.isStatic body) eqn:Hst.
    + cbn. symmetry. apply alter_id. intros b Hb.
      rewrite Hl in Hb. injection Hb as <-. rewrite Hst. reflexivity.
    + destruct (Rltb _ radius) eqn:Hd.
      * cbn. apply alter_ext. intros b Hb.
        rewrite Hl in Hb. injection Hb as <-. rewrite Hst, Hd. reflexivity.
      * cbn. symmetry. apply alter_id. intros b Hb.
        rewrite Hl in Hb. injection Hb as <-. rewrite Hst, Hd. reflexivity.
  - cbn. symmetry. apply alter_id. intros b Hb. congruence.
Qed.

Lemma fold_pushBody_heap (position direction : Vector.t) (force radius : R)
    (ls : list loc) (s : Sys) (n : nat) :
  heap (fold_left (Tools.pushBody position direction force radius) ls (s, n)).1
  = fold_left (fun m l => alter (Tools.pushEffect position direction force radius) l m)
      ls (heap s).
Proof.
  revert s n. induction ls as [| a ls IH]; intros s n; [reflexivity |].
  cbn [fold_left].
  destruct (Tools.pushBody position direction force radius (s, n) a) as [s1 n1] eqn:Hstep.
  rewrite IH. f_equal.
  change s1 with (s1, n1).1. rewrite <- Hstep. apply pushBody_heap.
Qed.

Lemma toolPush_heap (position direction : Vector.t) (force : option R) (s : Sys) :
  heap (Tools.toolPush position direction force s).2
  = fold_left
      (fun m l => alter (Tools.pushEffect position direction
                           (default Tools.TOOLS_PUSH_force force) 120) l m)
      (Engine.getAllBodies s) (heap s).
Proof.
  unfold Tools.toolPush.
  rewrite <- fold_pushBody_heap with (n := 0%nat).
  destruct (fold_left _ _ _) as [s1 n1]. cbn [fst snd].
  destruct (Nat.ltb 0 n1); reflexivity.
Qed.

Lemma toolPush_lookup (position direction : Vector.t) (force : option R) (s : Sys)
    (l : loc) :
  NoDup (Engine.getAllBodies s) -> l ∈ Engine.getAllBodies s ->
  heap (Tools.toolPush position direction force s).2 !! l
  = Tools.pushEffect position direction (default Tools.TOOLS_PUSH_force force) 120
      <$> heap s !! l.
Proof.
  intros Hnd Hin. rewrite toolPush_heap.
  rewrite lookup_fold_alter_in by assumption. reflexivity.
Qed.

(** The push force is the direction argument, scaled. *)
Lemma pushForce_scaled (direction : Vector.t) (force radius distance : R) :
  Tools.pushForce direction force radius distance
  = Vector.scale (force * (1 - distance / radius) * (15 / 10)) direction.
Proof.
  unfold Tools.pushForce, Vector.scale. f_equal; ring.
Qed.

(** C5 (as amended). [toolPush] leaves static bodies and bodies at 120
    units or more from the push position as they are, and adds to every
    other body of the world the force
    [direction * force * (1 - distance / 120) * 1.5]: the caller's
    direction vector, the same for all bodies, attenuated by the linear
    falloff. Objects outside the world are not touched. *)
Theorem toolPush_applies_attenuated_force
    (position direction : Vector.t) (force : option R) (s : Sys)
    (l : loc) (body : Matter.Body) :
  let f := default Tools.TOOLS_PUSH_force force in
  let s' := (Tools.toolPush position direction force s).2 in
  let d := Vector.magnitude (Vector.sub (Matter.position body) position) in
  NoDup (Engine.getAllBodies s) ->
  l ∈ Engine.getAllBodies s ->
  heap s !! l = Some body ->
  (Matter.isStatic body = true -> heap s' !! l = Some body)
  /\ (120 <= d -> heap s' !! l = Some body)
  /\ (Matter.isStatic body = false -> d < 120 ->
        heap s' !! l
        = Some (Matter.applyForce
                  (Vector.scale (f * (1 - d / 120) * (15 / 10)) direction) body))
  /\ (forall l', l' ∉ Engine.getAllBodies s -> heap s' !! l' = heap s !! l').
Proof.
  intros f s' d Hnd Hin Hl. subst s'.
  rewrite toolPush_lookup by assumption. rewrite Hl. cbn [fmap option_fmap option_map].
  unfold Tools.pushEffect. fold d f.
  split; [intros ->; reflexivity |].
  split.
  { intros Hd. apply Rltb_false in Hd. rewrite Hd.
    destruct (Matter.isStatic body); reflexivity. }
  split.
  { intros -> Hd. apply Rltb_true in Hd. rewrite Hd.
    rewrite pushForce_scaled. reflexivity. }
  intros l' Hl'. rewrite toolPush_heap. apply lookup_fold_alter_notin. exact Hl'.
Qed.

Lemma explodeBodyAt_spec (position : Vector.t) (force radius : R)
    (s : Sys) (n : nat) (l : loc) :
  let res := Tools.explodeBodyAt position force radius (s, n) l in
  heap res.1
  = alter (Tools.explodeEffect position force radius
             (Host.random (host s) (Host.drawn (host s)))) l (heap s)
  /\ engine res.1 = engine s
  /\ Host.random (host res.1) = Host.random (host s)
  /\ (Host.drawn (host s) <= Host.drawn (host res.1))%nat.
Proof.
  unfold Tools.explodeBodyAt, Tools.explodeEffect.
  destruct (heap s !! l) as [body |] eqn:Hl.
  - destruct (Matter.isStatic body) eqn:Hst.
    + cbn. repeat split; [| lia]. symmetry. apply alter_id. intros b Hb.
      rewrite Hl in Hb. injection Hb as <-. rewrite Hst. reflexivity.
    + destruct (Rltb _ radius && Rltb 0 _) eqn:Hd.
      * cbn. repeat split; [| lia].
        rewrite alter_alter_eq. apply alter_ext. intros b Hb.
        rewrite Hl in Hb. injection Hb as <-. rewrite Hst, Hd. reflexivity.
      * cbn. repeat split; [| lia]. symmetry. apply alter_id. intros b Hb.
        rewrite Hl in Hb. injection Hb as <-. rewrite Hst, Hd. reflexivity.
  - cbn. repeat split; [| lia]. symmetry. apply alter_id. intros b Hb. congruence.
Qed.






Lemma magnitude_zero : Vector.magnitude Vector.zero = 0.
Proof.
  unfold Vector.magnitude, Vector.zero. cbn.
  replace (0 * 0 + 0 * 0) with 0 by ring. apply sqrt_0.
Qed.




End ForceProperties.

(** *** The scenarios *)

Section ScenarioFacts.
Import State.

Lemma magnitude_eq (v : Vector.t) (m : R) :
  0 <= m -> Vector.x v * Vector.x v + Vector.y v * Vector.y v = m * m ->
  Vector.magnitude v = m.
Proof.
  intros Hm Hsq. unfold Vector.magnitude. rewrite Hsq. apply sqrt_square. exact Hm.
Qed.



Lemma oneBox_bodies :
  Engine.getAllBodies Scenario.oneBox = [1; 2; 3; 4; 5]%positive.
Proof. reflexivity. Qed.

Lemma oneBox_NoDup : NoDup (Engine.getAllBodies Scenario.oneBox).
Proof.
  rewrite oneBox_bodies. apply (bool_decide_unpack _). vm_compute. reflexivity.
Qed.

Lemma oneBox_member : 5%positive ∈ Engine.getAllBodies Scenario.oneBox.
Proof. rewrite oneBox_bodies. set_solver. Qed.







(** The box of [oneBox] is the object 5, at (30, 40) from the centre. *)
Lemma oneBox_box :
  heap Scenario.oneBox !! 5%positive = Some (Scenario.box 630 440 0).
Proof. reflexivity. Qed.

Lemma oneBox_distance :
  Vector.magnitude
    (Vector.sub (Matter.position (Scenario.box 630 440 0)) Scenario.centre) = 50.
Proof. apply magnitude_eq; cbn; lra. Qed.

End ScenarioFacts.

(** *** Scale: reachable states *)

Section ScaleReachable.
Import State.

Lemma currentScale_fresh (body : Matter.Body) :
  Matter.customScale body = None -> 3 / 10 <= Tools.currentScale body <= 3.
Proof. intros H. unfold Tools.currentScale. rewrite H. cbn. lra. Qed.

Lemma scalesWithinBounds_insert (s s' : Sys) (l : loc) (body : Matter.Body) :
  heap s' = <[l := body]> (heap s) ->
  Matter.customScale body = None ->
  Tools.scalesWithinBounds s -> Tools.scalesWithinBounds s'.
Proof.
  intros Hheap Hfresh Hok l' body' Hl'. rewrite Hheap in Hl'.
  destruct (decide (l = l')) as [-> | Hne].
  - rewrite lookup_insert_eq in Hl'. injection Hl' as <-.
    apply currentScale_fresh. exact Hfresh.
  - rewrite lookup_insert_ne in Hl' by exact Hne. exact (Hok _ _ Hl').
Qed.

Lemma initial_scalesWithinBounds (rnd : nat -> R) :
  Tools.scalesWithinBounds (initial rnd).
Proof. intros l body Hl. cbn in Hl. rewrite lookup_empty in Hl. discriminate. Qed.

Lemma initEngine_scalesWithinBounds (s : Sys) :
  Tools.scalesWithinBounds s -> Tools.scalesWithinBounds (Engine.initEngine s).
Proof.
  intros Hok l body Hl. unfold Engine.initEngine, alloc in Hl. cbn in Hl.
  repeat (apply lookup_insert_Some in Hl as [[_ <-] | [_ Hl]];
          [apply currentScale_fresh; reflexivity |]).
  exact (Hok _ _ Hl).
Qed.

Lemma toolSpawn_scalesWithinBounds (type : string) (position : Vector.t)
    (o : Objects.Options) (s : Sys) :
  Tools.scalesWithinBounds s ->
  Tools.scalesWithinBounds (Tools.toolSpawn type position o s).2.
Proof.
  intros Hok.
  destruct (createObject_allocates type (Vector.x position) (Vector.y position) o s)
    as (body & Hc & _ & _ & _ & Hfresh).
  apply (scalesWithinBounds_insert s _ (nextLoc s) body); [| exact Hfresh | exact Hok].
  unfold Tools.toolSpawn. rewrite Hc. unfold Engine.addBody.
  cbn. destruct (engine s); reflexivity.
Qed.

Lemma spawnAll_scalesWithinBounds (items : list (string * Vector.t)) (s : Sys) :
  Tools.scalesWithinBounds s -> Tools.scalesWithinBounds (Scenario.spawnAll items s).
Proof.
  revert s. induction items as [| item items IH]; intros s Hok; [exact Hok |].
  unfold Scenario.spawnAll in *. cbn [fold_left]. apply IH.
  apply toolSpawn_scalesWithinBounds. exact Hok.
Qed.

Lemma oneBox_scalesWithinBounds : Tools.scalesWithinBounds Scenario.oneBox.
Proof.
  apply spawnAll_scalesWithinBounds, initEngine_scalesWithinBounds,
    initial_scalesWithinBounds.
Qed.

End ScaleReachable.

(** Three clicks of the grow tool on the box of [oneBox]. *)
Lemma toolScale_keeps_scale_within_bounds_witness :
  let calls := [(Scenario.centre, true); (Scenario.centre, true); (Scenario.centre, true)] in
  Tools.scalesWithinBounds Scenario.oneBox
  /\ forall l body,
       State.heap (Tools.scaleMany Scenario.everywhere calls Scenario.oneBox) !! l = Some body ->
       3 / 10 <= Tools.currentScale body <= 3.
Proof.
  intros calls. split; [exact oneBox_scalesWithinBounds |].
  exact (proj1 (toolScale_keeps_scale_within_bounds Scenario.everywhere calls
                  Scenario.oneBox oneBox_scalesWithinBounds)).
Defined.

(** A push upwards next to the box of [oneBox]. *)
Lemma toolPush_applies_attenuated_force_witness :
  let s := Scenario.oneBox in
  let s' := (Tools.toolPush Scenario.centre (Vector.mk 0 (-1)) None s).2 in
  State.heap s' !! 5%positive
  = Some (Matter.applyForce
            (Vector.scale (5 / 100 * (1 - 50 / 120) * (15 / 10)) (Vector.mk 0 (-1)))
            (Scenario.box 630 440 0)).
Proof.
  cbv zeta.
  pose proof (toolPush_applies_attenuated_force Scenario.centre (Vector.mk 0 (-1)) None
                Scenario.oneBox 5%positive (Scenario.box 630 440 0) oneBox_NoDup) as H.
  rewrite oneBox_distance in H.
  destruct H as (_ & _ & H & _).
  - exact oneBox_member.
  - exact oneBox_box.
  - apply H; [reflexivity | lra].
Defined.

(** C5, as stated, fails: the force does not point from the push position
    to the body. The box of [oneBox] sits at (30, 40) from the push
    position; the force it receives from a push with direction (0, -1) is
    vertical, hence no multiple of (30, 40). *)
Lemma toolPush_force_not_radial :
  let s := Scenario.oneBox in
  let s' := (Tools.toolPush Scenario.centre (Vector.mk 0 (-1)) None s).2 in
  State.heap s !! 5%positive = Some (Scenario.box 630 440 0)
  /\ Vector.sub (Matter.position (Scenario.box 630 440 0)) Scenario.centre
     = Vector.mk (630 - 600) (440 - 400)
  /\ ~ exists k : R,
         Tools.appliedForce s s' 5%positive
         = Vector.scale k (Vector.mk (630 - 600) (440 - 400)).
Proof.
  cbv zeta. split; [exact oneBox_box |]. split; [reflexivity |].
  intros [k Hk]. unfold Tools.appliedForce in Hk.
  pose proof (toolPush_lookup Scenario.centre (Vector.mk 0 (-1)) None Scenario.oneBox
                5%positive oneBox_NoDup oneBox_member) as Hlookup.
  rewrite Hlookup in Hk. clear Hlookup.
  rewrite oneBox_box in Hk. cbn [fmap option_fmap option_map] in Hk.
  unfold Tools.pushEffect in Hk. rewrite oneBox_distance in Hk.
  replace (Matter.isStatic (Scenario.box 630 440 0)) with false in Hk by reflexivity.
  replace (Rltb 50 120) with true in Hk by (symmetry; apply Rltb_true; lra).
  cbn in Hk. injection Hk as Hx Hy.
  unfold Tools.TOOLS_PUSH_force in *. lra.
Qed.



(** ** Special effects: black holes *)

Section BlackHoleProperties.
Import State.

Lemma includes_elem_of (l : loc) (ls : list loc) :
  Special.includes l ls = true <-> l ∈ ls.
Proof.
  unfold Special.includes. rewrite existsb_exists. split.
  - intros (x & Hin & Heq). apply Pos.eqb_eq in Heq as ->.
    apply list_elem_of_In. exact Hin.
  - intros Hin. exists l. split; [apply list_elem_of_In; exact Hin | apply Pos.eqb_refl].
Qed.










End BlackHoleProperties.

Section BlackHoleScenario.
Import State.










End BlackHoleScenario.


(** ** Chaos orchestrator *)

Section ChaosControl.
Import State.
Import View.

Lemma control_fold {A : Type} (f : Sys -> A -> Sys) (ls : list A) (s : Sys) :
  (forall s a, control (f s a) = control s) ->
  control (fold_left f ls s) = control s.
Proof.
  intros Hf. revert s. induction ls as [| a ls IH]; intros s; [reflexivity |].
  cbn [fold_left]. rewrite IH. apply Hf.
Qed.

Lemma control_update (f : Matter.Body -> Matter.Body) (l : loc) (s : Sys) :
  control (update f l s) = control s.
Proof. reflexivity. Qed.

Lemma control_mathRandom (s : Sys) : control (mathRandom s).2 = control s.
Proof. reflexivity. Qed.

Lemma control_emit (o : Host.Output) (s : Sys) :
  control (onHost (Host.emit o) s) = control s.
Proof. reflexivity. Qed.

Lemma control_onHost (f : Host.t -> Host.t) (s : Sys) :
  (forall h, Host.timers (f h) = Host.timers h /\ Host.nextTimer (f h) = Host.nextTimer h) ->
  control (onHost f s) = control s.
Proof.
  intros Hf. unfold control, onHost. cbn.
  destruct (Hf (host s)) as [-> ->]. reflexivity.
Qed.

Lemma windowParticles_table (x y : R) (n : nat) (c : string) (h : Host.t) :
  Host.timers (Host.windowParticles x y n c h) = Host.timers h
  /\ Host.nextTimer (Host.windowParticles x y n c h) = Host.nextTimer h.
Proof. unfold Host.windowParticles. destruct (Host.hasParticles h); split; reflexivity. Qed.

Lemma windowShake_table (i : R) (h : Host.t) :
  Host.timers (Host.windowShake i h) = Host.timers h
  /\ Host.nextTimer (Host.windowShake i h) = Host.nextTimer h.
Proof. unfold Host.windowShake. destruct (Host.hasShake h); split; reflexivity. Qed.

Lemma windowStatus_table (m : string) (h : Host.t) :
  Host.timers (Host.windowStatus m h) = Host.timers h
  /\ Host.nextTimer (Host.windowStatus m h) = Host.nextTimer h.
Proof. unfold Host.windowStatus. destruct (Host.hasStatus h); split; reflexivity. Qed.

Lemma control_showStatus (m : string) (s : Sys) :
  control (Chaos.showStatus m s) = control s.
Proof. unfold Chaos.showStatus. destruct (statusCallback (chaos s)); reflexivity. Qed.

Lemma control_triggerScreenShake (i : R) (s : Sys) :
  control (Chaos.triggerScreenShake i s) = control s.
Proof.
  unfold Chaos.triggerScreenShake. destruct (screenShakeCallback (chaos s)); reflexivity.
Qed.

Lemma control_spawnParticles (x y : R) (n : nat) (c : string) (s : Sys) :
  control (Chaos.spawnParticles x y n c s) = control s.
Proof.
  unfold Chaos.spawnParticles. destruct (particleCallback (chaos s)); reflexivity.
Qed.

Lemma control_setGravity (g : Vector.t) (s : Sys) :
  control (Engine.setGravity g s) = control s.
Proof. unfold Engine.setGravity. destruct (engine s); reflexivity. Qed.

Lemma control_explodeBodyAt (position : Vector.t) (force radius : R)
    (acc : Sys * nat) (l : loc) :
  control (Tools.explodeBodyAt position force radius acc l).1 = control acc.1.
Proof.
  destruct acc as [s n]. unfold Tools.explodeBodyAt.
  destruct (heap s !! l) as [b |]; [| reflexivity].
  destruct (Matter.isStatic b); [reflexivity |].
  destruct (Rltb _ radius && Rltb 0 _); reflexivity.
Qed.

Lemma control_toolExplode (position : Vector.t) (force radius : option R) (s : Sys) :
  control (Tools.toolExplode position force radius s).2 = control s.
Proof.
  unfold Tools.toolExplode.
  set (f := Tools.explodeBodyAt position _ _).
  assert (H : forall ls acc, control (fold_left f ls acc).1 = control acc.1).
  { induction ls as [| a ls IH]; intros acc; [reflexivity |].
    cbn [fold_left]. rewrite IH. apply control_explodeBodyAt. }
  specialize (H (Engine.getAllBodies s) (s, 0%nat)).
  destruct (fold_left f (Engine.getAllBodies s) (s, 0%nat)) as [s1 n1].
  cbn [fst snd] in *. rewrite <- H.
  apply control_onHost. intros h.
  destruct (windowShake_table (12 / 10)
              (Host.windowParticles (Vector.x position) (Vector.y position) 25
                 "#ff6b6b" h)) as [-> ->].
  apply windowParticles_table.
Qed.

Lemma control_ruleAction (i : nat) (s : Sys) :
  control (Chaos.ruleAction i s) = control s.
Proof.
  destruct i as [| [| [| [| [| [| [| [| [| [| i]]]]]]]]]]; cbn [Chaos.ruleAction];
    try apply control_setGravity;
    try (apply control_fold; intros s' l;
         destruct (Engine.isStaticAt s' l); reflexivity);
    try reflexivity.
  - (* explodeRandomObject *)
    unfold Chaos.explodeRandomObject.
    destruct (Nat.ltb 0 _); [| reflexivity].
    cbn [mathRandom Host.mathRandom]. cbv zeta.
    set (s1 := setHost _ s).
    destruct (nth_error _ _) as [randomBody |]; [| reflexivity].
    destruct (heap s1 !! randomBody) as [b |]; [| reflexivity].
    rewrite control_spawnParticles, control_triggerScreenShake, control_toolExplode.
    reflexivity.
  - (* launchEverythingUp *)
    unfold Chaos.launchEverythingUp. rewrite control_triggerScreenShake.
    apply control_fold. intros s' l. destruct (Engine.isStaticAt s' l); reflexivity.
Qed.

(** [applyRandomRule] writes [currentRule] and nothing else of the three. *)
Lemma control_applyRandomRule (s : Sys) :
  exists r,
    control (Chaos.applyRandomRule s)
    = (Chaos.withCurrentRule (Some r) (chaos s),
       Host.timers (host s), Host.nextTimer (host s)).
Proof.
  unfold Chaos.applyRandomRule. cbn [mathRandom Host.mathRandom]. cbv zeta.
  eexists. rewrite control_ruleAction, control_showStatus. reflexivity.
Qed.

Lemma control_startObjectFlood (intensity : nat) (ms : R) (s : Sys) :
  control (Chaos.startObjectFlood intensity ms s)
  = (Chaos.withFlood true (Some (Host.nextTimer (host s))) (chaos s),
     <[Host.nextTimer (host s) :=
         Host.mkTimer (Host.clock (host s) + ms) (Some ms) (Host.FloodTick intensity)]>
       (Chaos.clearHandle (floodInterval (chaos s)) (Host.timers (host s))),
     Pos.succ (Host.nextTimer (host s))).
Proof.
  unfold Chaos.startObjectFlood, Chaos.clearIfSet, Chaos.showStatus, Chaos.setIntervalIn.
  destruct (floodInterval (chaos s)); cbn;
    destruct (statusCallback (chaos s)); reflexivity.
Qed.

Lemma control_stopObjectFlood (s : Sys) :
  control (Chaos.stopObjectFlood s)
  = (Chaos.withFlood false None (chaos s),
     Chaos.clearHandle (floodInterval (chaos s)) (Host.timers (host s)),
     Host.nextTimer (host s)).
Proof.
  unfold Chaos.stopObjectFlood, control.
  destruct (floodInterval (chaos s)) eqn:Hf; cbn; [reflexivity |].
  unfold Chaos.withFlood. rewrite Hf. reflexivity.
Qed.

Lemma control_startSuddenRules (ms : R) (s : Sys) :
  exists r t,
    Chaos.isLoopTimer t = true
    /\ control (Chaos.startSuddenRules ms s)
        = (Chaos.withRules true (Some (Host.nextTimer (host s)))
             (Chaos.withCurrentRule (Some r) (chaos s)),
           <[Host.nextTimer (host s) := t]>
             (Chaos.clearHandle (rulesInterval (chaos s)) (Host.timers (host s))),
           Pos.succ (Host.nextTimer (host s))).
Proof.
  unfold Chaos.startSuddenRules.
  set (s1 := Chaos.showStatus _ _).
  assert (H1 : control s1
               = (Chaos.withRules true (rulesInterval (chaos s)) (chaos s),
                  Chaos.clearHandle (rulesInterval (chaos s)) (Host.timers (host s)),
                  Host.nextTimer (host s))).
  { subst s1. rewrite control_showStatus. unfold Chaos.clearIfSet, control.
    destruct (rulesInterval (chaos s)) eqn:Hf; cbn; rewrite ?Hf; reflexivity. }
  destruct (control_applyRandomRule s1) as [r Hr]. clearbody s1.
  set (s2 := Chaos.applyRandomRule s1) in *. clearbody s2.
  unfold control in H1, Hr. injection H1 as Hc1 Ht1 Hn1. injection Hr as Hc2 Ht2 Hn2.
  exists r. eexists. split; [| unfold Chaos.setIntervalIn, control; cbn;
                             rewrite Hc2, Ht2, Hn2, Hc1, Ht1, Hn1; reflexivity].
  reflexivity.
Qed.

Lemma control_stopSuddenRules (s : Sys) :
  control (Chaos.stopSuddenRules s)
  = (Chaos.withRules false None (chaos s),
     Chaos.clearHandle (rulesInterval (chaos s)) (Host.timers (host s)),
     Host.nextTimer (host s)).
Proof.
  unfold Chaos.stopSuddenRules. rewrite control_setGravity. unfold control.
  destruct (rulesInterval (chaos s)) eqn:Hf; cbn; [reflexivity |].
  unfold Chaos.withRules. rewrite Hf. reflexivity.
Qed.

Lemma control_startExplosionChain (s : Sys) :
  control (Chaos.startExplosionChain s)
  = (Chaos.withExplosions true (Some (Host.nextTimer (host s))) (chaos s),
     <[Host.nextTimer (host s) :=
         Host.mkTimer (Host.clock (host s) + 100) (Some 100) Host.ExplosionCheck]>
       (Chaos.clearHandle (explosionCheckInterval (chaos s)) (Host.timers (host s))),
     Pos.succ (Host.nextTimer (host s))).
Proof.
  unfold Chaos.startExplosionChain, Chaos.clearIfSet, Chaos.setIntervalIn.
  destruct (explosionCheckInterval (chaos s)); reflexivity.
Qed.

Lemma control_stopExplosionChain (s : Sys) :
  control (Chaos.stopExplosionChain s)
  = (Chaos.withExplosions false None (chaos s),
     Chaos.clearHandle (explosionCheckInterval (chaos s)) (Host.timers (host s)),
     Host.nextTimer (host s)).
Proof.
  unfold Chaos.stopExplosionChain, control.
  destruct (explosionCheckInterval (chaos s)) eqn:Hf; cbn; [reflexivity |].
  unfold Chaos.withExplosions. rewrite Hf. reflexivity.
Qed.

(** [enableChaos]: three new timers, with consecutive identifiers, after
    the timers of the old handles have been cleared. *)
Lemma control_enableChaos (s : Sys) :
  let n1 := Host.nextTimer (host s) in
  let n2 := Pos.succ n1 in
  let n3 := Pos.succ n2 in
  exists r t1 t2 t3,
    control (Chaos.enableChaos s)
    = (Chaos.withExplosions true (Some n3)
         (Chaos.withRules true (Some n2)
            (Chaos.withCurrentRule (Some r)
               (Chaos.withFlood true (Some n1)
                  (Chaos.withChaosEnabled true (chaos s))))),
       <[n3 := t3]>
         (Chaos.clearHandle (explosionCheckInterval (chaos s))
            (<[n2 := t2]>
               (Chaos.clearHandle (rulesInterval (chaos s))
                  (<[n1 := t1]>
                     (Chaos.clearHandle (floodInterval (chaos s))
                        (Host.timers (host s))))))),
       Pos.succ n3).
Proof.
  intros n1 n2 n3. unfold Chaos.enableChaos. cbv zeta.
  set (s0 := setChaos (Chaos.withChaosEnabled true (chaos s)) s).
  pose proof (control_startObjectFlood 3 3000 s0) as H1.
  set (s1 := Chaos.startObjectFlood 3 3000 s0) in *. clearbody s1.
  destruct (control_startSuddenRules 12000 s1) as (r & t2 & _ & H2).
  set (s2 := Chaos.startSuddenRules 12000 s1) in *. clearbody s2.
  pose proof (control_startExplosionChain s2) as H3.
  set (s3 := Chaos.startExplosionChain s2) in *. clearbody s3.
  rewrite control_showStatus.
  unfold control in H1, H2, H3.
  injection H1 as Hc1 Ht1 Hn1. injection H2 as Hc2 Ht2 Hn2.
  injection H3 as Hc3 Ht3 Hn3.
  exists r. do 3 eexists. unfold control.
  rewrite Hc3, Ht3, Hn3, Hc2, Ht2, Hn2, Hc1, Ht1, Hn1. subst s0. cbn. reflexivity.
Qed.

Lemma control_disableChaos (s : Sys) :
  control (Chaos.disableChaos s)
  = (Chaos.withExplosions false None
       (Chaos.withRules false None
          (Chaos.withFlood false None (Chaos.withChaosEnabled false (chaos s)))),
     Chaos.clearHandle (explosionCheckInterval (chaos s))
       (Chaos.clearHandle (rulesInterval (chaos s))
          (Chaos.clearHandle (floodInterval (chaos s)) (Host.timers (host s)))),
     Host.nextTimer (host s)).
Proof.
  unfold Chaos.disableChaos. cbv zeta.
  set (s0 := setChaos (Chaos.withChaosEnabled false (chaos s)) s).
  pose proof (control_stopObjectFlood s0) as H1.
  set (s1 := Chaos.stopObjectFlood s0) in *. clearbody s1.
  pose proof (control_stopSuddenRules s1) as H2.
  set (s2 := Chaos.stopSuddenRules s1) in *. clearbody s2.
  pose proof (control_stopExplosionChain s2) as H3.
  set (s3 := Chaos.stopExplosionChain s2) in *. clearbody s3.
  rewrite control_showStatus.
  unfold control in H1, H2, H3.
  injection H1 as Hc1 Ht1 Hn1. injection H2 as Hc2 Ht2 Hn2.
  injection H3 as Hc3 Ht3 Hn3.
  unfold control.
  rewrite Hc3, Ht3, Hn3, Hc2, Ht2, Hn2, Hc1, Ht1, Hn1. subst s0. cbn. reflexivity.
Qed.

Lemma clearHandle_lookup (h : option positive) (table : gmap positive Host.Timer)
    (id : positive) (t : Host.Timer) :
  Chaos.clearHandle h table !! id = Some t -> table !! id = Some t /\ h <> Some id.
Proof.
  destruct h as [id' |]; cbn; intros H.
  - apply lookup_delete_Some in H as [Hne H]. split; [exact H | congruence].
  - split; [exact H | discriminate].
Qed.

(** C6. Two calls of [toggleChaos] in a row bring [chaosEnabled] back to
    its value. When chaos was disabled before and every running loop timer
    was the one its handle pointed to (as is the case from the start), the
    three timer handles are [null] after the two calls and the timer table
    holds no timer of the flood, rules or explosion-check loops. *)
Theorem toggleChaos_twice (s : Sys) :
  let s1 := (Chaos.toggleChaos s).2 in
  let s2 := (Chaos.toggleChaos s1).2 in
  (Chaos.toggleChaos s1).1 = chaosEnabled (chaos s)
  /\ chaosEnabled (chaos s2) = chaosEnabled (chaos s)
  /\ (chaosEnabled (chaos s) = false -> Chaos.loopsTracked s ->
        (Chaos.toggleChaos s).1 = true
        /\ floodInterval (chaos s2) = None
        /\ rulesInterval (chaos s2) = None
        /\ explosionCheckInterval (chaos s2) = None
        /\ objectFloodEnabled (chaos s2) = false
        /\ suddenRulesEnabled (chaos s2) = false
        /\ autoExplodeEnabled (chaos s2) = false
        /\ forall id t, Host.timers (host s2) !! id = Some t ->
             Chaos.isLoopTimer t = false).
Proof.
  intros s1 s2. subst s2 s1. unfold Chaos.toggleChaos. cbn [fst snd].
  destruct (chaosEnabled (chaos s)) eqn:Hen.
  - (* enabled: disable, then enable *)
    pose proof (control_disableChaos s) as Hd.
    set (s1 := Chaos.disableChaos s) in *. clearbody s1.
    unfold control in Hd. injection Hd as Hc1 _ _.
    assert (H1 : chaosEnabled (chaos s1) = false) by (rewrite Hc1; reflexivity).
    rewrite H1.
    destruct (control_enableChaos s1) as (r & t1 & t2 & t3 & He).
    unfold control in He. injection He as Hc2 _ _.
    rewrite Hc2. cbn. split; [reflexivity |]. split; [reflexivity |].
    intros Hf. discriminate.
  - (* disabled: enable, then disable *)
    destruct (control_enableChaos s) as (r & t1 & t2 & t3 & He).
    set (s1 := Chaos.enableChaos s) in *. clearbody s1.
    unfold control in He. injection He as Hc1 Ht1 Hn1.
    assert (H1 : chaosEnabled (chaos s1) = true) by (rewrite Hc1; reflexivity).
    rewrite H1.
    pose proof (control_disableChaos s1) as Hd.
    set (s2 := Chaos.disableChaos s1) in *. clearbody s2.
    unfold control in Hd. injection Hd as Hc2 Ht2 _.
    rewrite Hc2. cbn. split; [reflexivity |]. split; [reflexivity |].
    intros _ Htracked. do 7 (split; [reflexivity |]).
    intros id t Hlookup. destruct (Chaos.isLoopTimer t) eqn:Hloop; [| reflexivity].
    exfalso. rewrite Ht2, Hc1, Ht1 in Hlookup. cbn in Hlookup.
    apply lookup_delete_Some in Hlookup as [Hne3 Hlookup].
    apply lookup_delete_Some in Hlookup as [Hne2 Hlookup].
    apply lookup_delete_Some in Hlookup as [Hne1 Hlookup].
    rewrite lookup_insert_ne in Hlookup by exact Hne3.
    apply clearHandle_lookup in Hlookup as [Hlookup Hh3].
    rewrite lookup_insert_ne in Hlookup by exact Hne2.
    apply clearHandle_lookup in Hlookup as [Hlookup Hh2].
    rewrite lookup_insert_ne in Hlookup by exact Hne1.
    apply clearHandle_lookup in Hlookup as [Hlookup Hh1].
    specialize (Htracked id t Hlookup Hloop). unfold Chaos.handles in Htracked.
    destruct (floodInterval (chaos s)) as [h1 |],
             (rulesInterval (chaos s)) as [h2 |],
             (explosionCheckInterval (chaos s)) as [h3 |];
      cbn in Htracked;
      repeat (apply elem_of_cons in Htracked as [-> | Htracked]; [congruence |]);
      apply elem_of_nil in Htracked; exact Htracked.
Qed.

End ChaosControl.

(** *** Chain reaction *)

Section ChainReaction.
Import State.
Import View.

Lemma sameChain_refl (s : Sys) : sameChain s s.
Proof. split; reflexivity. Qed.

Lemma sameChain_trans (s1 s2 s3 : Sys) :
  sameChain s1 s2 -> sameChain s2 s3 -> sameChain s1 s3.
Proof.
  intros [H1 R1] [H2 R2]. split; [intros l; rewrite H2; apply H1 | congruence].
Qed.

Lemma affectedAt_sameChain (s s' : Sys) (p : Vector.t) (r : R) (l : loc) :
  sameChain s s' -> Chaos.affectedAt s' p r l = Chaos.affectedAt s p r l.
Proof. intros [H _]. unfold Chaos.affectedAt. rewrite H. reflexivity. Qed.

Lemma inRangeAt_sameChain (s s' : Sys) (p : Vector.t) (r : R) (l : loc) :
  sameChain s s' -> Chaos.inRangeAt s' p r l = Chaos.inRangeAt s p r l.
Proof. intros [H _]. unfold Chaos.inRangeAt. rewrite H. reflexivity. Qed.

Lemma chainData_explodeEffect (p : Vector.t) (f r x : R) (b : Matter.Body) :
  Chaos.chainData (Tools.explodeEffect p f r x b) = Chaos.chainData b.
Proof.
  unfold Tools.explodeEffect. destruct (Matter.isStatic b); [reflexivity |].
  destruct (Rltb _ r && Rltb 0 _); reflexivity.
Qed.

(** One round of the [forEach] of [toolExplode], seen from the chain. *)
Lemma explodeBodyAt_chain (p : Vector.t) (f r : R) (s : Sys) (n : nat) (l : loc) :
  let s' := (Tools.explodeBodyAt p f r (s, n) l).1 in
  sameChain s s'
  /\ chainView s'
     = (Engine.getAllBodies s, Host.timers (host s), Host.nextTimer (host s),
        Host.clock (host s),
        (Host.drawn (host s) + (if Chaos.affectedAt s p r l then 1 else 0))%nat).
Proof.
  intros s'.
  destruct (explodeBodyAt_spec p f r s n l) as (Hheap & _ & Hrnd & _).
  fold s' in Hheap, Hrnd.
  split.
  { split; [| exact Hrnd]. intros l'. unfold Chaos.chainDataAt. rewrite Hheap.
    destruct (decide (l' = l)) as [-> | Hne].
    - rewrite lookup_alter_eq. destruct (heap s !! l) as [b |]; [| reflexivity].
      cbn. rewrite chainData_explodeEffect. reflexivity.
    - rewrite lookup_alter_ne by congruence. reflexivity. }
  subst s'. unfold Tools.explodeBodyAt, Chaos.affectedAt, Chaos.chainDataAt, chainView.
  destruct (heap s !! l) as [b |]; cbn [fmap option_fmap option_map fst];
    [| rewrite Nat.add_0_r; reflexivity].
  unfold Chaos.chainData.
  destruct (Matter.isStatic b); cbn [negb andb]; [rewrite Nat.add_0_r; reflexivity |].
  destruct (Rltb _ r && Rltb 0 _); cbn; [| rewrite Nat.add_0_r; reflexivity].
  rewrite Nat.add_1_r. reflexivity.
Qed.

Lemma fold_explode_chain (p : Vector.t) (f r : R) (ls : list loc) (s : Sys) (n : nat) :
  let s' := (fold_left (Tools.explodeBodyAt p f r) ls (s, n)).1 in
  sameChain s s'
  /\ chainView s'
     = (Engine.getAllBodies s, Host.timers (host s), Host.nextTimer (host s),
        Host.clock (host s),
        (Host.drawn (host s) + length (List.filter (Chaos.affectedAt s p r) ls))%nat).
Proof.
  revert s n. induction ls as [| a ls IH]; intros s n; cbn [fold_left].
  - split; [apply sameChain_refl |]. unfold chainView. cbn. rewrite Nat.add_0_r.
    reflexivity.
  - destruct (explodeBodyAt_chain p f r s n a) as [Hsame Hview].
    destruct (Tools.explodeBodyAt p f r (s, n) a) as [s1 n1]. cbn [fst] in *.
    destruct (IH s1 n1) as [Hsame' Hview'].
    split; [exact (sameChain_trans _ _ _ Hsame Hsame') |].
    rewrite Hview'. unfold chainView in Hview. injection Hview as -> -> -> -> ->.
    rewrite (List.filter_ext _ _ (fun l => affectedAt_sameChain s s1 p r l Hsame)).
    cbn [List.filter]. destruct (Chaos.affectedAt s p r a); cbn [length];
      f_equal; lia.
Qed.

Lemma toolExplode_chain (p : Vector.t) (f r : option R) (s : Sys) :
  let s' := (Tools.toolExplode p f r s).2 in
  sameChain s s'
  /\ chainView s'
     = (Engine.getAllBodies s, Host.timers (host s), Host.nextTimer (host s),
        Host.clock (host s),
        (Host.drawn (host s)
         + length (List.filter
                     (Chaos.affectedAt s p (default Tools.TOOLS_EXPLODE_radius r))
                     (Engine.getAllBodies s)))%nat).
Proof.
  intros s'. subst s'. unfold Tools.toolExplode.
  destruct (fold_explode_chain p (default Tools.TOOLS_EXPLODE_force f)
              (default Tools.TOOLS_EXPLODE_radius r) (Engine.getAllBodies s) s 0%nat)
    as [Hsame Hview].
  destruct (fold_left _ _ _) as [s1 n1]. cbn [fst snd] in *.
  rewrite <- Hview. unfold onHost, Host.windowShake, Host.windowParticles.
  destruct (Host.hasParticles (host s1)) eqn:Hp; cbn; rewrite ?Hp;
    destruct (Host.hasShake (host s1)) eqn:Hs; cbn; rewrite ?Hs;
    (split; [exact Hsame | reflexivity]).
Qed.

Lemma chainEq_emit (o : Host.Output) (s : Sys) : chainEq s (onHost (Host.emit o) s).
Proof. split; [split |]; reflexivity. Qed.

Lemma chainEq_triggerScreenShake (i : R) (s : Sys) :
  chainEq s (Chaos.triggerScreenShake i s).
Proof.
  unfold Chaos.triggerScreenShake. destruct (screenShakeCallback (chaos s));
    [apply chainEq_emit | split; [apply sameChain_refl | reflexivity]].
Qed.

Lemma chainEq_spawnParticles (x y : R) (n : nat) (c : string) (s : Sys) :
  chainEq s (Chaos.spawnParticles x y n c s).
Proof.
  unfold Chaos.spawnParticles. destruct (particleCallback (chaos s));
    [apply chainEq_emit | split; [apply sameChain_refl | reflexivity]].
Qed.

Lemma removeBody_bodies (l : loc) (s : Sys) :
  Engine.getAllBodies (Engine.removeBody l s)
  = Engine.removeFirst l (Engine.getAllBodies s).
Proof.
  unfold Engine.removeBody, Engine.getAllBodies.
  destruct (engine s) eqn:He; cbn; rewrite ?He; reflexivity.
Qed.

(** [explodeBody], seen from the chain: the body leaves the world, the
    rescan is due 50 ms later, and [toolExplode] has drawn one random value
    for each body it moved. *)
Lemma explodeBody_chain (l : loc) (s : Sys) (pos : Vector.t) (st ex : bool)
    (fo ra : option R) :
  Chaos.chainDataAt s l = Some (pos, st, ex, fo, ra) ->
  let radius := orElse ra 200 in
  let s' := Chaos.explodeBody l s in
  sameChain s s'
  /\ chainView s'
     = (Engine.removeFirst l (Engine.getAllBodies s),
        <[Host.nextTimer (host s) :=
            Host.mkTimer (Host.clock (host s) + 50) None (Host.ChainRescan pos radius)]>
          (Host.timers (host s)),
        Pos.succ (Host.nextTimer (host s)),
        Host.clock (host s),
        (Host.drawn (host s)
         + length (List.filter (Chaos.affectedAt s pos radius) (Engine.getAllBodies s)))%nat).
Proof.
  intros Hdata radius s'. subst s'. unfold Chaos.explodeBody.
  unfold Chaos.chainDataAt in Hdata.
  destruct (heap s !! l) as [b |] eqn:Hl; [| discriminate].
  cbn in Hdata. unfold Chaos.chainData in Hdata. injection Hdata as Hpos _ _ _ Hra.
  rewrite Hpos, Hra. fold radius.
  set (f := orElse (Matter.explosionForce b) (5 / 10)).
  destruct (chainEq_triggerScreenShake (f * 2) s) as [Hs1 Hv1].
  set (s1 := Chaos.triggerScreenShake (f * 2) s) in *.
  destruct (chainEq_spawnParticles (Vector.x pos) (Vector.y pos) 20 "#ff4757" s1)
    as [Hs2 Hv2].
  set (s2 := Chaos.spawnParticles _ _ _ _ s1) in *.
  destruct (toolExplode_chain pos (Some f) (Some radius) s2) as [Hs3 Hv3].
  set (s3 := (Tools.toolExplode pos (Some f) (Some radius) s2).2) in *.
  assert (Hs02 : sameChain s s2) by exact (sameChain_trans _ _ _ Hs1 Hs2).
  split.
  { apply (sameChain_trans _ s3); [exact (sameChain_trans _ _ _ Hs02 Hs3) |].
    unfold Chaos.setTimeoutIn, Engine.removeBody, sameChain, Chaos.chainDataAt.
    destruct (engine s3); split; reflexivity. }
  unfold chainView in *. rewrite Hv1 in Hv2. clear Hv1.
  injection Hv2 as Hb2 Ht2 Hn2 Hc2 Hd2. injection Hv3 as Hb3 Ht3 Hn3 Hc3 Hd3.
  unfold Chaos.setTimeoutIn, Host.setTimeout. cbn.
  replace (Engine.getAllBodies _) with (Engine.removeFirst l (Engine.getAllBodies s3))
    by (rewrite <- removeBody_bodies; reflexivity).
  assert (Hhost : host (Engine.removeBody l s3) = host s3)
    by (unfold Engine.removeBody; destruct (engine s3); reflexivity).
  rewrite Hhost, Hb3, Ht3, Hn3, Hc3, Hd3, Hb2, Ht2, Hn2, Hc2, Hd2.
  cbn [default from_option]. unfold Datatypes.id.
  rewrite (List.filter_ext _ _ (fun l' => affectedAt_sameChain s s2 pos radius l' Hs02)).
  reflexivity.
Qed.

(** The rescan, seen from the chain: one timeout for each explosive body of
    the world in range, in the order of the world. *)
Lemma fold_rescan_chain (pos : Vector.t) (radius : R) (ls : list loc) (s : Sys) :
  let s' :=
    fold_left (fun s other =>
      match heap s !! other with
      | Some b =>
          if Chaos.inChainRange pos radius b then
            let '(r, s) := mathRandom s in
            Chaos.setTimeoutIn (Host.ChainExplode other) (100 + r * 200) s
          else s
      | None => s
      end) ls s in
  sameChain s s'
  /\ chainView s'
     = (Engine.getAllBodies s,
        (Chaos.schedule (Host.clock (host s)) (Host.random (host s))
           (List.filter (Chaos.inRangeAt s pos radius) ls)
           (Host.timers (host s)) (Host.nextTimer (host s)) (Host.drawn (host s))).1.1,
        (Chaos.schedule (Host.clock (host s)) (Host.random (host s))
           (List.filter (Chaos.inRangeAt s pos radius) ls)
           (Host.timers (host s)) (Host.nextTimer (host s)) (Host.drawn (host s))).1.2,
        Host.clock (host s),
        (Chaos.schedule (Host.clock (host s)) (Host.random (host s))
           (List.filter (Chaos.inRangeAt s pos radius) ls)
           (Host.timers (host s)) (Host.nextTimer (host s)) (Host.drawn (host s))).2).
Proof.
  revert s. induction ls as [| a ls IH]; intros s; cbn [fold_left].
  - split; [apply sameChain_refl | reflexivity].
  - set (s1 := match heap s !! a with
               | Some b =>
                   if Chaos.inChainRange pos radius b then
                     let '(r, s0) := mathRandom s in
                     Chaos.setTimeoutIn (Host.ChainExplode a) (100 + r * 200) s0
                   else s
               | None => s
               end).
    assert (H1 : sameChain s s1
                 /\ chainView s1
                    = (Engine.getAllBodies s,
                       (Chaos.schedule (Host.clock (host s)) (Host.random (host s))
                          (if Chaos.inRangeAt s pos radius a then [a] else [])
                          (Host.timers (host s)) (Host.nextTimer (host s))
                          (Host.drawn (host s))).1.1,
                       (Chaos.schedule (Host.clock (host s)) (Host.random (host s))
                          (if Chaos.inRangeAt s pos radius a then [a] else [])
                          (Host.timers (host s)) (Host.nextTimer (host s))
                          (Host.drawn (host s))).1.2,
                       Host.clock (host s),
                       (Chaos.schedule (Host.clock (host s)) (Host.random (host s))
                          (if Chaos.inRangeAt s pos radius a then [a] else [])
                          (Host.timers (host s)) (Host.nextTimer (host s))
                          (Host.drawn (host s))).2)).
    { subst s1. unfold Chaos.inRangeAt, Chaos.chainDataAt.
      destruct (heap s !! a) as [b |]; cbn [fmap option_fmap option_map];
        [| split; [apply sameChain_refl | reflexivity]].
      unfold Chaos.chainData, Chaos.inChainRange.
      destruct (Matter.isExplosive b && negb (Matter.isStatic b) && Rltb _ _);
        split; try apply sameChain_refl; try reflexivity.
      split; reflexivity. }
    clearbody s1. destruct H1 as [Hsame1 Hview1].
    destruct (IH s1) as [Hsame' Hview'].
    split; [exact (sameChain_trans _ _ _ Hsame1 Hsame') |].
    rewrite Hview'. clear Hview' IH.
    rewrite (List.filter_ext _ _ (fun l => inRangeAt_sameChain s s1 pos radius l Hsame1)).
    destruct Hsame1 as [_ Hrnd]. rewrite Hrnd.
    unfold chainView in Hview1. injection Hview1 as Hb Ht Hn Hc Hd.
    rewrite Hb, Ht, Hn, Hc, Hd. cbn [List.filter].
    destruct (Chaos.inRangeAt s pos radius a); reflexivity.
Qed.

Lemma chainRescan_chain (pos : Vector.t) (radius : R) (s : Sys) :
  let s' := Chaos.chainRescan pos radius s in
  let targets := List.filter (Chaos.inRangeAt s pos radius) (Engine.getAllBodies s) in
  let plan :=
    Chaos.schedule (Host.clock (host s)) (Host.random (host s)) targets
      (Host.timers (host s)) (Host.nextTimer (host s)) (Host.drawn (host s)) in
  sameChain s s'
  /\ chainView s' = (Engine.getAllBodies s, plan.1.1, plan.1.2, Host.clock (host s), plan.2).
Proof. apply fold_rescan_chain. Qed.

(** A timeout that becomes due. *)
Lemma advance_timeout_chain (id : positive) (t : Host.Timer) (s : Sys) :
  Host.period t = None ->
  sameChain s (Runtime.advance id t s)
  /\ chainView (Runtime.advance id t s)
     = (Engine.getAllBodies s, delete id (Host.timers (host s)),
        Host.nextTimer (host s), Rmax (Host.clock (host s)) (Host.due t),
        Host.drawn (host s)).
Proof.
  intros Hp. unfold Runtime.advance. rewrite Hp. split; [split |]; reflexivity.
Qed.

(** [explodeBody] on a state that is [s0] for the chain. *)
Lemma explodeBody_view (s0 s : Sys) (l : loc) (B : list loc)
    (T : gmap positive Host.Timer) (n : positive) (c : R) (d : nat)
    (pos : Vector.t) (st ex : bool) (fo ra : option R) :
  sameChain s0 s ->
  chainView s = (B, T, n, c, d) ->
  Chaos.chainDataAt s0 l = Some (pos, st, ex, fo, ra) ->
  let radius := orElse ra 200 in
  sameChain s0 (Chaos.explodeBody l s)
  /\ chainView (Chaos.explodeBody l s)
     = (Engine.removeFirst l B,
        <[n := Host.mkTimer (c + 50) None (Host.ChainRescan pos radius)]> T,
        Pos.succ n, c,
        (d + length (List.filter (Chaos.affectedAt s0 pos radius) B))%nat).
Proof.
  intros Hsame Hview Hdata radius.
  assert (Hdata' : Chaos.chainDataAt s l = Some (pos, st, ex, fo, ra))
    by (destruct Hsame as [H _]; rewrite H; exact Hdata).
  destruct (explodeBody_chain l s pos st ex fo ra Hdata') as [Hs Hv].
  split; [exact (sameChain_trans _ _ _ Hsame Hs) |].
  rewrite Hv. unfold chainView in Hview. injection Hview as -> -> -> -> ->.
  fold radius.
  rewrite (List.filter_ext _ _ (fun l' => affectedAt_sameChain s0 s pos radius l' Hsame)).
  reflexivity.
Qed.

(** The timeout of a queued explosion fires. *)
Lemma fire_explode_view (s0 s : Sys) (id : positive) (due : R) (l : loc)
    (B : list loc) (T : gmap positive Host.Timer) (n : positive) (c : R) (d : nat)
    (pos : Vector.t) (st ex : bool) (fo ra : option R) :
  sameChain s0 s ->
  chainView s = (B, T, n, c, d) ->
  c <= due ->
  Chaos.chainDataAt s0 l = Some (pos, st, ex, fo, ra) ->
  let radius := orElse ra 200 in
  let s' := Runtime.fire id (Host.mkTimer due None (Host.ChainExplode l)) s in
  sameChain s0 s'
  /\ chainView s'
     = (Engine.removeFirst l B,
        <[n := Host.mkTimer (due + 50) None (Host.ChainRescan pos radius)]> (delete id T),
        Pos.succ n, due,
        (d + length (List.filter (Chaos.affectedAt s0 pos radius) B))%nat).
Proof.
  intros Hsame Hview Hdue Hdata radius s'. subst s'. unfold Runtime.fire.
  destruct (advance_timeout_chain id (Host.mkTimer due None (Host.ChainExplode l)) s eq_refl)
    as [Hs Hv].
  set (s1 := Runtime.advance _ _ s) in *. cbn [Host.callback Runtime.run].
  unfold chainView in Hview. injection Hview as HB HT Hn Hc Hd.
  rewrite HB, HT, Hn, Hc, Hd in Hv. cbn [Host.due] in Hv.
  rewrite Rmax_right in Hv by exact Hdue.
  exact (explodeBody_view s0 s1 l _ _ _ _ _ pos st ex fo ra
           (sameChain_trans _ _ _ Hsame Hs) Hv Hdata).
Qed.

(** The timeout of a rescan fires. *)
Lemma fire_rescan_view (s0 s : Sys) (id : positive) (due : R) (pos : Vector.t)
    (radius : R) (B : list loc) (T : gmap positive Host.Timer) (n : positive)
    (c : R) (d : nat) :
  sameChain s0 s ->
  chainView s = (B, T, n, c, d) ->
  c <= due ->
  let s' := Runtime.fire id (Host.mkTimer due None (Host.ChainRescan pos radius)) s in
  let plan :=
    Chaos.schedule due (Host.random (host s0))
      (List.filter (Chaos.inRangeAt s0 pos radius) B) (delete id T) n d in
  sameChain s0 s' /\ chainView s' = (B, plan.1.1, plan.1.2, due, plan.2).
Proof.
  intros Hsame Hview Hdue s' plan. subst s' plan. unfold Runtime.fire.
  destruct (advance_timeout_chain id
              (Host.mkTimer due None (Host.ChainRescan pos radius)) s eq_refl)
    as [Hs Hv].
  set (s1 := Runtime.advance _ _ s) in *. cbn [Host.callback Runtime.run].
  unfold chainView in Hview. injection Hview as HB HT Hn Hc Hd.
  rewrite HB, HT, Hn, Hc, Hd in Hv. cbn [Host.due] in Hv.
  rewrite Rmax_right in Hv by exact Hdue. clearbody s1.
  pose proof (sameChain_trans _ _ _ Hsame Hs) as Hs01.
  destruct (chainRescan_chain pos radius s1) as [Hs' Hv'].
  split; [exact (sameChain_trans _ _ _ Hs01 Hs') |].
  rewrite Hv'. unfold chainView in Hv. injection Hv as -> -> -> -> ->.
  rewrite (proj2 Hs01).
  rewrite (List.filter_ext _ _ (fun l' => inRangeAt_sameChain s0 s1 pos radius l' Hs01)).
  reflexivity.
Qed.

End ChainReaction.

(** *** Three barrels in a line *)

Section ThreeBarrels.
Import State.
Import View.

Lemma threeBarrels_view :
  chainView Scenario.threeBarrels
  = ([1; 2; 3; 4; 5; 6; 7]%positive, ∅, 1%positive, 0, 0%nat).
Proof. reflexivity. Qed.

Lemma threeBarrels_random :
  Host.random (host Scenario.threeBarrels) = Scenario.thirdZero.
Proof. reflexivity. Qed.

Lemma threeBarrels_heap :
  heap Scenario.threeBarrels !! 5%positive = Some (Scenario.barrel 100 100 0)
  /\ heap Scenario.threeBarrels !! 6%positive = Some (Scenario.barrel 150 100 1)
  /\ heap Scenario.threeBarrels !! 7%positive = Some (Scenario.barrel 200 100 2).
Proof. repeat split. Qed.

Lemma threeBarrels_walls (l : loc) :
  l ∈ [1; 2; 3; 4]%positive ->
  exists pos,
    Chaos.chainDataAt Scenario.threeBarrels l = Some (pos, true, false, None, None).
Proof.
  intros Hl. repeat (apply elem_of_cons in Hl as [-> | Hl]; [eexists; reflexivity |]).
  apply elem_of_nil in Hl. destruct Hl.
Qed.

Lemma threeBarrels_barrels :
  Chaos.chainDataAt Scenario.threeBarrels 5%positive
  = Some (Vector.mk 100 100, false, true, Some (5 / 10), Some 200)
  /\ Chaos.chainDataAt Scenario.threeBarrels 6%positive
     = Some (Vector.mk 150 100, false, true, Some (5 / 10), Some 200)
  /\ Chaos.chainDataAt Scenario.threeBarrels 7%positive
     = Some (Vector.mk 200 100, false, true, Some (5 / 10), Some 200).
Proof. repeat split. Qed.

Lemma orElse_nonzero (a d : R) : a <> 0 -> orElse (Some a) d = a.
Proof.
  intros Ha. unfold orElse. destruct (Reqb a 0) eqn:Hz; [| reflexivity].
  apply Reqb_true in Hz. contradiction.
Qed.

(** Distances along a horizontal line. *)
Lemma distance_on_line (a b y m : R) :
  0 <= m -> (a - b) * (a - b) = m * m ->
  Vector.magnitude (Vector.sub (Vector.mk a y) (Vector.mk b y)) = m.
Proof. intros Hm Hsq. apply magnitude_eq; cbn; [exact Hm | nra]. Qed.

Lemma affectedAt_wall (p : Vector.t) (r : R) (l : loc) :
  l ∈ [1; 2; 3; 4]%positive -> Chaos.affectedAt Scenario.threeBarrels p r l = false.
Proof.
  intros Hl. destruct (threeBarrels_walls l Hl) as [pos Hpos].
  unfold Chaos.affectedAt. rewrite Hpos. reflexivity.
Qed.

Lemma inRangeAt_wall (p : Vector.t) (r : R) (l : loc) :
  l ∈ [1; 2; 3; 4]%positive -> Chaos.inRangeAt Scenario.threeBarrels p r l = false.
Proof.
  intros Hl. destruct (threeBarrels_walls l Hl) as [pos Hpos].
  unfold Chaos.inRangeAt. rewrite Hpos. reflexivity.
Qed.

(** A barrel at [(a, 100)] and a centre at [(b, 100)], [m] apart. *)
Lemma affectedAt_barrel (l : loc) (a b m r : R) (fo ra : option R) :
  Chaos.chainDataAt Scenario.threeBarrels l = Some (Vector.mk a 100, false, true, fo, ra) ->
  0 <= m -> (a - b) * (a - b) = m * m ->
  Chaos.affectedAt Scenario.threeBarrels (Vector.mk b 100) r l = Rltb m r && Rltb 0 m.
Proof.
  intros Hdata Hm Hsq. unfold Chaos.affectedAt. rewrite Hdata.
  rewrite (distance_on_line a b 100 m Hm Hsq). reflexivity.
Qed.

Lemma inRangeAt_barrel (l : loc) (a b m r : R) (fo ra : option R) :
  Chaos.chainDataAt Scenario.threeBarrels l = Some (Vector.mk a 100, false, true, fo, ra) ->
  0 <= m -> (a - b) * (a - b) = m * m ->
  Chaos.inRangeAt Scenario.threeBarrels (Vector.mk b 100) r l = Rltb m (r * (8 / 10)).
Proof.
  intros Hdata Hm Hsq. unfold Chaos.inRangeAt. rewrite Hdata.
  rewrite (distance_on_line a b 100 m Hm Hsq). reflexivity.
Qed.

Lemma Rltb_yes (a b : R) : a < b -> Rltb a b = true.
Proof. apply Rltb_true. Qed.

Lemma Rltb_no (a b : R) : b <= a -> Rltb a b = false.
Proof. apply Rltb_false. Qed.

(** Decides the memberships, wall by wall and barrel by barrel. *)
Ltac decide_chain :=
  cbn [List.filter];
  rewrite ?affectedAt_wall, ?inRangeAt_wall
    by (apply list_elem_of_In; cbn; tauto);
  repeat match goal with
  | |- context [Chaos.affectedAt Scenario.threeBarrels (Vector.mk ?b 100) ?r 5%positive] =>
      rewrite (affectedAt_barrel 5 100 b (Rabs (100 - b)) r _ _
                 (proj1 threeBarrels_barrels) (Rabs_pos _))
        by (unfold Rabs; destruct (Rcase_abs _); lra)
  | |- context [Chaos.affectedAt Scenario.threeBarrels (Vector.mk ?b 100) ?r 6%positive] =>
      rewrite (affectedAt_barrel 6 150 b (Rabs (150 - b)) r _ _
                 (proj1 (proj2 threeBarrels_barrels)) (Rabs_pos _))
        by (unfold Rabs; destruct (Rcase_abs _); lra)
  | |- context [Chaos.affectedAt Scenario.threeBarrels (Vector.mk ?b 100) ?r 7%positive] =>
      rewrite (affectedAt_barrel 7 200 b (Rabs (200 - b)) r _ _
                 (proj2 (proj2 threeBarrels_barrels)) (Rabs_pos _))
        by (unfold Rabs; destruct (Rcase_abs _); lra)
  | |- context [Chaos.inRangeAt Scenario.threeBarrels (Vector.mk ?b 100) ?r 6%positive] =>
      rewrite (inRangeAt_barrel 6 150 b (Rabs (150 - b)) r _ _
                 (proj1 (proj2 threeBarrels_barrels)) (Rabs_pos _))
        by (unfold Rabs; destruct (Rcase_abs _); lra)
  | |- context [Chaos.inRangeAt Scenario.threeBarrels (Vector.mk ?b 100) ?r 7%positive] =>
      rewrite (inRangeAt_barrel 7 200 b (Rabs (200 - b)) r _ _
                 (proj2 (proj2 threeBarrels_barrels)) (Rabs_pos _))
        by (unfold Rabs; destruct (Rcase_abs _); lra)
  end;
  repeat match goal with
  | |- context [Rltb ?a ?b] =>
      first [ rewrite (Rltb_yes a b) by (unfold Rabs; destruct (Rcase_abs _); lra)
            | rewrite (Rltb_no a b) by (unfold Rabs; destruct (Rcase_abs _); lra) ]
  end;
  cbn [andb].

(** The first explosion, at barrel 5, moves barrels 6 and 7; the rescan
    around it finds both. *)
Lemma first_affected :
  List.filter (Chaos.affectedAt Scenario.threeBarrels (Vector.mk 100 100) 200)
    [1; 2; 3; 4; 5; 6; 7]%positive = [6; 7]%positive.
Proof. decide_chain. reflexivity. Qed.

Lemma first_targets :
  List.filter (Chaos.inRangeAt Scenario.threeBarrels (Vector.mk 100 100) 200)
    [1; 2; 3; 4; 6; 7]%positive = [6; 7]%positive.
Proof. decide_chain. reflexivity. Qed.

(** The second explosion, at barrel 6, moves barrel 7; the rescan around it
    finds barrel 7, still in the world. *)
Lemma second_affected :
  List.filter (Chaos.affectedAt Scenario.threeBarrels (Vector.mk 150 100) 200)
    [1; 2; 3; 4; 6; 7]%positive = [7]%positive.
Proof. decide_chain. reflexivity. Qed.

Lemma second_targets :
  List.filter (Chaos.inRangeAt Scenario.threeBarrels (Vector.mk 150 100) 200)
    [1; 2; 3; 4; 7]%positive = [7]%positive.
Proof. decide_chain. reflexivity. Qed.

(** The explosions of barrel 7 move nothing and their rescans find nothing. *)
Lemma third_affected :
  List.filter (Chaos.affectedAt Scenario.threeBarrels (Vector.mk 200 100) 200)
    [1; 2; 3; 4; 7]%positive = [].
Proof. decide_chain. reflexivity. Qed.

Lemma last_affected :
  List.filter (Chaos.affectedAt Scenario.threeBarrels (Vector.mk 200 100) 200)
    [1; 2; 3; 4]%positive = [].
Proof. decide_chain. reflexivity. Qed.

Lemma last_targets :
  List.filter (Chaos.inRangeAt Scenario.threeBarrels (Vector.mk 200 100) 200)
    [1; 2; 3; 4]%positive = [].
Proof. decide_chain. reflexivity. Qed.

Ltac tidy_view :=
  cbn [Engine.removeFirst Pos.eqb length Nat.add Chaos.schedule fst snd Pos.succ];
  unfold Scenario.thirdZero; cbn [Nat.eqb];
  rewrite ?delete_insert_eq, ?delete_empty;
  rewrite ?(delete_insert_ne _ _ _ _) by discriminate.

Lemma ignited_view :
  sameChain Scenario.threeBarrels Scenario.ignited
  /\ chainView Scenario.ignited
     = ([1; 2; 3; 4; 6; 7]%positive, <[1%positive := Scenario.rescan5]> ∅,
        2%positive, 0, 2%nat).
Proof.
  destruct (explodeBody_view Scenario.threeBarrels Scenario.threeBarrels 5
              _ _ _ _ _ _ _ _ _ _ (sameChain_refl _) threeBarrels_view
              (proj1 threeBarrels_barrels)) as [Hs Hv].
  split; [exact Hs |]. unfold Scenario.ignited. rewrite Hv.
  rewrite (orElse_nonzero 200) by lra. rewrite first_affected. tidy_view.
  unfold Scenario.rescan5. replace (0 + 50) with 50 by lra. reflexivity.
Qed.

Lemma run1_view :
  sameChain Scenario.threeBarrels Scenario.run1
  /\ chainView Scenario.run1
     = ([1; 2; 3; 4; 6; 7]%positive,
        <[3%positive := Scenario.explode7]> (<[2%positive := Scenario.explode6]> ∅),
        4%positive, 50, 4%nat).
Proof.
  destruct ignited_view as [Hs Hv].
  destruct (fire_rescan_view Scenario.threeBarrels Scenario.ignited 1 50
              (Vector.mk 100 100) 200 _ _ _ _ _ Hs Hv) as [Hs' Hv']; [lra |].
  split; [exact Hs' |]. unfold Scenario.run1, Scenario.rescan5. rewrite Hv'.
  rewrite first_targets, threeBarrels_random. tidy_view.
  unfold Scenario.explode6, Scenario.explode7.
  replace (50 + (100 + 0 * 200)) with 150 by lra.
  replace (50 + (100 + 1 / 2 * 200)) with 250 by lra. reflexivity.
Qed.

Lemma run2_view :
  sameChain Scenario.threeBarrels Scenario.run2
  /\ chainView Scenario.run2
     = ([1; 2; 3; 4; 7]%positive,
        <[4%positive := Scenario.rescan6]> (<[3%positive := Scenario.explode7]> ∅),
        5%positive, 150, 5%nat).
Proof.
  destruct run1_view as [Hs Hv].
  assert (Hdue : 50 <= 150) by lra.
  destruct (fire_explode_view Scenario.threeBarrels Scenario.run1 2 150 6
              _ _ _ _ _ _ _ _ _ _ Hs Hv Hdue (proj1 (proj2 threeBarrels_barrels)))
    as [Hs' Hv'].
  split; [exact Hs' |]. unfold Scenario.run2, Scenario.explode6. rewrite Hv'.
  rewrite (orElse_nonzero 200) by lra. rewrite second_affected. tidy_view.
  unfold Scenario.rescan6. replace (150 + 50) with 200 by lra. reflexivity.
Qed.

Lemma run3_view :
  sameChain Scenario.threeBarrels Scenario.run3
  /\ chainView Scenario.run3
     = ([1; 2; 3; 4; 7]%positive,
        <[5%positive := Scenario.explode7again]> (<[3%positive := Scenario.explode7]> ∅),
        6%positive, 200, 6%nat).
Proof.
  destruct run2_view as [Hs Hv].
  destruct (fire_rescan_view Scenario.threeBarrels Scenario.run2 4 200
              (Vector.mk 150 100) 200 _ _ _ _ _ Hs Hv) as [Hs' Hv']; [lra |].
  split; [exact Hs' |]. unfold Scenario.run3, Scenario.rescan6. rewrite Hv'.
  rewrite second_targets, threeBarrels_random. tidy_view.
  unfold Scenario.explode7again.
  replace (200 + (100 + 1 / 2 * 200)) with 400 by lra. reflexivity.
Qed.

Lemma run4_view :
  sameChain Scenario.threeBarrels Scenario.run4
  /\ chainView Scenario.run4
     = ([1; 2; 3; 4]%positive,
        <[6%positive := Scenario.rescan7]> (<[5%positive := Scenario.explode7again]> ∅),
        7%positive, 250, 6%nat).
Proof.
  destruct run3_view as [Hs Hv].
  assert (Hdue : 200 <= 250) by lra.
  destruct (fire_explode_view Scenario.threeBarrels Scenario.run3 3 250 7
              _ _ _ _ _ _ _ _ _ _ Hs Hv Hdue (proj2 (proj2 threeBarrels_barrels)))
    as [Hs' Hv'].
  split; [exact Hs' |]. unfold Scenario.run4, Scenario.explode7. rewrite Hv'.
  rewrite (orElse_nonzero 200) by lra. rewrite third_affected. tidy_view.
  unfold Scenario.rescan7. replace (250 + 50) with 300 by lra. reflexivity.
Qed.

Lemma run5_view :
  sameChain Scenario.threeBarrels Scenario.run5
  /\ chainView Scenario.run5
     = ([1; 2; 3; 4]%positive, <[5%positive := Scenario.explode7again]> ∅,
        7%positive, 300, 6%nat).
Proof.
  destruct run4_view as [Hs Hv].
  destruct (fire_rescan_view Scenario.threeBarrels Scenario.run4 6 300
              (Vector.mk 200 100) 200 _ _ _ _ _ Hs Hv) as [Hs' Hv']; [lra |].
  split; [exact Hs' |]. unfold Scenario.run5, Scenario.rescan7. rewrite Hv'.
  rewrite last_targets. tidy_view. reflexivity.
Qed.

(** Barrel 7 is no longer in the world, and explodes again. *)
Lemma run6_view :
  sameChain Scenario.threeBarrels Scenario.run6
  /\ chainView Scenario.run6
     = ([1; 2; 3; 4]%positive, <[7%positive := Scenario.rescan7again]> ∅,
        8%positive, 400, 6%nat).
Proof.
  destruct run5_view as [Hs Hv].
  assert (Hdue : 300 <= 400) by lra.
  destruct (fire_explode_view Scenario.threeBarrels Scenario.run5 5 400 7
              _ _ _ _ _ _ _ _ _ _ Hs Hv Hdue (proj2 (proj2 threeBarrels_barrels)))
    as [Hs' Hv'].
  split; [exact Hs' |]. unfold Scenario.run6, Scenario.explode7again. rewrite Hv'.
  rewrite (orElse_nonzero 200) by lra. rewrite last_affected. tidy_view.
  unfold Scenario.rescan7again. replace (400 + 50) with 450 by lra. reflexivity.
Qed.

Lemma run7_view :
  sameChain Scenario.threeBarrels Scenario.run7
  /\ chainView Scenario.run7 = ([1; 2; 3; 4]%positive, ∅, 8%positive, 450, 6%nat).
Proof.
  destruct run6_view as [Hs Hv].
  destruct (fire_rescan_view Scenario.threeBarrels Scenario.run6 7 450
              (Vector.mk 200 100) 200 _ _ _ _ _ Hs Hv) as [Hs' Hv']; [lra |].
  split; [exact Hs' |]. unfold Scenario.run7, Scenario.rescan7again. rewrite Hv'.
  rewrite last_targets. tidy_view. reflexivity.
Qed.

Lemma view_timers (s : Sys) (B : list loc) (T : gmap positive Host.Timer)
    (n : positive) (c : R) (d : nat) :
  chainView s = (B, T, n, c, d) -> Host.timers (host s) = T.
Proof. intros H. unfold chainView in H. injection H as _ -> _ _ _. reflexivity. Qed.

Lemma view_bodies (s : Sys) (B : list loc) (T : gmap positive Host.Timer)
    (n : positive) (c : R) (d : nat) :
  chainView s = (B, T, n, c, d) -> Engine.getAllBodies s = B.
Proof. intros H. unfold chainView in H. injection H as -> _ _ _ _. reflexivity. Qed.

(** One turn of the event loop, from the table of the state. *)
Ltac turn s id t Hview :=
  refine (Runtime.fires_timer s id t _ _);
  [ rewrite (view_timers _ _ _ _ _ _ (proj2 Hview));
    rewrite ?lookup_insert_eq; try reflexivity;
    rewrite lookup_insert_ne by discriminate; apply lookup_insert_eq
  | intros id' t' Hlookup;
    rewrite (view_timers _ _ _ _ _ _ (proj2 Hview)) in Hlookup;
    repeat (apply lookup_insert_Some in Hlookup as [[_ <-] | [_ Hlookup]];
            [cbn; lra |]);
    rewrite lookup_empty in Hlookup; discriminate ].

(** C2 fails on the code. Three explosive barrels stand in a line, 50 units
    apart, each within 0.8 times the radius 200 of the next, and nothing
    moves. Barrel 5 is ignited with [explodeBody]; [Math.random()] makes
    barrel 6 explode 100 ms after the first rescan and barrel 7 200 ms
    after it. The rescan around barrel 6 runs while barrel 7 is still in
    the world and queues it a second time: barrel 7 explodes at 250 ms and
    again at 400 ms, when it has left the world. Four explosions for three
    barrels; no barrel survives and no timer is left. *)
Theorem explodeBody_chain_explodes_barrel_twice :
  Vector.magnitude (Vector.sub (Vector.mk 150 100) (Vector.mk 100 100)) < 200 * (8 / 10)
  /\ Vector.magnitude (Vector.sub (Vector.mk 200 100) (Vector.mk 150 100)) < 200 * (8 / 10)
  /\ Runtime.runs Scenario.ignited Scenario.chainRun Scenario.run7
  /\ Runtime.exploded Scenario.chainRun = [6; 7; 7]%positive
  /\ Host.timers (host Scenario.run7) = ∅
  /\ Engine.getAllBodies Scenario.run7 = [1; 2; 3; 4]%positive
  /\ ~ 7%positive ∈ Engine.getAllBodies Scenario.run5.
Proof.
  split; [rewrite (distance_on_line 150 100 100 50) by lra; lra |].
  split; [rewrite (distance_on_line 200 150 100 50) by lra; lra |].
  split.
  { unfold Scenario.chainRun.
    apply Runtime.runs_cons with (s1 := Scenario.run1);
      [turn Scenario.ignited 1%positive Scenario.rescan5 ignited_view |].
    apply Runtime.runs_cons with (s1 := Scenario.run2);
      [turn Scenario.run1 2%positive Scenario.explode6 run1_view |].
    apply Runtime.runs_cons with (s1 := Scenario.run3);
      [turn Scenario.run2 4%positive Scenario.rescan6 run2_view |].
    apply Runtime.runs_cons with (s1 := Scenario.run4);
      [turn Scenario.run3 3%positive Scenario.explode7 run3_view |].
    apply Runtime.runs_cons with (s1 := Scenario.run5);
      [turn Scenario.run4 6%positive Scenario.rescan7 run4_view |].
    apply Runtime.runs_cons with (s1 := Scenario.run6);
      [turn Scenario.run5 5%positive Scenario.explode7again run5_view |].
    apply Runtime.runs_cons with (s1 := Scenario.run7);
      [turn Scenario.run6 7%positive Scenario.rescan7again run6_view |].
    apply Runtime.runs_nil. }
  split; [reflexivity |].
  split; [exact (view_timers _ _ _ _ _ _ (proj2 run7_view)) |].
  split; [exact (view_bodies _ _ _ _ _ _ (proj2 run7_view)) |].
  rewrite (view_bodies _ _ _ _ _ _ (proj2 run5_view)).
  intros Hin. apply list_elem_of_In in Hin. cbn in Hin.
  repeat destruct Hin as [Hin | Hin]; try discriminate. exact Hin.
Qed.

End ThreeBarrels.

(** *** The timers of the loops stay tracked *)

Section LoopsTracked.
Import State.
Import View.

Lemma loopsTracked_initial (rnd : nat -> R) : Chaos.loopsTracked (initial rnd).
Proof. intros id t Hlookup. cbn in Hlookup. rewrite lookup_empty in Hlookup. discriminate. Qed.

Lemma control_proj (s : Sys) (c : ChaosVars) (T : gmap positive Host.Timer)
    (n : positive) :
  control s = (c, T, n) ->
  chaos s = c /\ Host.timers (host s) = T /\ Host.nextTimer (host s) = n.
Proof. unfold control. intros H. injection H as -> -> ->. repeat split. Qed.

Lemma loopsTracked_initial_engine :
  Chaos.loopsTracked (Scenario.fresh Scenario.half).
Proof. intros id t Hlookup. cbn in Hlookup. rewrite lookup_empty in Hlookup. discriminate. Qed.

Lemma handles_complete (c : ChaosVars) (id : positive) :
  id ∈ Chaos.handles c ->
  floodInterval c = Some id \/ rulesInterval c = Some id
  \/ explosionCheckInterval c = Some id.
Proof.
  unfold Chaos.handles.
  destruct (floodInterval c) as [h1 |], (rulesInterval c) as [h2 |],
           (explosionCheckInterval c) as [h3 |]; cbn; intros Hin;
    repeat (apply elem_of_cons in Hin as [-> | Hin]; [tauto |]);
    apply elem_of_nil in Hin; destruct Hin.
Qed.

Lemma loopsTracked_enableChaos (s : Sys) :
  Chaos.loopsTracked s -> Chaos.loopsTracked (Chaos.enableChaos s).
Proof.
  intros Htracked id t Hlookup Hloop.
  destruct (control_enableChaos s) as (r & t1 & t2 & t3 & He).
  unfold control in He. injection He as Hc Ht _.
  rewrite Hc. rewrite Ht in Hlookup. unfold Chaos.handles. cbn.
  apply lookup_insert_Some in Hlookup as [[<- _] | [_ Hlookup]]; [set_solver |].
  apply clearHandle_lookup in Hlookup as [Hlookup Hh3].
  apply lookup_insert_Some in Hlookup as [[<- _] | [_ Hlookup]]; [set_solver |].
  apply clearHandle_lookup in Hlookup as [Hlookup Hh2].
  apply lookup_insert_Some in Hlookup as [[<- _] | [_ Hlookup]]; [set_solver |].
  apply clearHandle_lookup in Hlookup as [Hlookup Hh1].
  destruct (handles_complete _ _ (Htracked id t Hlookup Hloop)) as [H | [H | H]];
    congruence.
Qed.

Lemma loopsTracked_disableChaos (s : Sys) :
  Chaos.loopsTracked s -> Chaos.loopsTracked (Chaos.disableChaos s).
Proof.
  intros Htracked id t Hlookup Hloop.
  pose proof (control_disableChaos s) as Hd.
  unfold control in Hd. injection Hd as Hc Ht _.
  rewrite Ht in Hlookup.
  apply clearHandle_lookup in Hlookup as [Hlookup Hh3].
  apply clearHandle_lookup in Hlookup as [Hlookup Hh2].
  apply clearHandle_lookup in Hlookup as [Hlookup Hh1].
  destruct (handles_complete _ _ (Htracked id t Hlookup Hloop)) as [H | [H | H]];
    congruence.
Qed.

Lemma loopsTracked_toggleChaos (s : Sys) :
  Chaos.loopsTracked s -> Chaos.loopsTracked (Chaos.toggleChaos s).2.
Proof.
  intros Htracked. unfold Chaos.toggleChaos. cbn [snd].
  destruct (chaosEnabled (chaos s));
    [apply loopsTracked_disableChaos | apply loopsTracked_enableChaos]; exact Htracked.
Qed.

Lemma loopsTracked_startObjectFlood (intensity : nat) (ms : R) (s : Sys) :
  Chaos.loopsTracked s -> Chaos.loopsTracked (Chaos.startObjectFlood intensity ms s).
Proof.
  intros Htracked id t Hlookup Hloop.
  destruct (control_proj _ _ _ _ (control_startObjectFlood intensity ms s))
    as (Hc & Ht & _).
  rewrite Hc. rewrite Ht in Hlookup. unfold Chaos.handles.
  apply lookup_insert_Some in Hlookup as [[<- _] | [Hne Hlookup]]; [cbn; set_solver |].
  apply clearHandle_lookup in Hlookup as [Hlookup Hh1].
  destruct (handles_complete _ _ (Htracked id t Hlookup Hloop)) as [H | [H | H]];
    [congruence | |]; cbn; rewrite H; cbn;
    destruct (rulesInterval (chaos s)), (explosionCheckInterval (chaos s));
    cbn; set_solver.
Qed.

End LoopsTracked.

(** The flood is already running on its own when chaos is toggled twice. *)
Lemma toggleChaos_twice_witness :
  let s := Chaos.startObjectFlood 5 2000 (Scenario.fresh Scenario.half) in
  let s2 := (Chaos.toggleChaos (Chaos.toggleChaos s).2).2 in
  State.floodInterval (State.chaos s) = Some 1%positive
  /\ State.chaosEnabled (State.chaos s2) = false
  /\ State.floodInterval (State.chaos s2) = None
  /\ State.rulesInterval (State.chaos s2) = None
  /\ State.explosionCheckInterval (State.chaos s2) = None
  /\ forall id t, Host.timers (State.host s2) !! id = Some t -> Chaos.isLoopTimer t = false.
Proof.
  cbv zeta.
  pose proof (toggleChaos_twice
                (Chaos.startObjectFlood 5 2000 (Scenario.fresh Scenario.half)))
    as (_ & Hflag & Htimers).
  destruct Htimers as (_ & Hf & Hr & He & _ & _ & _ & Hnone).
  - reflexivity.
  - apply loopsTracked_startObjectFlood, loopsTracked_initial_engine.
  - split; [reflexivity |]. split; [exact Hflag |]. tauto.
Defined.

(** *** Three clicks of the grow tool *)

Section ScaleExample.
Import State.

Lemma toolScale_accepts (contains : Matter.Body -> Vector.t -> bool)
    (position : Vector.t) (grow : bool) (s : Sys) (l : loc) (body : Matter.Body) :
  Engine.getBodyAtPosition contains position s = Some l ->
  heap s !! l = Some body ->
  Matter.isStatic body = false ->
  3 / 10 <= Tools.currentScale body * Tools.scaleFactor grow <= 3 ->
  Tools.toolScale contains position grow s
  = (Some (Tools.mkScaleResult (Matter.customId body)
             (Tools.currentScale body * Tools.scaleFactor grow) grow),
     onHost (Host.windowParticles
               (Vector.x (Matter.position body)) (Vector.y (Matter.position body))
               8 (if grow then "#00cec9" else "#ff9ff3"))
       (update (Matter.setCustomScale (Tools.currentScale body * Tools.scaleFactor grow)) l
          (Engine.scaleBody l (Tools.scaleFactor grow) (Tools.scaleFactor grow) s))).
Proof.
  intros Hfind Hl Hst [Hlo Hhi]. unfold Tools.toolScale.
  rewrite Hfind, Hl, Hst. cbn [negb].
  rewrite (proj2 (Rleb_true _ _) Hlo), (proj2 (Rleb_true _ _) Hhi). reflexivity.
Qed.

(** The box after one and after two accepted clicks. *)
Definition grownOnce : Matter.Body :=
Matter.setCustomScale (1 * (15 / 10))
  (Matter.scale (15 / 10) (15 / 10) (Scenario.box 630 440 0)).

Definition grownTwice : Matter.Body :=
Matter.setCustomScale (1 * (15 / 10) * (15 / 10))
  (Matter.scale (15 / 10) (15 / 10) grownOnce).

(** The first two clicks scale the box of [oneBox] to 1.5 and 2.25; the
    third would reach 3.375, returns [null] and changes nothing. *)
Example toolScale_third_click_rejected :
  let click := Tools.toolScale Scenario.everywhere Scenario.centre true in
  let s1 := (click Scenario.oneBox).2 in
  let s2 := (click s1).2 in
  heap s1 !! 5%positive = Some grownOnce
  /\ heap s2 !! 5%positive = Some grownTwice
  /\ click s2 = (None, s2).
Proof.
  cbv zeta.
  assert (H1 : Tools.currentScale (Scenario.box 630 440 0) = 1) by reflexivity.
  assert (Hstep1 := toolScale_accepts Scenario.everywhere Scenario.centre true
                      Scenario.oneBox 5%positive (Scenario.box 630 440 0)
                      eq_refl oneBox_box eq_refl).
  rewrite H1 in Hstep1. unfold Tools.scaleFactor, Tools.TOOLS_SCALE_scaleFactor in Hstep1.
  rewrite Hstep1 by lra. cbn [snd].
  set (s1 := onHost _ _).
  assert (Hbox1 : heap s1 !! 5%positive = Some grownOnce).
  { subst s1. unfold onHost, update, Engine.scaleBody, update. cbn [heap setHost setHeap].
    rewrite !lookup_alter_eq, oneBox_box. reflexivity. }
  assert (Hfind1 : Engine.getBodyAtPosition Scenario.everywhere Scenario.centre s1
                   = Some 5%positive).
  { unfold Engine.getBodyAtPosition. subst s1. cbn [engine onHost setHost update setHeap
      Engine.scaleBody heap].
    replace (engine Scenario.oneBox)
      with (Some (mkEngine [1; 2; 3; 4; 5]%positive Engine.PHYSICS_GRAVITY 1))
      by reflexivity.
    cbn [bodies find].
    rewrite !(lookup_alter_ne _ _ 5%positive) by discriminate.
    rewrite !lookup_alter_eq, oneBox_box. reflexivity. }
  assert (H2 : Tools.currentScale grownOnce = 1 * (15 / 10)).
  { apply currentScale_setCustomScale. lra. }
  assert (Hstep2 := toolScale_accepts Scenario.everywhere Scenario.centre true
                      s1 5%positive grownOnce Hfind1 Hbox1 eq_refl).
  rewrite H2 in Hstep2. unfold Tools.scaleFactor, Tools.TOOLS_SCALE_scaleFactor in Hstep2.
  rewrite Hstep2 by lra. cbn [snd].
  set (s2 := onHost _ (update _ _ (Engine.scaleBody _ _ _ s1))).
  assert (Hbox2 : heap s2 !! 5%positive = Some grownTwice).
  { subst s2. unfold onHost, update, Engine.scaleBody, update. cbn [heap setHost setHeap].
    rewrite !lookup_alter_eq, Hbox1. reflexivity. }
  assert (Hfind2 : Engine.getBodyAtPosition Scenario.everywhere Scenario.centre s2
                   = Some 5%positive).
  { unfold Engine.getBodyAtPosition in *. subst s2.
    cbn [engine onHost setHost update setHeap Engine.scaleBody heap] in *.
    destruct (engine s1) as [e |]; [| discriminate].
    revert Hfind1. generalize (bodies e). intros ls.
    induction ls as [| a ls IH]; cbn [find]; [discriminate |].
    destruct (decide (a = 5%positive)) as [-> | Hne].
    - rewrite !lookup_alter_eq, Hbox1. intros _. reflexivity.
    - rewrite !lookup_alter_ne by congruence.
      destruct (heap s1 !! a) as [b |]; [| exact IH].
      destruct (if Matter.isStatic b then false else Scenario.everywhere b Scenario.centre);
        [intros [= ?]; contradiction | exact IH]. }
  split; [exact Hbox1 |]. split; [exact Hbox2 |].
  apply (toolScale_rejects Scenario.everywhere Scenario.centre true s2 5%positive
           grownTwice Hfind2 Hbox2).
  assert (H3 : Tools.currentScale grownTwice = 1 * (15 / 10) * (15 / 10)).
  { apply currentScale_setCustomScale. lra. }
  rewrite H3. unfold Tools.scaleFactor, Tools.TOOLS_SCALE_scaleFactor. lra.
Qed.

End ScaleExample.

(** ** Room seeds and seeded random numbers *)

Section SeedProperties.
Open Scope Z_scope.

Lemma toInt32_range (z : Z) : -2147483648 <= Seed.toInt32 z < 2147483648.
Proof.
  unfold Seed.toInt32.
  pose proof (Z.mod_pos_bound (z + 2147483648) 4294967296 ltac:(lia)). lia.
Qed.

Lemma toInt32_small (z : Z) : -2147483648 <= z < 2147483648 -> Seed.toInt32 z = z.
Proof.
  intros Hz. unfold Seed.toInt32. rewrite Z.mod_small by lia. lia.
Qed.

Lemma toInt32_shift (z k : Z) : Seed.toInt32 (z + k * 4294967296) = Seed.toInt32 z.
Proof.
  unfold Seed.toInt32.
  replace (z + k * 4294967296 + 2147483648) with (z + 2147483648 + k * 4294967296) by lia.
  rewrite Z.mod_add by lia. reflexivity.
Qed.

Lemma toInt32_decompose (z : Z) : exists k, Seed.toInt32 z = z + k * 4294967296.
Proof.
  exists (- ((z + 2147483648) / 4294967296)). unfold Seed.toInt32.
  pose proof (Z.div_mod (z + 2147483648) 4294967296 ltac:(lia)). lia.
Qed.

(** A round of the loop is a round of the Java string hash, modulo 2^32. *)
Lemma hashStep_java (hash char : Z) :
  Seed.hashStep hash char = Seed.toInt32 (31 * hash + char).
Proof.
  unfold Seed.hashStep, Seed.band, Seed.shl. rewrite Z.land_diag.
  change (Z.land 5 31) with 5. rewrite Z.shiftl_mul_pow2 by lia.
  change (2 ^ 5) with 32.
  destruct (toInt32_decompose hash) as [k0 ->].
  destruct (toInt32_decompose ((hash + k0 * 4294967296) * 32)) as [k1 ->].
  replace ((hash + k0 * 4294967296) * 32 + k1 * 4294967296 - hash + char)
    with (31 * hash + char + (32 * k0 + k1) * 4294967296) by lia.
  apply toInt32_shift.
Qed.

Lemma toInt32_java (h1 h2 char : Z) :
  Seed.toInt32 h1 = Seed.toInt32 h2 ->
  Seed.toInt32 (31 * h1 + char) = Seed.toInt32 (31 * h2 + char).
Proof.
  intros Heq.
  destruct (toInt32_decompose h1) as [k1 H1], (toInt32_decompose h2) as [k2 H2].
  replace (31 * h1 + char) with (31 * h2 + char + 31 * (k2 - k1) * 4294967296) by lia.
  apply toInt32_shift.
Qed.

Lemma fold_hashStep_java (roomId : list Z) (h1 h2 : Z) :
  Seed.toInt32 h1 = Seed.toInt32 h2 ->
  Seed.toInt32 (fold_left Seed.hashStep roomId h1)
  = Seed.toInt32 (fold_left (fun h c => 31 * h + c) roomId h2).
Proof.
  revert h1 h2. induction roomId as [| c cs IH]; intros h1 h2 Heq; [exact Heq |].
  cbn [fold_left]. apply IH. rewrite hashStep_java.
  rewrite toInt32_small by apply toInt32_range. apply toInt32_java. exact Heq.
Qed.

Lemma fold_hashStep_range (roomId : list Z) (h : Z) :
  -2147483648 <= h < 2147483648 ->
  -2147483648 <= fold_left Seed.hashStep roomId h < 2147483648.
Proof.
  revert h. induction roomId as [| c cs IH]; intros h Hh; [exact Hh |].
  cbn [fold_left]. apply IH. rewrite hashStep_java. apply toInt32_range.
Qed.

(** The value of [hash] after the loop. *)
Lemma getRoomSeed_poly (roomId : list Z) :
  fold_left Seed.hashStep roomId 0 = Seed.toInt32 (Seed.poly roomId).
Proof.
  rewrite <- (toInt32_small (fold_left Seed.hashStep roomId 0))
    by (apply fold_hashStep_range; lia).
  apply fold_hashStep_java. reflexivity.
Qed.

Lemma poly_app (u v : list Z) :
  Seed.poly (u ++ v) = fold_left (fun h c => 31 * h + c) v (Seed.poly u).
Proof. unfold Seed.poly. apply fold_left_app. Qed.

(** X1. [getRoomSeed] is the absolute value of the Java string hash of the
    room id: the polynomial in 31 of its code units, reduced to a signed
    32-bit integer. The seed lies between 0 and 2^31, and 2^31 itself is
    reached (by a room id whose hash is -2^31), so the seed need not fit a
    signed 32-bit integer; the empty room id has seed 0. *)
Theorem getRoomSeed_is_abs_of_java_hash (roomId : list Z) :
  Seed.getRoomSeed roomId = Z.abs (Seed.toInt32 (Seed.poly roomId))
  /\ 0 <= Seed.getRoomSeed roomId <= 2147483648
  /\ Seed.getRoomSeed [] = 0
  /\ Seed.getRoomSeed (Seed.codeUnits "polygenelubricants") = 2147483648.
Proof.
  unfold Seed.getRoomSeed. rewrite getRoomSeed_poly.
  split; [reflexivity |].
  split; [pose proof (toInt32_range (Seed.poly roomId)); lia |].
  split; [reflexivity |]. vm_compute. reflexivity.
Qed.

(** X2. The seed does not tell room ids apart: replacing two neighbouring
    code units [a], [b] by [a + 1], [b - 31] anywhere in a room id leaves
    the seed unchanged (so the rooms "Aa" and "BB" share their seed). *)
Theorem getRoomSeed_collides (u v : list Z) (a b : Z) :
  Seed.getRoomSeed (u ++ a :: b :: v) = Seed.getRoomSeed (u ++ (a + 1) :: (b - 31) :: v)
  /\ Seed.getRoomSeed (Seed.codeUnits "Aa") = Seed.getRoomSeed (Seed.codeUnits "BB").
Proof.
  split; [| reflexivity].
  unfold Seed.getRoomSeed. rewrite !getRoomSeed_poly, !poly_app.
  cbn [fold_left]. do 3 f_equal. lia.
Qed.

End SeedProperties.

Section SeededRandom.




End SeededRandom.

(** ** Senders and receivers *)

Section PeerProperties.
Context {M : Type}.
Implicit Types (st : Peer.State) (data : M).

Lemma relay_fold data (sender : string) st (cs : list positive) (out : list (Peer.Effect M)) :
  fold_left (fun out c =>
    match Peer.conns st !! c with
    | Some conn =>
        if negb (String.eqb (Peer.peer conn) sender) && Peer.open conn
        then out ++ [Peer.Send c data] else out
    | None => out
    end) cs out
  = out ++ map (fun c => Peer.Send c data) (List.filter (Peer.relayTarget st sender) cs).
Proof.
  revert out. induction cs as [| c cs IH]; intros out; cbn [fold_left List.filter map].
  - symmetry. apply app_nil_r.
  - rewrite IH. unfold Peer.relayTarget at 2.
    destruct (Peer.conns st !! c) as [conn |]; [| reflexivity].
    destruct (negb _ && _); [| reflexivity].
    cbn [map]. rewrite <- app_assoc. reflexivity.
Qed.

Lemma relayMessage_spec data (sender : string) st :
  Peer.relayMessage data sender st
  = map (fun c => Peer.Send c data)
      (List.filter (Peer.relayTarget st sender) (Peer.connections st)).
Proof. unfold Peer.relayMessage. rewrite relay_fold. reflexivity. Qed.

Lemma broadcast_fold data st (cs : list positive) (out : list (Peer.Effect M)) :
  fold_left (fun out c =>
    match Peer.conns st !! c with
    | Some conn => if Peer.open conn then out ++ [Peer.Send c data] else out
    | None => out
    end) cs out
  = out ++ map (fun c => Peer.Send c data) (List.filter (Peer.isOpen st) cs).
Proof.
  revert out. induction cs as [| c cs IH]; intros out; cbn [fold_left List.filter map].
  - symmetry. apply app_nil_r.
  - rewrite IH. unfold Peer.isOpen at 2.
    destruct (Peer.conns st !! c) as [conn |]; [| reflexivity].
    destruct (Peer.open conn); [| reflexivity].
    cbn [map]. rewrite <- app_assoc. reflexivity.
Qed.

Lemma broadcast_spec data st :
  Peer.broadcast data st
  = map (fun c => Peer.Send c data) (List.filter (Peer.isOpen st) (Peer.connections st)).
Proof. unfold Peer.broadcast. rewrite broadcast_fold. reflexivity. Qed.

Lemma recipients_sends data (cs : list positive) :
  Peer.recipients (map (fun c => Peer.Send c data) cs) = cs.
Proof.
  induction cs as [| c cs IH]; [reflexivity |].
  cbn. f_equal. exact IH.
Qed.

(** X4. When data arrives over the connection [c], the message callback
    (if registered) is called first, with the data and the peer of [c].
    A host then relays the data, unchanged, once over every connection of
    its list that is open and whose peer is not the sender, in the order of
    the list; it never sends it back over [c]. A peer that is not the host
    relays nothing. *)
Theorem onData_relays_to_the_other_peers data (c : positive) st :
  let sender := Peer.peerOf st c in
  let out := Peer.onData c data st in
  out = (if Peer.onMessageCallback st then [Peer.MessageCallback data sender] else [])
        ++ (if Peer.isHost st
            then map (fun c' => Peer.Send c' data)
                   (List.filter (Peer.relayTarget st sender) (Peer.connections st))
            else [])
  /\ Peer.recipients out
     = (if Peer.isHost st
        then List.filter (Peer.relayTarget st sender) (Peer.connections st) else [])
  /\ ~ In c (Peer.recipients out).
Proof.
  intros sender out. subst out. unfold Peer.onData. fold sender.
  rewrite relayMessage_spec.
  assert (Hrec : Peer.recipients
                   ((if Peer.onMessageCallback st
                     then [Peer.MessageCallback data sender] else [])
                    ++ (if Peer.isHost st
                        then map (fun c' => Peer.Send c' data)
                               (List.filter (Peer.relayTarget st sender)
                                  (Peer.connections st))
                        else []))
                 = (if Peer.isHost st
                    then List.filter (Peer.relayTarget st sender) (Peer.connections st)
                    else [])).
  { destruct (Peer.onMessageCallback st), (Peer.isHost st); cbn [app];
      try reflexivity;
      try (apply (recipients_sends data));
      unfold Peer.recipients; cbn [omap]; apply (recipients_sends data). }
  split; [reflexivity |]. split; [exact Hrec |].
  rewrite Hrec. destruct (Peer.isHost st); [| intros []].
  intros Hin. apply filter_In in Hin as [_ Hin].
  unfold Peer.relayTarget, sender, Peer.peerOf in Hin.
  destruct (Peer.conns st !! c) as [conn |]; [| discriminate].
  rewrite String.eqb_refl in Hin. discriminate.
Qed.

End PeerProperties.

Section RoomIds.

Lemma floorMul_upto (r : R) (n k : nat) :
  0 <= r * INR n -> r * INR n < INR k + 1 ->
  let j := Objects.floorMul r n k in
  (j <= k)%nat /\ INR j <= r * INR n < INR j + 1.
Proof.
  intros Hlo. induction k as [| k IH]; intros Hhi; cbn [Objects.floorMul].
  - simpl in *. split; [lia | lra].
  - destruct (Rleb (INR (S k)) (r * INR n)) eqn:Hle.
    + apply Rleb_true in Hle. split; [lia | lra].
    + apply Rleb_false in Hle. rewrite S_INR in Hle.
      destruct (IH Hle) as [Hj Hb]. split; [lia | exact Hb].
Qed.

(** [Math.floor(r * n)] for a value [r] of [Math.random()]: the index [j]
    below [n] with [j <= r * n < j + 1]. *)
Lemma floorMul_spec (r : R) (n : nat) :
  0 <= r < 1 -> (0 < n)%nat ->
  let j := Objects.floorMul r n n in
  (j < n)%nat /\ INR j <= r * INR n < INR j + 1.
Proof.
  intros [Hlo Hhi] Hn.
  assert (Hpos : 0 < INR n) by (apply lt_0_INR; exact Hn).
  assert (H0 : 0 <= r * INR n) by (apply Rmult_le_pos; lra).
  assert (H1 : r * INR n < INR n) by nra.
  destruct (floorMul_upto r n n H0 ltac:(lra)) as [Hj Hb].
  split; [| exact Hb].
  apply INR_lt. lra.
Qed.

Lemma get_in (s : string) (i : nat) (c : Ascii.ascii) :
  String.get i s = Some c -> In c (list_ascii_of_string s).
Proof.
  revert i. induction s as [| a s IH]; intros i H; [discriminate |].
  destruct i as [| i]; cbn in *.
  - left. congruence.
  - right. apply (IH i). exact H.
Qed.

Lemma get_below (s : string) (i : nat) :
  (i < String.length s)%nat -> exists c, String.get i s = Some c.
Proof.
  revert i. induction s as [| a s IH]; intros i H; cbn in H; [lia |].
  destruct i as [| i]; cbn; [eexists; reflexivity |].
  apply IH. lia.
Qed.

Lemma list_ascii_app (a b : string) :
  list_ascii_of_string (a ++ b) = (list_ascii_of_string a ++ list_ascii_of_string b)%list.
Proof.
  induction a as [| c a IH]; [reflexivity |].
  change (String c a ++ b)%string with (String c (a ++ b)%string).
  cbn [list_ascii_of_string]. rewrite IH. reflexivity.
Qed.

Lemma length_list_ascii (a : string) :
  length (list_ascii_of_string a) = String.length a.
Proof. induction a as [| c a IH]; cbn; [reflexivity | f_equal; exact IH]. Qed.

Lemma generateRoomIdFrom_format (rounds : nat) (id : string) (h : Host.t) :
  (forall k, 0 <= Host.random h k < 1) ->
  let res := Peer.generateRoomIdFrom rounds id h in
  exists tail : list Ascii.ascii,
    list_ascii_of_string res.1 = (list_ascii_of_string id ++ tail)%list
    /\ length tail = rounds
    /\ Forall (fun c => In c (list_ascii_of_string Peer.chars)) tail
    /\ res.2 = Host.mk (Host.clock h) (Host.random h) (Host.drawn h + rounds)
                 (Host.timers h) (Host.nextTimer h) (Host.hasParticles h)
                 (Host.hasShake h) (Host.hasStatus h) (Host.output h).
Proof.
  revert id h. induction rounds as [| n IH]; intros id h Hrnd; cbn [Peer.generateRoomIdFrom].
  - exists []. cbn. rewrite app_nil_r, Nat.add_0_r. destruct h; repeat split. constructor.
  - unfold Host.mathRandom. cbv beta iota zeta.
    set (j := Objects.floorMul _ _ _).
    destruct (floorMul_spec (Host.random h (Host.drawn h)) (String.length Peer.chars)
                (Hrnd _) ltac:(cbn; lia)) as [Hj _].
    fold j in Hj.
    destruct (get_below Peer.chars j Hj) as [c Hc].
    set (h1 := Host.mk _ _ _ _ _ _ _ _ _).
    destruct (IH (id ++ Peer.charAt j Peer.chars)%string h1 Hrnd)
      as (tail & Hid & Hlen & Hall & Hh).
    exists (c :: tail). cbv zeta in Hid, Hh.
    rewrite Hid, Hh, list_ascii_app. unfold Peer.charAt. rewrite Hc.
    cbn [list_ascii_of_string]. rewrite <- app_assoc.
    split; [reflexivity |]. split; [cbn; lia |].
    split; [constructor; [exact (get_in _ _ _ Hc) | exact Hall] |].
    subst h1. cbn. f_equal. lia.
Qed.

(** X5. With [Math.random()] in [0, 1), [generateRoomId] returns six
    characters, each a capital letter or a digit of its alphabet, and
    draws six random numbers. *)
Theorem generateRoomId_six_characters_of_the_alphabet (h : Host.t) :
  (forall k, 0 <= Host.random h k < 1) ->
  let res := Peer.generateRoomId h in
  String.length res.1 = 6%nat
  /\ Forall (fun c => In c (list_ascii_of_string Peer.chars)) (list_ascii_of_string res.1)
  /\ Host.drawn res.2 = (Host.drawn h + 6)%nat.
Proof.
  intros Hrnd res. subst res. unfold Peer.generateRoomId.
  destruct (generateRoomIdFrom_format Peer.ROOM_ID_LENGTH EmptyString h Hrnd)
    as (tail & Hid & Hlen & Hall & Hh).
  cbv zeta in Hid, Hh. cbn [list_ascii_of_string app] in Hid.
  rewrite <- length_list_ascii, Hid, Hh.
  split; [exact Hlen |]. split; [exact Hall | reflexivity].
Qed.

End RoomIds.

Lemma generateRoomId_six_characters_of_the_alphabet_witness :
  String.length (Peer.generateRoomId (State.host (State.initial Scenario.half))).1 = 6%nat
  /\ Forall (fun c => In c (list_ascii_of_string Peer.chars))
       (list_ascii_of_string
          (Peer.generateRoomId (State.host (State.initial Scenario.half))).1)
  /\ Host.drawn (Peer.generateRoomId (State.host (State.initial Scenario.half))).2
     = (Host.drawn (State.host (State.initial Scenario.half)) + 6)%nat.
Proof.
  apply (generateRoomId_six_characters_of_the_alphabet
           (State.host (State.initial Scenario.half))).
  intros k. cbn. unfold Scenario.half. lra.
Defined.

Section SendersAndReceivers.
Context {O P : Type} (noOptions : O) (noParams : P).
Local Abbreviation Data := (SyncEvents.Data O P).
Implicit Types (env : SyncEvents.Env) (hs : Sync.Handlers)
  (result : Sync.Event Data * list (Peer.Effect (Sync.Event Data))).

(** What [handleSyncEvent] does with an event that carries the tag of its
    data and is not taken for an echo. *)
Lemma handleSyncEvent_dispatch (st : Sync.State) (clock : Z) (ev : Sync.Event Data) hs :
  Sync.senderId ev <> Sync.getPlayerId st clock ->
  Sync.type ev
  = match Sync.data ev with
    | SyncEvents.SpawnData _ _ _ _ => Sync.SPAWN
    | SyncEvents.ForceData _ _ _ _ => Sync.FORCE
    | SyncEvents.ToolData _ _ _ => Sync.TOOL
    | SyncEvents.GravityData _ => Sync.GRAVITY
    | SyncEvents.CursorData _ _ => Sync.CURSOR
    end ->
  Sync.handleSyncEvent st clock ev hs
  = if SyncEvents.present (SyncEvents.slotOf (Sync.data ev)) hs
    then [Sync.Invoke (SyncEvents.slotOf (Sync.data ev)) (Sync.data ev) (Sync.senderId ev)]
    else [].
Proof.
  intros Hother Hty. unfold Sync.handleSyncEvent.
  destruct (String.eqb_spec (Sync.senderId ev) (Sync.getPlayerId st clock));
    [contradiction |].
  destruct ev as [ty ts sender d]. cbn [Sync.type Sync.data Sync.senderId] in *.
  subst ty. destruct d; reflexivity.
Qed.

(** The five senders build their event with [createEvent] and hand it to
    [broadcast]. *)
Lemma Sent_inv env result :
  SyncEvents.Sent noOptions noParams env result ->
  exists ty d,
    result = SyncEvents.send ty d env
    /\ ty = match d with
            | SyncEvents.SpawnData _ _ _ _ => Sync.SPAWN
            | SyncEvents.ForceData _ _ _ _ => Sync.FORCE
            | SyncEvents.ToolData _ _ _ => Sync.TOOL
            | SyncEvents.GravityData _ => Sync.GRAVITY
            | SyncEvents.CursorData _ _ => Sync.CURSOR
            end.
Proof. intros []; do 2 eexists; split; reflexivity. Qed.

(** X6. Whatever one of the five senders ([syncSpawn], [syncForce],
    [syncTool], [syncGravity], [syncCursor]) returns on a client whose
    identifier [a] has been set, it has sent exactly that event, once over
    each open connection. A receiver with another identifier [b] that
    passes the event to [handleSyncEvent] invokes the one handler of the
    event's kind, with the event's data and [a] (nothing when that handler
    is missing); the sending client itself drops the event. *)
Theorem sent_event_reaches_the_matching_handler env result
    (receiver : Sync.State) (a b : string) (clock : Z) hs :
  SyncEvents.Sent noOptions noParams env result ->
  Sync.localPlayerId (SyncEvents.sync env) = Some a -> a <> ""%string ->
  Sync.localPlayerId receiver = Some b -> b <> ""%string ->
  a <> b ->
  let event := result.1 in
  result.2
  = map (fun c => Peer.Send c event)
      (List.filter (Peer.isOpen (SyncEvents.peers env))
         (Peer.connections (SyncEvents.peers env)))
  /\ Sync.senderId event = a
  /\ Sync.timestamp event = SyncEvents.now env
  /\ Sync.handleSyncEvent receiver clock event hs
     = (if SyncEvents.present (SyncEvents.slotOf (Sync.data event)) hs
        then [Sync.Invoke (SyncEvents.slotOf (Sync.data event)) (Sync.data event) a]
        else [])
  /\ Sync.handleSyncEvent (SyncEvents.sync env) clock event hs = [].
Proof.
  intros Hsent Ha Hane Hb Hbne Hab event.
  destruct (Sent_inv env result Hsent) as (ty & d & -> & Hty).
  subst event. unfold SyncEvents.send. cbn [fst snd].
  assert (Hid : forall t, Sync.getPlayerId (SyncEvents.sync env) t = a).
  { intros t. unfold Sync.getPlayerId. rewrite Ha.
    destruct (String.eqb_spec a ""); [contradiction | reflexivity]. }
  assert (Hidb : Sync.getPlayerId receiver clock = b).
  { unfold Sync.getPlayerId. rewrite Hb.
    destruct (String.eqb_spec b ""); [contradiction | reflexivity]. }
  split; [apply broadcast_spec |].
  unfold Sync.createEvent. cbn [Sync.senderId Sync.timestamp]. rewrite Hid.
  split; [reflexivity |]. split; [reflexivity |]. split.
  - rewrite handleSyncEvent_dispatch; cbn [Sync.senderId Sync.data Sync.type].
    + reflexivity.
    + rewrite Hidb. exact Hab.
    + exact Hty.
  - unfold Sync.handleSyncEvent. cbn [Sync.senderId]. rewrite Hid, String.eqb_refl.
    reflexivity.
Qed.

Lemma fallbackId_inj (t t' : Z) : Sync.fallbackId t = Sync.fallbackId t' -> t = t'.
Proof.
  unfold Sync.fallbackId. intros H.
  assert (Hs : NilZero.string_of_int (Z.to_int t) = NilZero.string_of_int (Z.to_int t')).
  { cbv [String.append] in H. congruence. }
  assert (Hnorm : forall z, Z.to_int z <> Decimal.Pos Decimal.Nil
                            /\ Z.to_int z <> Decimal.Neg Decimal.Nil).
  { intros z. pose proof (DecimalZ.to_of (Z.to_int z)) as Hz.
    rewrite DecimalZ.of_to in Hz.
    split; intros Heq; rewrite Heq in Hz; discriminate. }
  apply DecimalZ.to_int_inj.
  assert (Hi : NilZero.int_of_string (NilZero.string_of_int (Z.to_int t))
               = NilZero.int_of_string (NilZero.string_of_int (Z.to_int t')))
    by (rewrite Hs; reflexivity).
  rewrite !NilZero.isi in Hi by apply Hnorm. congruence.
Qed.

(** X7. On a client that never called [setPlayerId], a sender stamps its
    event with the identifier derived from the clock at that moment. When
    the event comes back to [handleSyncEvent] at another reading of the
    clock it is not taken for an echo: it is dispatched to the client's own
    handler. Only at the very same reading is it dropped. *)
Theorem own_event_dispatched_when_id_never_set env result (clock : Z) hs :
  SyncEvents.Sent noOptions noParams env result ->
  Sync.localPlayerId (SyncEvents.sync env) = None ->
  let event := result.1 in
  Sync.senderId event = Sync.fallbackId (SyncEvents.now' env)
  /\ (clock = SyncEvents.now' env ->
        Sync.handleSyncEvent (SyncEvents.sync env) clock event hs = [])
  /\ (clock <> SyncEvents.now' env ->
        Sync.handleSyncEvent (SyncEvents.sync env) clock event hs
        = (if SyncEvents.present (SyncEvents.slotOf (Sync.data event)) hs
           then [Sync.Invoke (SyncEvents.slotOf (Sync.data event)) (Sync.data event)
                   (Sync.fallbackId (SyncEvents.now' env))]
           else [])).
Proof.
  intros Hsent Hnone event.
  destruct (Sent_inv env result Hsent) as (ty & d & -> & Hty).
  subst event. unfold SyncEvents.send. cbn [fst].
  assert (Hid : forall t, Sync.getPlayerId (SyncEvents.sync env) t = Sync.fallbackId t).
  { intros t. unfold Sync.getPlayerId. rewrite Hnone. reflexivity. }
  unfold Sync.createEvent. cbn [Sync.senderId]. rewrite Hid.
  split; [reflexivity |]. split.
  - intros ->. unfold Sync.handleSyncEvent. cbn [Sync.senderId].
    rewrite Hid, String.eqb_refl. reflexivity.
  - intros Hne. rewrite handleSyncEvent_dispatch; cbn [Sync.senderId Sync.data Sync.type].
    + reflexivity.
    + rewrite Hid. intros Heq. apply fallbackId_inj in Heq. congruence.
    + exact Hty.
Qed.

End SendersAndReceivers.

Lemma sent_event_reaches_the_matching_handler_witness :
  let env :=
    SyncEvents.mkEnv (Sync.setPlayerId "alice" Sync.init) 3 3
      (Peer.mkState true
         (<[1%positive := Peer.mkConn "chaos-ROOM42" true]> ∅) [1%positive]
         (Some "ROOM42"%string) false true true true) in
  let result := SyncEvents.syncGravity (O := unit) (P := unit) (Vector.mk 0 (-1)) env in
  result.2 = [Peer.Send 1%positive result.1]
  /\ Sync.handleSyncEvent (Sync.setPlayerId "bob" Sync.init) 7 result.1
       (Sync.mkHandlers true true true true true)
     = [Sync.Invoke Sync.OnGravity (SyncEvents.GravityData (Vector.mk 0 (-1))) "alice"]
  /\ Sync.handleSyncEvent (Sync.setPlayerId "alice" Sync.init) 7 result.1
       (Sync.mkHandlers true true true true true) = [].
Proof.
  cbv zeta.
  pose proof (sent_event_reaches_the_matching_handler tt tt
                (SyncEvents.mkEnv (Sync.setPlayerId "alice" Sync.init) 3 3
                   (Peer.mkState true
                      (<[1%positive := Peer.mkConn "chaos-ROOM42" true]> ∅) [1%positive]
                      (Some "ROOM42"%string) false true true true))
                _ (Sync.setPlayerId "bob" Sync.init) "alice" "bob" 7
                (Sync.mkHandlers true true true true true)
                (SyncEvents.sent_gravity tt tt _ (Vector.mk 0 (-1)))
                eq_refl ltac:(discriminate) eq_refl ltac:(discriminate)
                ltac:(discriminate)) as (Hout & _ & _ & Hb & Ha).
  split; [exact Hout |]. split; [exact Hb | exact Ha].
Defined.

Lemma own_event_dispatched_when_id_never_set_witness :
  let env :=
    SyncEvents.mkEnv Sync.init 3 3 (Peer.mkState false ∅ [] None false false false false) in
  let event :=
    (SyncEvents.syncCursor (O := unit) (P := unit) (Vector.mk 10 20) "push" env).1 in
  Sync.senderId event = "player_3"%string
  /\ Sync.handleSyncEvent Sync.init 5 event (Sync.mkHandlers true true true true true)
     = [Sync.Invoke Sync.OnCursor (SyncEvents.CursorData (Vector.mk 10 20) "push")
          "player_3"].
Proof.
  cbv zeta.
  pose proof (own_event_dispatched_when_id_never_set tt tt
                (SyncEvents.mkEnv Sync.init 3 3
                   (Peer.mkState false ∅ [] None false false false false))
                _ 5 (Sync.mkHandlers true true true true true)
                (SyncEvents.sent_cursor tt tt _ (Vector.mk 10 20) "push")
                eq_refl) as (Hid & _ & Hlater).
  split; [exact Hid |]. apply Hlater. discriminate.
Defined.

(** ** Gravity, lookup by position, adding and removing bodies *)

Section EngineAccessors.
Import State.

(** X8. With an engine, [getGravity] returns what [setGravity] stored,
    [flipGravity] returns the gravity with its vertical component negated
    (and stores it), and a second [flipGravity] brings the whole state
    back. Without an engine [setGravity] is ignored, [flipGravity] returns
    [undefined] and changes nothing, and [getGravity] answers the default
    (0, 1). *)
Theorem gravity_set_get_flip (g : Vector.t) (s : Sys) :
  match engine s with
  | Some e =>
      Engine.getGravity (Engine.setGravity g s) = g
      /\ (Engine.flipGravity s).1
         = Some (Vector.mk (Vector.x (gravity e)) (- Vector.y (gravity e)))
      /\ Some (Engine.getGravity (Engine.flipGravity s).2) = (Engine.flipGravity s).1
      /\ Engine.getAllBodies (Engine.flipGravity s).2 = Engine.getAllBodies s
      /\ (Engine.flipGravity (Engine.flipGravity s).2).2 = s
  | None =>
      Engine.setGravity g s = s
      /\ Engine.flipGravity s = (None, s)
      /\ Engine.getGravity s = Vector.mk 0 1
  end.
Proof.
  unfold Engine.getGravity, Engine.setGravity, Engine.flipGravity, Engine.getAllBodies.
  destruct s as [h hp nl [[bs [gx gy] ts] |] cnt ch sp]; cbn.
  - split; [reflexivity |].
    split; [do 2 f_equal; ring |].
    split; [reflexivity |]. split; [reflexivity |].
    unfold setEngine. cbn. do 4 f_equal. ring.
  - repeat split.
Qed.

Lemma find_first_hit {A : Type} (p : A -> bool) (ls : list A) :
  match List.find p ls with
  | Some a =>
      exists before after,
        ls = (before ++ a :: after)%list /\ p a = true
        /\ forall b, In b before -> p b = false
  | None => forall a, In a ls -> p a = false
  end.
Proof.
  induction ls as [| x ls IH]; cbn [List.find].
  - intros a [].
  - destruct (p x) eqn:Hx.
    + exists [], ls. split; [reflexivity |]. split; [exact Hx |]. intros b [].
    + destruct (List.find p ls) as [a |].
      * destruct IH as (before & after & -> & Ha & Hb).
        exists (x :: before), after. split; [reflexivity |]. split; [exact Ha |].
        intros b [<- | Hin]; [exact Hx | apply Hb; exact Hin].
      * intros a [<- | Hin]; [exact Hx | apply IH; exact Hin].
Qed.

(** X9. [getBodyAtPosition] returns the first body of the world, in the
    order of the world, that is not static and whose bounds contain the
    position; it returns nothing exactly when the world has no such body
    (in particular when there is no engine), and never a static body. *)
Theorem getBodyAtPosition_first_moving_body
    (contains : Matter.Body -> Vector.t -> bool) (position : Vector.t) (s : Sys) :
  match Engine.getBodyAtPosition contains position s with
  | Some l =>
      exists before after,
        Engine.getAllBodies s = (before ++ l :: after)%list
        /\ Terms.hit contains position s l
        /\ forall l', In l' before -> ~ Terms.hit contains position s l'
  | None => forall l, In l (Engine.getAllBodies s) -> ~ Terms.hit contains position s l
  end.
Proof.
  unfold Engine.getBodyAtPosition, Engine.getAllBodies.
  destruct (engine s) as [e |]; [| intros l []].
  set (p := fun l => match heap s !! l with
                     | Some body =>
                         if Matter.isStatic body then false else contains body position
                     | None => false
                     end).
  assert (Hp : forall l, p l = true <-> Terms.hit contains position s l).
  { intros l. unfold p, Terms.hit. destruct (heap s !! l) as [body |].
    - destruct (Matter.isStatic body) eqn:Hst; split.
      + discriminate.
      + intros (b & [= <-] & Hb & _). congruence.
      + intros H. exists body. repeat split; assumption.
      + intros (b & [= <-] & _ & H). exact H.
    - split; [discriminate | intros (b & H & _); discriminate]. }
  pose proof (find_first_hit p (bodies e)) as H.
  destruct (List.find p (bodies e)) as [l |].
  - destruct H as (before & after & Hls & Hl & Hb).
    exists before, after. split; [exact Hls |]. split; [apply Hp; exact Hl |].
    intros l' Hin Hhit. apply Hp in Hhit. rewrite (Hb l' Hin) in Hhit. discriminate.
  - intros l Hin Hhit. apply Hp in Hhit. rewrite (H l Hin) in Hhit. discriminate.
Qed.

Lemma removeFirst_absent (l : loc) (bs : list loc) :
  ~ In l bs -> Engine.removeFirst l bs = bs.
Proof.
  induction bs as [| b bs IH]; intros Hnotin; [reflexivity |].
  cbn [Engine.removeFirst]. destruct (Pos.eqb_spec b l) as [-> | Hne].
  - exfalso. apply Hnotin. left. reflexivity.
  - rewrite IH; [reflexivity |]. intros Hin. apply Hnotin. right. exact Hin.
Qed.

Lemma removeFirst_app_absent (l : loc) (bs rest : list loc) :
  ~ In l bs -> Engine.removeFirst l (bs ++ rest) = (bs ++ Engine.removeFirst l rest)%list.
Proof.
  induction bs as [| b bs IH]; intros Hnotin; [reflexivity |].
  cbn [Engine.removeFirst app]. destruct (Pos.eqb_spec b l) as [-> | Hne].
  - exfalso. apply Hnotin. left. reflexivity.
  - rewrite IH; [reflexivity |]. intros Hin. apply Hnotin. right. exact Hin.
Qed.

Lemma removeFirst_app_present (l : loc) (bs rest : list loc) :
  In l bs -> Engine.removeFirst l (bs ++ rest) = (Engine.removeFirst l bs ++ rest)%list.
Proof.
  induction bs as [| b bs IH]; intros Hin; [destruct Hin |].
  cbn [Engine.removeFirst app]. destruct (Pos.eqb_spec b l) as [-> | Hne]; [reflexivity |].
  destruct Hin as [-> | Hin]; [contradiction |].
  rewrite IH by exact Hin. reflexivity.
Qed.

(** X10. Removing a body that is not in the world changes nothing.
    Adding a body that was not in the world and removing it again gives
    the state back. But [addBody] does not look whether the body is there
    already: added a second time and removed once, the body is still in
    the world, now at the end of it. *)
Theorem addBody_then_removeBody (l : loc) (s : Sys) :
  (~ In l (Engine.getAllBodies s) ->
     Engine.removeBody l s = s /\ Engine.removeBody l (Engine.addBody l s) = s)
  /\ (In l (Engine.getAllBodies s) ->
        Engine.getAllBodies (Engine.removeBody l (Engine.addBody l s))
        = (Engine.removeFirst l (Engine.getAllBodies s) ++ [l])%list
        /\ In l (Engine.getAllBodies (Engine.removeBody l (Engine.addBody l s)))).
Proof.
  unfold Engine.removeBody, Engine.addBody, Engine.getAllBodies.
  destruct s as [h hp nl [[bs g ts] |] cnt ch sp]; cbn.
  - split.
    + intros Hnotin. unfold setEngine, Engine.withBodies. cbn.
      rewrite removeFirst_absent by exact Hnotin.
      rewrite removeFirst_app_absent by exact Hnotin.
      cbn. rewrite Pos.eqb_refl, app_nil_r. split; reflexivity.
    + intros Hin. rewrite removeFirst_app_present by exact Hin.
      split; [reflexivity |]. apply in_or_app. right. left. reflexivity.
  - split; [intros _; split; reflexivity | intros []].
Qed.

End EngineAccessors.

Lemma addBody_then_removeBody_witness :
  Engine.removeBody 9 (Engine.addBody 9 Scenario.oneBox) = Scenario.oneBox
  /\ Engine.getAllBodies (Engine.removeBody 5 (Engine.addBody 5 Scenario.oneBox))
     = [1; 2; 3; 4; 5]%positive.
Proof.
  destruct (addBody_then_removeBody 9 Scenario.oneBox) as [Hnew _].
  destruct (addBody_then_removeBody 5 Scenario.oneBox) as [_ Hold].
  split.
  - apply Hnew. rewrite oneBox_bodies. cbn. intuition discriminate.
  - destruct Hold as [-> _]; [rewrite oneBox_bodies; cbn; auto 10 |].
    rewrite oneBox_bodies. reflexivity.
Defined.

(** ** Tools on static bodies, scaling back and forth *)

Section StaticWorld.
Import State.

Lemma fold_pushBody_static (position direction : Vector.t) (force radius : R)
    (ls : list loc) (s : Sys) (n : nat) :
  (forall l, In l ls -> Engine.isStaticAt s l = true) ->
  fold_left (Tools.pushBody position direction force radius) ls (s, n) = (s, n).
Proof.
  induction ls as [| a ls IH]; intros Hst; [reflexivity |].
  cbn [fold_left].
  assert (Ha : Tools.pushBody position direction force radius (s, n) a = (s, n)).
  { unfold Tools.pushBody. pose proof (Hst a (or_introl eq_refl)) as H.
    unfold Engine.isStaticAt in H.
    destruct (heap s !! a) as [body |]; [rewrite H |]; reflexivity. }
  rewrite Ha. apply IH. intros l Hl. apply Hst. right. exact Hl.
Qed.

Lemma fold_explodeBodyAt_static (position : Vector.t) (force radius : R)
    (ls : list loc) (s : Sys) (n : nat) :
  (forall l, In l ls -> Engine.isStaticAt s l = true) ->
  fold_left (Tools.explodeBodyAt position force radius) ls (s, n) = (s, n).
Proof.
  induction ls as [| a ls IH]; intros Hst; [reflexivity |].
  cbn [fold_left].
  assert (Ha : Tools.explodeBodyAt position force radius (s, n) a = (s, n)).
  { unfold Tools.explodeBodyAt. pose proof (Hst a (or_introl eq_refl)) as H.
    unfold Engine.isStaticAt in H.
    destruct (heap s !! a) as [body |]; [rewrite H |]; reflexivity. }
  rewrite Ha. apply IH. intros l Hl. apply Hst. right. exact Hl.
Qed.

Lemma clearWorld_allStatic (s : Sys) : Terms.allStatic (Engine.clearWorld s).
Proof.
  unfold Terms.allStatic, Engine.clearWorld, Engine.getAllBodies.
  destruct (engine s) as [e |] eqn:He.
  - rewrite removeAll_filter. cbn. intros l Hl.
    apply filter_In in Hl as [_ Hl]. exact Hl.
  - rewrite He. intros l [].
Qed.

Lemma initEngine_allStatic (s : Sys) : Terms.allStatic (Engine.initEngine s).
Proof.
  intros l Hl. unfold Engine.initEngine, Engine.getAllBodies, alloc in Hl. cbn in Hl.
  unfold Engine.isStaticAt, Engine.initEngine, alloc. cbn.
  assert (H1 : nextLoc s <> Pos.succ (nextLoc s)) by lia.
  assert (H2 : nextLoc s <> Pos.succ (Pos.succ (nextLoc s))) by lia.
  assert (H3 : nextLoc s <> Pos.succ (Pos.succ (Pos.succ (nextLoc s)))) by lia.
  assert (H4 : Pos.succ (nextLoc s) <> Pos.succ (Pos.succ (nextLoc s))) by lia.
  assert (H5 : Pos.succ (nextLoc s) <> Pos.succ (Pos.succ (Pos.succ (nextLoc s)))) by lia.
  assert (H6 : Pos.succ (Pos.succ (nextLoc s))
               <> Pos.succ (Pos.succ (Pos.succ (nextLoc s)))) by lia.
  destruct Hl as [<- | [<- | [<- | [<- | []]]]];
    repeat (rewrite lookup_insert_eq || rewrite lookup_insert_ne by congruence);
    reflexivity.
Qed.

(** X11. In a world whose bodies are all static (the world right after
    [initEngine], or any world after [clearWorld]) the tools find nothing to
    act on: [toolPush] reports no affected body and changes nothing at all,
    [toolExplode] reports no affected body and only shows its particles and
    shake, and [toolScale] returns [null] and changes nothing. *)
Theorem tools_find_nothing_among_static_bodies
    (contains : Matter.Body -> Vector.t -> bool)
    (position direction : Vector.t) (force radius : option R) (grow : bool) (s : Sys) :
  Terms.allStatic s ->
  Tools.toolPush position direction force s
  = (Tools.mkPushResult position direction (default Tools.TOOLS_PUSH_force force) 0, s)
  /\ Tools.toolExplode position force radius s
     = (Tools.mkExplodeResult position (default Tools.TOOLS_EXPLODE_force force)
          (default Tools.TOOLS_EXPLODE_radius radius) 0,
        onHost (fun h =>
          Host.windowShake (12 / 10)
            (Host.windowParticles (Vector.x position) (Vector.y position) 25
               "#ff6b6b" h)) s)
  /\ Tools.toolScale contains position grow s = (None, s).
Proof.
  intros Hst. unfold Terms.allStatic in Hst.
  split; [| split].
  - unfold Tools.toolPush. rewrite fold_pushBody_static by exact Hst. reflexivity.
  - unfold Tools.toolExplode. rewrite fold_explodeBodyAt_static by exact Hst. reflexivity.
  - unfold Tools.toolScale.
    destruct (Engine.getBodyAtPosition contains position s) as [l |] eqn:Hfind;
      [| reflexivity].
    exfalso. unfold Engine.getBodyAtPosition, Engine.getAllBodies in *.
    destruct (engine s) as [e |]; [| discriminate].
    pose proof (find_some _ _ Hfind) as [Hin Hp].
    specialize (Hst l Hin). unfold Engine.isStaticAt in Hst.
    destruct (heap s !! l) as [body |]; [| discriminate].
    rewrite Hst in Hp. discriminate.
Qed.

End StaticWorld.

Lemma tools_find_nothing_among_static_bodies_witness :
  let s := Engine.clearWorld Scenario.oneBox in
  Tools.toolPush Scenario.centre (Vector.mk 0 (-1)) None s
  = (Tools.mkPushResult Scenario.centre (Vector.mk 0 (-1)) Tools.TOOLS_PUSH_force 0, s)
  /\ Tools.toolScale Scenario.everywhere Scenario.centre true s = (None, s).
Proof.
  cbv zeta.
  destruct (tools_find_nothing_among_static_bodies Scenario.everywhere Scenario.centre
              (Vector.mk 0 (-1)) None None true (Engine.clearWorld Scenario.oneBox)
              (clearWorld_allStatic Scenario.oneBox)) as (Hpush & _ & Hscale).
  split; [exact Hpush | exact Hscale].
Defined.

Section ScaleRoundTrip.
Import State.
Variable contains : Matter.Body -> Vector.t -> bool.

Lemma scaleFactor_inverse (grow : bool) :
  Tools.scaleFactor grow * Tools.scaleFactor (negb grow) = 1.
Proof.
  unfold Tools.scaleFactor, Tools.TOOLS_SCALE_scaleFactor. destruct grow; cbn; field.
Qed.

(** X12. A grow and a shrink on the same body undo each other, in either
    order: when the first call is accepted, and the body is still the one
    found at the position, the second call is accepted too (the body's
    tracked scale was within the bounds) and brings the tracked scale and the
    body's size back to what they were. *)
Theorem toolScale_there_and_back (position : Vector.t) (grow : bool) (s : Sys)
    (l : loc) (body : Matter.Body) :
  let s1 := (Tools.toolScale contains position grow s).2 in
  let back := Tools.toolScale contains position (negb grow) s1 in
  Engine.getBodyAtPosition contains position s = Some l ->
  heap s !! l = Some body ->
  Matter.isStatic body = false ->
  3 / 10 <= Tools.currentScale body <= 3 ->
  3 / 10 <= Tools.currentScale body * Tools.scaleFactor grow <= 3 ->
  Engine.getBodyAtPosition contains position s1 = Some l ->
  back.1 = Some (Tools.mkScaleResult (Matter.customId body) (Tools.currentScale body)
                   (negb grow))
  /\ exists body2,
       heap back.2 !! l = Some body2
       /\ Tools.currentScale body2 = Tools.currentScale body
       /\ Matter.scaleX body2 = Matter.scaleX body
       /\ Matter.scaleY body2 = Matter.scaleY body.
Proof.
  intros s1 back Hfind Hl Hst Hlo Hin Hfind1.
  set (c := Tools.currentScale body) in *.
  set (f := Tools.scaleFactor grow) in *.
  pose proof (scaleFactor_inverse grow) as Hinv. fold f in Hinv.
  assert (Hs1 : s1 = onHost (Host.windowParticles
                               (Vector.x (Matter.position body))
                               (Vector.y (Matter.position body))
                               8 (if grow then "#00cec9" else "#ff9ff3"))
                       (update (Matter.setCustomScale (c * f)) l
                          (Engine.scaleBody l f f s))).
  { subst s1. rewrite (toolScale_accepts contains position grow s l body Hfind Hl Hst Hin).
    reflexivity. }
  set (body1 := Matter.setCustomScale (c * f) (Matter.scale f f body)).
  assert (Hl1 : heap s1 !! l = Some body1).
  { rewrite Hs1. unfold onHost, update, Engine.scaleBody, update.
    cbn [heap setHost setHeap]. rewrite !lookup_alter_eq, Hl. reflexivity. }
  assert (Hc1 : Tools.currentScale body1 = c * f).
  { apply currentScale_setCustomScale. lra. }
  assert (Hback : Tools.currentScale body1 * Tools.scaleFactor (negb grow) = c).
  { rewrite Hc1. rewrite Rmult_assoc, Hinv. ring. }
  subst back.
  rewrite (toolScale_accepts contains position (negb grow) s1 l body1 Hfind1 Hl1 Hst)
    by (rewrite Hback; lra).
  cbn [fst snd]. rewrite Hback. split; [reflexivity |].
  eexists. split.
  { unfold onHost, update, Engine.scaleBody, update. cbn [heap setHost setHeap].
    rewrite !lookup_alter_eq, Hl1. reflexivity. }
  split; [apply currentScale_setCustomScale; lra |].
  cbn [Matter.scaleX Matter.scaleY Matter.setCustomScale Matter.scale body1].
  fold f. split; rewrite Rmult_assoc, Hinv; ring.
Qed.

End ScaleRoundTrip.

Lemma oneBox_grown_found :
  Engine.getBodyAtPosition Scenario.everywhere Scenario.centre
    (Tools.toolScale Scenario.everywhere Scenario.centre true Scenario.oneBox).2
  = Some 5%positive.
Proof.
  assert (H1 : Tools.currentScale (Scenario.box 630 440 0) = 1) by reflexivity.
  assert (Hstep := toolScale_accepts Scenario.everywhere Scenario.centre true
                     Scenario.oneBox 5%positive (Scenario.box 630 440 0)
                     eq_refl oneBox_box eq_refl).
  rewrite H1 in Hstep. unfold Tools.scaleFactor, Tools.TOOLS_SCALE_scaleFactor in Hstep.
  rewrite Hstep by lra. cbn [snd].
  unfold Engine.getBodyAtPosition.
  cbn [State.engine State.onHost State.setHost State.update State.setHeap
       Engine.scaleBody State.heap].
  replace (State.engine Scenario.oneBox)
    with (Some (State.mkEngine [1; 2; 3; 4; 5]%positive Engine.PHYSICS_GRAVITY 1))
    by reflexivity.
  cbn [State.bodies find].
  rewrite !(lookup_alter_ne _ _ 5%positive) by discriminate.
  rewrite !lookup_alter_eq, oneBox_box. reflexivity.
Qed.

Lemma toolScale_there_and_back_witness :
  let s1 := (Tools.toolScale Scenario.everywhere Scenario.centre true Scenario.oneBox).2 in
  (Tools.toolScale Scenario.everywhere Scenario.centre false s1).1
  = Some (Tools.mkScaleResult (Some (Matter.ObjId 0 0)) 1 false).
Proof.
  cbv zeta.
  destruct (toolScale_there_and_back Scenario.everywhere Scenario.centre true
              Scenario.oneBox 5%positive (Scenario.box 630 440 0)) as [H _].
  - reflexivity.
  - exact oneBox_box.
  - reflexivity.
  - change (Tools.currentScale (Scenario.box 630 440 0)) with 1. lra.
  - change (Tools.currentScale (Scenario.box 630 440 0)) with 1.
    unfold Tools.scaleFactor, Tools.TOOLS_SCALE_scaleFactor. lra.
  - exact oneBox_grown_found.
  - exact H.
Defined.

(** ** Object identifiers and random objects *)

Section ObjectIds.
Import State.

Lemma idsBelowCounter_initial (rnd : nat -> R) : Terms.idsBelowCounter (initial rnd).
Proof. intros l body t n Hl. cbn in Hl. rewrite lookup_empty in Hl. discriminate. Qed.

Lemma idsBelowCounter_initEngine (s : Sys) :
  Terms.idsBelowCounter s -> Terms.idsBelowCounter (Engine.initEngine s).
Proof.
  intros Hs l body t n Hl Hid.
  unfold Engine.initEngine, alloc in Hl. cbn in Hl.
  repeat (apply lookup_insert_Some in Hl as [[_ <-] | [_ Hl]]; [discriminate Hid |]).
  exact (Hs l body t n Hl Hid).
Qed.

Lemma find_last_only {A : Type} (p : A -> bool) (ls : list A) (x : A) :
  p x = true -> (forall a, In a ls -> p a = true -> a = x) ->
  List.find p (ls ++ [x]) = Some x.
Proof.
  intros Hx. induction ls as [| a ls IH]; intros Honly; cbn [app List.find].
  - rewrite Hx. reflexivity.
  - destruct (p a) eqn:Ha.
    + f_equal. apply Honly; [left; reflexivity | exact Ha].
    + apply IH. intros b Hb. apply Honly. right. exact Hb.
Qed.

Lemma sameId_refl_obj (t : R) (n : nat) :
  Chaos.sameId (Some (Matter.ObjId t n)) (Some (Matter.ObjId t n)) = true.
Proof.
  cbn. rewrite Nat.eqb_refl.
  rewrite (proj2 (Reqb_true t t) eq_refl). reflexivity.
Qed.

(** What [toolSpawn] does, in one equation. *)
Lemma toolSpawn_allocates (type : string) (position : Vector.t)
    (o : Objects.Options) (s : Sys) :
  exists body,
    Tools.toolSpawn type position o s
    = (Tools.mkSpawnResult type position
         (Some (Matter.ObjId (Host.now (host s)) (objectIdCounter s))),
       onHost (Host.windowParticles (Vector.x position) (Vector.y position) 5
                 (let c := Matter.fillStyle (Matter.render body) in
                  if String.eqb c "" then "#4ecdc4"%string else c))
         (Engine.addBody (nextLoc s)
            (mkSys (host s) (<[nextLoc s := body]> (heap s)) (Pos.succ (nextLoc s))
               (engine s) (S (objectIdCounter s)) (chaos s) (special s))))
    /\ Matter.position body = position
    /\ Matter.isStatic body = false
    /\ Matter.velocity body = Vector.zero
    /\ Matter.customId body
       = Some (Matter.ObjId (Host.now (host s)) (objectIdCounter s)).
Proof.
  destruct (createObject_allocates type (Vector.x position) (Vector.y position) o s)
    as (body & Hc & Hpos & Hst & Hid & _).
  exists body. unfold Tools.toolSpawn. rewrite Hc.
  assert (Hvel : Matter.velocity body = Vector.zero).
  { clear - Hc. unfold Objects.createObject in Hc.
    repeat match type of Hc with
    | context [String.eqb type ?c] => destruct (String.eqb type c)
    end;
    injection Hc as Hc; apply (f_equal (fun m => m !! nextLoc s)) in Hc;
    rewrite !lookup_insert_eq in Hc; injection Hc as <-; reflexivity. }
  split; [| split; [destruct position; exact Hpos | split; [exact Hst | split; [exact Hvel | exact Hid]]]].
  unfold Tools.particleColor, Tools.customIdAt, Engine.addBody.
  destruct (engine s) as [e |]; cbn; rewrite !lookup_insert_eq, Hid; reflexivity.
Qed.

Lemma toolSpawn_ids (type : string) (position : Vector.t)
    (o : Objects.Options) (s : Sys) :
  Terms.idsBelowCounter s ->
  let res := Tools.toolSpawn type position o s in
  Terms.idsBelowCounter res.2
  /\ (forall l body, heap res.2 !! l = Some body ->
        Chaos.sameId (Matter.customId body) (Tools.spawn_id res.1) = true ->
        l = nextLoc s)
  /\ Chaos.findById (Tools.spawn_id res.1) res.2
     = match engine s with Some _ => Some (nextLoc s) | None => None end.
Proof.
  intros Hinv res.
  destruct (toolSpawn_allocates type position o s) as (body & Hres & _ & _ & _ & Hid).
  subst res. rewrite Hres. cbn [fst snd Tools.spawn_id].
  set (id := Matter.ObjId (Host.now (host s)) (objectIdCounter s)) in *.
  assert (Hheap : forall s0, heap (onHost (Host.windowParticles (Vector.x position)
                                             (Vector.y position) 5
                    (let c := Matter.fillStyle (Matter.render body) in
                     if String.eqb c "" then "#4ecdc4"%string else c))
                    (Engine.addBody (nextLoc s) s0)) = heap s0).
  { intros s0. unfold Engine.addBody. destruct (engine s0); reflexivity. }
  assert (Hcnt : forall s0, objectIdCounter
                   (onHost (Host.windowParticles (Vector.x position)
                              (Vector.y position) 5
                    (let c := Matter.fillStyle (Matter.render body) in
                     if String.eqb c "" then "#4ecdc4"%string else c))
                    (Engine.addBody (nextLoc s) s0)) = objectIdCounter s0).
  { intros s0. unfold Engine.addBody. destruct (engine s0); reflexivity. }
  assert (Honly : forall l b,
            <[nextLoc s := body]> (heap s) !! l = Some b ->
            Chaos.sameId (Matter.customId b) (Some id) = true -> l = nextLoc s).
  { intros l b Hl Hsame.
    apply lookup_insert_Some in Hl as [[Heq _] | [_ Hl]]; [symmetry; exact Heq |].
    exfalso. destruct (Matter.customId b) as [[t n | t n] |] eqn:Hb;
      cbn in Hsame; try discriminate.
    apply andb_true_iff in Hsame as [_ Hn]. apply Nat.eqb_eq in Hn.
    pose proof (Hinv l b t n Hl Hb). lia. }
  split; [| split].
  - intros l b t n Hl Hb. rewrite Hheap in Hl. rewrite Hcnt. cbn in Hl |- *.
    apply lookup_insert_Some in Hl as [[_ <-] | [_ Hl]].
    + rewrite Hid in Hb. injection Hb as _ <-. lia.
    + pose proof (Hinv l b t n Hl Hb). lia.
  - intros l b Hl. rewrite Hheap in Hl. cbn in Hl. apply Honly. exact Hl.
  - unfold Chaos.findById, Engine.getAllBodies, Engine.addBody, Tools.customIdAt.
    destruct (engine s) as [e |]; cbn; [| reflexivity].
    apply find_last_only.
    + rewrite lookup_insert_eq, Hid. apply sameId_refl_obj.
    + intros l Hin Hsame.
      destruct (<[nextLoc s := body]> (heap s) !! l) as [b |] eqn:Hl;
        [| discriminate].
      apply (Honly l b Hl Hsame).
Qed.

(** X13. Identifiers are never reused: as long as every identifier given
    out so far carries a counter value below the current one (which holds
    from the start and is kept by every spawn), the identifier returned by
    [toolSpawn] is carried by the new body and by no other body object.
    Looking it up in the world, as the flood and rain callbacks do, finds
    the new body when there is an engine and nothing when there is none
    (the body was created but not added to any world). *)
Theorem toolSpawn_id_finds_the_new_body (type : string) (position : Vector.t)
    (o : Objects.Options) (s : Sys) :
  Terms.idsBelowCounter s ->
  let res := Tools.toolSpawn type position o s in
  Terms.idsBelowCounter res.2
  /\ (forall l body, heap res.2 !! l = Some body ->
        Chaos.sameId (Matter.customId body) (Tools.spawn_id res.1) = true ->
        l = nextLoc s)
  /\ Chaos.findById (Tools.spawn_id res.1) res.2
     = match engine s with Some _ => Some (nextLoc s) | None => None end.
Proof. exact (toolSpawn_ids type position o s). Qed.

(** X14. With a value [r] of [Math.random()] in [0, 1),
    [getRandomObjectType] returns the tag at index [floor(8 r)] of the
    eight archetypes: always one of the eight tags, and the [k]-th one
    exactly when [k / 8 <= r < (k + 1) / 8]. *)
Theorem getRandomObjectType_picks_an_archetype (s : Sys) :
  let r := Host.random (host s) (Host.drawn (host s)) in
  let res := Objects.getRandomObjectType s in
  0 <= r < 1 ->
  exists k,
    (k < 8)%nat /\ INR k / 8 <= r < (INR k + 1) / 8
    /\ nth_error Objects.types k = Some res.1
    /\ In res.1 Objects.types
    /\ res.2 = (mathRandom s).2.
Proof.
  intros r res Hr. subst res. unfold Objects.getRandomObjectType.
  unfold mathRandom, Host.mathRandom. cbv beta iota zeta. fold r. cbn [fst snd].
  change (length Objects.types) with 8%nat.
  destruct (floorMul_spec r 8 Hr ltac:(lia)) as [Hk Hb].
  set (k := Objects.floorMul r 8 8) in *.
  replace (INR 8) with 8 in Hb by (simpl; lra).
  exists k. split; [exact Hk |]. split; [lra |].
  assert (Hnth : nth_error Objects.types k = Some (nth k Objects.types "box"%string)).
  { apply nth_error_nth'. exact Hk. }
  split; [exact Hnth |]. split; [| reflexivity].
  apply nth_error_In with k. exact Hnth.
Qed.

End ObjectIds.

Lemma toolSpawn_id_finds_the_new_body_witness :
  let res := Tools.toolSpawn "anvil" Scenario.centre Objects.noOptions
               (Scenario.fresh Scenario.half) in
  Chaos.findById (Tools.spawn_id res.1) res.2 = Some 5%positive.
Proof.
  cbv zeta.
  destruct (toolSpawn_id_finds_the_new_body "anvil" Scenario.centre Objects.noOptions
              (Scenario.fresh Scenario.half)) as (_ & _ & H).
  - apply idsBelowCounter_initEngine, idsBelowCounter_initial.
  - exact H.
Defined.

Lemma getRandomObjectType_picks_an_archetype_witness :
  In (Objects.getRandomObjectType (State.initial Scenario.half)).1 Objects.types.
Proof.
  destruct (getRandomObjectType_picks_an_archetype (State.initial Scenario.half))
    as (k & _ & _ & _ & H & _).
  - cbn. unfold Scenario.half. lra.
  - exact H.
Defined.

(** ** The object flood *)

Section Flood.
Import State.

Lemma mathRandom_eq (s : Sys) :
  mathRandom s
  = (Host.random (host s) (Host.drawn (host s)),
     setHost (Host.mk (Host.clock (host s)) (Host.random (host s))
                (S (Host.drawn (host s))) (Host.timers (host s))
                (Host.nextTimer (host s)) (Host.hasParticles (host s))
                (Host.hasShake (host s)) (Host.hasStatus (host s))
                (Host.output (host s))) s).
Proof. reflexivity. Qed.






End Flood.


(** ** Gravity flip, collisions of explosives, balloons *)

Section MoreTools.
Import State.
Import View.

(** X16. [toolGravityFlip] needs an engine. With one it returns the
    flipped gravity, which is then the gravity of the world, and a second
    call returns the original gravity. Without one it changes no gravity
    and returns [undefined], unless the status hook [window.showChaosStatus]
    is installed: then reading [newGravity.y] throws, after the screen shake
    and before the particles. *)
Theorem toolGravityFlip_needs_an_engine (s : Sys) :
  let res := ToolActions.toolGravityFlip s in
  match engine s with
  | Some e =>
      res.1 = ToolActions.Returned
                (Some (Vector.mk (Vector.x (gravity e)) (- Vector.y (gravity e))))
      /\ Engine.getGravity res.2
         = Vector.mk (Vector.x (gravity e)) (- Vector.y (gravity e))
      /\ (ToolActions.toolGravityFlip res.2).1 = ToolActions.Returned (Some (gravity e))
  | None =>
      res.1 = (if Host.hasStatus (host s)
               then ToolActions.Threw "TypeError" else ToolActions.Returned None)
      /\ Engine.getGravity res.2 = Engine.getGravity s
      /\ Host.output (host res.2)
         = (Host.output (host s)
            ++ (if Host.hasShake (host s) then [Host.WindowShake (8 / 10)] else [])
            ++ (if Host.hasStatus (host s) then []
                else if Host.hasParticles (host s)
                     then [Host.WindowParticles (Engine.CANVAS_WIDTH / 2)
                             (Engine.CANVAS_HEIGHT / 2) 15 "#ffeaa7"]
                     else []))%list
  end.
Proof.
  intros res. subst res. unfold ToolActions.toolGravityFlip, Engine.flipGravity.
  destruct s as [h hp nl [[bs [gx gy] ts] |] cnt ch sp].
  - cbn [engine gravity Vector.x Vector.y].
    unfold onHost, Host.windowShake, Host.windowStatus, Host.windowParticles,
      Engine.getGravity.
    destruct h as [c rnd d tm nt hasP hasSh hasSt out].
    destruct hasP, hasSh, hasSt; cbn;
      (split; [do 3 f_equal; ring |]); (split; [f_equal; ring |]);
      do 3 f_equal; ring.
  - unfold onHost, Host.windowShake, Host.windowStatus, Host.windowParticles,
      Engine.getGravity.
    destruct h as [c rnd d tm nt hasP hasSh hasSt out].
    destruct hasP, hasSh, hasSt; cbn; rewrite ?app_nil_r, <- ?app_assoc;
      repeat split.
Qed.

Lemma toolExplode_bodies (p : Vector.t) (f r : option R) (s : Sys) :
  Engine.getAllBodies (Tools.toolExplode p f r s).2 = Engine.getAllBodies s.
Proof.
  destruct (toolExplode_chain p f r s) as [_ Hview]. cbv zeta in Hview.
  unfold chainView in Hview. injection Hview as H _ _ _ _. exact H.
Qed.



End MoreTools.


Section Balloons.
Import State.






End Balloons.







(** ** What the sudden rules leave alone *)

Section RulesFrame.
Import State.
Import View.

Lemma sameLayout_refl (s : Sys) : Terms.sameLayout s s.
Proof. split; [reflexivity |]. split; [reflexivity |]. intros l b H _. exact H. Qed.

Lemma sameLayout_trans (s1 s2 s3 : Sys) :
  Terms.sameLayout s1 s2 -> Terms.sameLayout s2 s3 -> Terms.sameLayout s1 s3.
Proof.
  intros (Hb1 & Hd1 & Hs1) (Hb2 & Hd2 & Hs2).
  split; [congruence |]. split; [intros l; rewrite Hd2; apply Hd1 |].
  intros l b Hl Hst. apply Hs2; [apply Hs1; assumption | exact Hst].
Qed.

(** A state that differs by one rewritten body object, the rewriting
    keeping position and [isStatic] and leaving static bodies alone. *)
Lemma sameLayout_alter (s s' : Sys) (g : Matter.Body -> Matter.Body) (l : loc) :
  heap s' = alter g l (heap s) ->
  Engine.getAllBodies s' = Engine.getAllBodies s ->
  (forall b, Matter.position (g b) = Matter.position b
             /\ Matter.isStatic (g b) = Matter.isStatic b) ->
  (forall b, Matter.isStatic b = true -> g b = b) ->
  Terms.sameLayout s s'.
Proof.
  intros Hh Hb Hg Hst. split; [exact Hb |]. split.
  - intros l'. rewrite Hh. destruct (decide (l' = l)) as [-> | Hne].
    + rewrite lookup_alter_eq. destruct (heap s !! l) as [b |]; [| reflexivity].
      cbn. destruct (Hg b) as [-> ->]. reflexivity.
    + rewrite lookup_alter_ne by congruence. reflexivity.
  - intros l' b Hl Hs. rewrite Hh. destruct (decide (l' = l)) as [-> | Hne].
    + rewrite lookup_alter_eq, Hl. cbn. rewrite Hst by exact Hs. reflexivity.
    + rewrite lookup_alter_ne by congruence. exact Hl.
Qed.

Lemma sameLayout_same_heap (s s' : Sys) :
  heap s' = heap s -> Engine.getAllBodies s' = Engine.getAllBodies s ->
  Terms.sameLayout s s'.
Proof.
  intros Hh Hb. split; [exact Hb |]. rewrite Hh.
  split; [reflexivity |]. intros l b H _. exact H.
Qed.

Lemma sameLayout_fold (h : Sys -> loc -> Sys) (ls : list loc) (s : Sys) :
  (forall s l, Terms.sameLayout s (h s l)) -> Terms.sameLayout s (fold_left h ls s).
Proof.
  intros Hh. revert s. induction ls as [| a ls IH]; intros s; [apply sameLayout_refl |].
  cbn [fold_left]. exact (sameLayout_trans _ _ _ (Hh s a) (IH _)).
Qed.

(** A guarded rewriting of the non-static body object at [l]. *)
Lemma sameLayout_guarded (s s1 : Sys) (f : Matter.Body -> Matter.Body) (l : loc) :
  heap s1 = heap s -> Engine.getAllBodies s1 = Engine.getAllBodies s ->
  (forall b, Matter.position (f b) = Matter.position b
             /\ Matter.isStatic (f b) = Matter.isStatic b) ->
  Terms.sameLayout s (if Engine.isStaticAt s l then s else update f l s1).
Proof.
  intros Hh Hb Hf. unfold Engine.isStaticAt.
  destruct (heap s !! l) as [b |] eqn:Hl.
  - destruct (Matter.isStatic b) eqn:Hst; [apply sameLayout_refl |].
    apply (sameLayout_alter s _ (fun b' => if Matter.isStatic b' then b' else f b') l).
    + cbn. rewrite Hh. apply alter_ext. intros b' Hb'.
      rewrite Hl in Hb'. injection Hb' as <-. rewrite Hst. reflexivity.
    + exact Hb.
    + intros b'. destruct (Matter.isStatic b') eqn:H'; [split; [reflexivity | exact H'] |].
      destruct (Hf b') as [-> ->]. split; [reflexivity | exact H'].
    + intros b' ->. reflexivity.
  - apply sameLayout_same_heap; [| exact Hb].
    cbn. rewrite Hh. apply alter_id. intros b Hb'. congruence.
Qed.

Lemma sameLayout_explodeBodyAt (p : Vector.t) (f r : R) (s : Sys) (n : nat) (l : loc) :
  Terms.sameLayout s (Tools.explodeBodyAt p f r (s, n) l).1.
Proof.
  destruct (explodeBodyAt_spec p f r s n l) as (Hh & He & _). cbv zeta in Hh, He.
  apply (sameLayout_alter s _ _ l Hh).
  - unfold Engine.getAllBodies. rewrite He. reflexivity.
  - intros b. unfold Tools.explodeEffect.
    destruct (Matter.isStatic b) eqn:Hst; [split; [reflexivity | exact Hst] |].
    destruct (Rltb _ r && Rltb 0 _); split; try reflexivity; exact Hst.
  - intros b Hst. unfold Tools.explodeEffect. rewrite Hst. reflexivity.
Qed.

Lemma sameLayout_toolExplode (p : Vector.t) (f r : option R) (s : Sys) :
  Terms.sameLayout s (Tools.toolExplode p f r s).2.
Proof.
  unfold Tools.toolExplode.
  set (h := Tools.explodeBodyAt p _ _).
  assert (H : forall ls acc, Terms.sameLayout acc.1 (fold_left h ls acc).1).
  { induction ls as [| a ls IH]; intros acc; [apply sameLayout_refl |].
    cbn [fold_left]. apply (sameLayout_trans _ (h acc a).1); [| apply IH].
    destruct acc as [s0 n0]. apply sameLayout_explodeBodyAt. }
  specialize (H (Engine.getAllBodies s) (s, 0%nat)).
  destruct (fold_left h (Engine.getAllBodies s) (s, 0%nat)) as [s1 n1].
  cbn [fst snd] in *.
  apply (sameLayout_trans _ s1 _ H). apply sameLayout_same_heap; reflexivity.
Qed.

Lemma sameLayout_setGravity (g : Vector.t) (s : Sys) :
  Terms.sameLayout s (Engine.setGravity g s).
Proof.
  apply sameLayout_same_heap; unfold Engine.setGravity, Engine.getAllBodies;
    destruct (engine s) eqn:He; cbn; rewrite ?He; reflexivity.
Qed.

Lemma sameLayout_triggerScreenShake (i : R) (s : Sys) :
  Terms.sameLayout s (Chaos.triggerScreenShake i s).
Proof.
  unfold Chaos.triggerScreenShake. destruct (screenShakeCallback (chaos s));
    [apply sameLayout_same_heap; reflexivity | apply sameLayout_refl].
Qed.

Lemma sameLayout_spawnParticles (x y : R) (n : nat) (c : string) (s : Sys) :
  Terms.sameLayout s (Chaos.spawnParticles x y n c s).
Proof.
  unfold Chaos.spawnParticles. destruct (particleCallback (chaos s));
    [apply sameLayout_same_heap; reflexivity | apply sameLayout_refl].
Qed.

Lemma sameLayout_showStatus (m : string) (s : Sys) :
  Terms.sameLayout s (Chaos.showStatus m s).
Proof.
  unfold Chaos.showStatus. destruct (statusCallback (chaos s));
    [apply sameLayout_same_heap; reflexivity | apply sameLayout_refl].
Qed.

Lemma sameLayout_ruleAction (i : nat) (s : Sys) :
  Terms.sameLayout s (Chaos.ruleAction i s).
Proof.
  destruct i as [| [| [| [| [| [| [| [| [| [| i]]]]]]]]]]; cbn [Chaos.ruleAction];
    try apply sameLayout_setGravity; try apply sameLayout_refl.
  - (* spinAllObjects *)
    unfold Chaos.spinAllObjects. apply sameLayout_fold. intros s' l.
    rewrite mathRandom_eq. cbv beta iota zeta.
    apply sameLayout_guarded; try reflexivity. intros b. split; reflexivity.
  - (* explodeRandomObject *)
    unfold Chaos.explodeRandomObject.
    destruct (Nat.ltb 0 _); [| apply sameLayout_refl].
    rewrite mathRandom_eq. cbv beta iota zeta.
    set (s1 := setHost _ s).
    assert (H1 : Terms.sameLayout s s1) by (apply sameLayout_same_heap; reflexivity).
    destruct (nth_error _ _) as [randomBody |]; [| exact H1].
    destruct (heap s1 !! randomBody) as [b |]; [| exact H1].
    apply (sameLayout_trans _ _ _ H1).
    eapply sameLayout_trans; [apply sameLayout_toolExplode |].
    eapply sameLayout_trans; [apply sameLayout_triggerScreenShake |].
    apply sameLayout_spawnParticles.
  - (* makeEverythingFloaty *)
    unfold Chaos.makeEverythingFloaty. apply sameLayout_fold. intros s' l.
    apply sameLayout_guarded; try reflexivity. intros b. split; reflexivity.
  - (* makeEverythingBouncy *)
    unfold Chaos.makeEverythingBouncy. apply sameLayout_fold. intros s' l.
    apply sameLayout_guarded; try reflexivity. intros b. split; reflexivity.
  - (* removeFriction *)
    unfold Chaos.removeFriction. apply sameLayout_fold. intros s' l.
    apply sameLayout_guarded; try reflexivity. intros b. split; reflexivity.
  - (* launchEverythingUp *)
    unfold Chaos.launchEverythingUp.
    eapply sameLayout_trans; [| apply sameLayout_triggerScreenShake].
    apply sameLayout_fold. intros s' l.
    rewrite mathRandom_eq. cbv beta iota zeta.
    apply sameLayout_guarded; try reflexivity. intros b. split; reflexivity.
Qed.

Lemma sameLayout_applyRandomRule (s : Sys) :
  Terms.sameLayout s (Chaos.applyRandomRule s).
Proof.
  unfold Chaos.applyRandomRule. rewrite mathRandom_eq. cbv beta iota zeta.
  eapply sameLayout_trans; [| apply sameLayout_ruleAction].
  eapply sameLayout_trans; [| apply sameLayout_showStatus].
  apply sameLayout_same_heap; reflexivity.
Qed.

(** X19. No sudden rule adds a body to the world or removes one, moves a
    body, or changes whether it is static; static body objects (ground,
    walls, black holes) are not touched at all; and no rule starts or
    stops a timer or changes a variable of the chaos manager. This holds
    for each of the ten rule actions, for [applyRandomRule] (which picks
    one and records it in [currentRule]) and for the callback of the rules
    interval. *)
Theorem sudden_rules_keep_the_layout (i : nat) (s : Sys) :
  Terms.sameLayout s (Chaos.ruleAction i s)
  /\ control (Chaos.ruleAction i s) = control s
  /\ Terms.sameLayout s (Chaos.applyRandomRule s)
  /\ Terms.sameLayout s (Chaos.rulesTick s)
  /\ Host.timers (host (Chaos.rulesTick s)) = Host.timers (host s).
Proof.
  split; [apply sameLayout_ruleAction |].
  split; [apply control_ruleAction |].
  split; [apply sameLayout_applyRandomRule |].
  split.
  - unfold Chaos.rulesTick.
    eapply sameLayout_trans; [apply sameLayout_applyRandomRule |].
    apply sameLayout_triggerScreenShake.
  - unfold Chaos.rulesTick.
    pose proof (control_triggerScreenShake (5 / 10) (Chaos.applyRandomRule s)) as H1.
    destruct (control_applyRandomRule s) as [r H2].
    unfold control in H1, H2. congruence.
Qed.

End RulesFrame.

(** ** Starting chaos again, stopping it *)

Section ChaosLoops.
Import State.
Import View.

Lemma control_startSuddenRules_timer (ms : R) (s : Sys) :
  exists r due,
    control (Chaos.startSuddenRules ms s)
    = (Chaos.withRules true (Some (Host.nextTimer (host s)))
         (Chaos.withCurrentRule (Some r) (chaos s)),
       <[Host.nextTimer (host s) := Host.mkTimer due (Some ms) Host.RulesTick]>
         (Chaos.clearHandle (rulesInterval (chaos s)) (Host.timers (host s))),
       Pos.succ (Host.nextTimer (host s))).
Proof.
  unfold Chaos.startSuddenRules.
  set (s1 := Chaos.showStatus _ _).
  assert (H1 : control s1
               = (Chaos.withRules true (rulesInterval (chaos s)) (chaos s),
                  Chaos.clearHandle (rulesInterval (chaos s)) (Host.timers (host s)),
                  Host.nextTimer (host s))).
  { subst s1. rewrite control_showStatus. unfold Chaos.clearIfSet, control.
    destruct (rulesInterval (chaos s)) eqn:Hf; cbn; rewrite ?Hf; reflexivity. }
  destruct (control_applyRandomRule s1) as [r Hr]. clearbody s1.
  set (s2 := Chaos.applyRandomRule s1) in *. clearbody s2.
  unfold control in H1, Hr. injection H1 as Hc1 Ht1 Hn1. injection Hr as Hc2 Ht2 Hn2.
  exists r. eexists. unfold Chaos.setIntervalIn, control. cbn.
  rewrite Hc2, Ht2, Hn2, Hc1, Ht1, Hn1. reflexivity.
Qed.

(** [enableChaos], with the callbacks and periods of its three timers. *)
Lemma control_enableChaos_timers (s : Sys) :
  let n1 := Host.nextTimer (host s) in
  let n2 := Pos.succ n1 in
  let n3 := Pos.succ n2 in
  exists r d1 d2 d3,
    control (Chaos.enableChaos s)
    = (Chaos.withExplosions true (Some n3)
         (Chaos.withRules true (Some n2)
            (Chaos.withCurrentRule (Some r)
               (Chaos.withFlood true (Some n1)
                  (Chaos.withChaosEnabled true (chaos s))))),
       <[n3 := Host.mkTimer d3 (Some 100) Host.ExplosionCheck]>
         (Chaos.clearHandle (explosionCheckInterval (chaos s))
            (<[n2 := Host.mkTimer d2 (Some 12000) Host.RulesTick]>
               (Chaos.clearHandle (rulesInterval (chaos s))
                  (<[n1 := Host.mkTimer d1 (Some 3000) (Host.FloodTick 3)]>
                     (Chaos.clearHandle (floodInterval (chaos s))
                        (Host.timers (host s))))))),
       Pos.succ n3).
Proof.
  intros n1 n2 n3. unfold Chaos.enableChaos. cbv zeta.
  set (s0 := setChaos (Chaos.withChaosEnabled true (chaos s)) s).
  pose proof (control_startObjectFlood 3 3000 s0) as H1.
  set (s1 := Chaos.startObjectFlood 3 3000 s0) in *. clearbody s1.
  destruct (control_startSuddenRules_timer 12000 s1) as (r & d2 & H2).
  set (s2 := Chaos.startSuddenRules 12000 s1) in *. clearbody s2.
  pose proof (control_startExplosionChain s2) as H3.
  set (s3 := Chaos.startExplosionChain s2) in *. clearbody s3.
  rewrite control_showStatus.
  unfold control in H1, H2, H3.
  injection H1 as Hc1 Ht1 Hn1. injection H2 as Hc2 Ht2 Hn2.
  injection H3 as Hc3 Ht3 Hn3.
  exists r. do 3 eexists. unfold control.
  rewrite Hc3, Ht3, Hn3, Hc2, Ht2, Hn2, Hc1, Ht1, Hn1. subst s0. cbn. reflexivity.
Qed.

Lemma clearHandle_lookup_ne (h : option positive) (table : gmap positive Host.Timer)
    (id : positive) :
  h <> Some id -> Chaos.clearHandle h table !! id = table !! id.
Proof.
  destruct h as [id' |]; cbn; intros H; [| reflexivity].
  apply lookup_delete_ne. congruence.
Qed.

Lemma handle_below (s : Sys) (h : option positive) (id : positive) :
  Terms.handlesBelowNext s ->
  In h [floodInterval (chaos s); rulesInterval (chaos s);
        explosionCheckInterval (chaos s)] ->
  (Host.nextTimer (host s) <= id)%positive -> h <> Some id.
Proof.
  intros Hbelow Hin Hle ->.
  assert (Hid : id ∈ Chaos.handles (chaos s)).
  { unfold Chaos.handles. apply list_elem_of_In.
    destruct Hin as [H | [H | [H | []]]];
      destruct (floodInterval (chaos s)) as [f |],
               (rulesInterval (chaos s)) as [r |],
               (explosionCheckInterval (chaos s)) as [e |];
      cbn; try discriminate; injection H as ->; auto. }
  specialize (Hbelow id Hid). lia.
Qed.

(** The loops that [enableChaos] starts, on any state whose loop timers
    are those of its handles. *)
Lemma enableChaos_loops (s : Sys) :
  Chaos.loopsTracked s -> Terms.handlesBelowNext s ->
  let n1 := Host.nextTimer (host s) in
  let n2 := Pos.succ n1 in
  let n3 := Pos.succ n2 in
  let s' := Chaos.enableChaos s in
  exists d1 d2 d3,
    Host.timers (host s') !! n1 = Some (Host.mkTimer d1 (Some 3000) (Host.FloodTick 3))
    /\ Host.timers (host s') !! n2 = Some (Host.mkTimer d2 (Some 12000) Host.RulesTick)
    /\ Host.timers (host s') !! n3 = Some (Host.mkTimer d3 (Some 100) Host.ExplosionCheck)
    /\ Chaos.handles (chaos s') = [n1; n2; n3]
    /\ (forall id t, Host.timers (host s') !! id = Some t ->
          Chaos.isLoopTimer t = true -> In id [n1; n2; n3])
    /\ Chaos.loopsTracked s' /\ Terms.handlesBelowNext s'.
Proof.
  intros Htracked Hbelow n1 n2 n3 s'.
  destruct (control_enableChaos_timers s) as (r & d1 & d2 & d3 & Hc).
  fold n1 n2 n3 s' in Hc. unfold control in Hc. injection Hc as Hch Ht Hn.
  assert (Hf : floodInterval (chaos s) <> Some n1
               /\ rulesInterval (chaos s) <> Some n1
               /\ explosionCheckInterval (chaos s) <> Some n1
               /\ rulesInterval (chaos s) <> Some n2
               /\ explosionCheckInterval (chaos s) <> Some n2
               /\ explosionCheckInterval (chaos s) <> Some n3).
  { repeat split; apply (handle_below s); try exact Hbelow; cbn; auto; subst n1 n2 n3; lia. }
  destruct Hf as (Hf1 & Hr1 & He1 & Hr2 & He2 & He3).
  assert (Hloops : forall id t, Host.timers (host s') !! id = Some t ->
            Chaos.isLoopTimer t = true -> In id [n1; n2; n3]).
  { intros id t Hl Hloop. rewrite Ht in Hl.
    apply lookup_insert_Some in Hl as [[<- _] | [_ Hl]]; [cbn; auto |].
    apply clearHandle_lookup in Hl as [Hl He].
    apply lookup_insert_Some in Hl as [[<- _] | [_ Hl]]; [cbn; auto |].
    apply clearHandle_lookup in Hl as [Hl Hr].
    apply lookup_insert_Some in Hl as [[<- _] | [_ Hl]]; [cbn; auto |].
    apply clearHandle_lookup in Hl as [Hl Hfl].
    exfalso. pose proof (Htracked id t Hl Hloop) as Hid.
    unfold Chaos.handles in Hid. apply list_elem_of_In in Hid.
    destruct (floodInterval (chaos s)) as [f |],
             (rulesInterval (chaos s)) as [r' |],
             (explosionCheckInterval (chaos s)) as [e |];
      cbn in Hid; intuition congruence. }
  exists d1, d2, d3.
  split.
  { rewrite Ht. rewrite lookup_insert_ne by (subst n1 n2 n3; lia).
    rewrite clearHandle_lookup_ne by exact He1.
    rewrite lookup_insert_ne by (subst n1 n2 n3; lia).
    rewrite clearHandle_lookup_ne by exact Hr1.
    apply lookup_insert_eq. }
  split.
  { rewrite Ht. rewrite lookup_insert_ne by (subst n1 n2 n3; lia).
    rewrite clearHandle_lookup_ne by exact He2.
    apply lookup_insert_eq. }
  split; [rewrite Ht; apply lookup_insert_eq |].
  split; [rewrite Hch; reflexivity |].
  split; [exact Hloops |].
  split.
  - intros id t Hl Hloop. rewrite Hch. apply list_elem_of_In.
    exact (Hloops id t Hl Hloop).
  - intros id Hid. rewrite Hch in Hid. rewrite Hn. cbn in Hid.
    apply list_elem_of_In in Hid.
    destruct Hid as [<- | [<- | [<- | []]]]; subst n1 n2 n3; lia.
Qed.

Lemma old_handle_cleared (s : Sys) (id : positive) (t1 t2 t3 : Host.Timer)
    (n1 n2 n3 : positive) :
  id ∈ Chaos.handles (chaos s) -> id <> n1 -> id <> n2 -> id <> n3 ->
  <[n3 := t3]>
    (Chaos.clearHandle (explosionCheckInterval (chaos s))
       (<[n2 := t2]>
          (Chaos.clearHandle (rulesInterval (chaos s))
             (<[n1 := t1]>
                (Chaos.clearHandle (floodInterval (chaos s))
                   (Host.timers (host s))))))) !! id = None.
Proof.
  intros Hid H1 H2 H3. unfold Chaos.handles in Hid. apply list_elem_of_In in Hid.
  rewrite lookup_insert_ne by congruence.
  destruct (decide (explosionCheckInterval (chaos s) = Some id)) as [-> | He];
    [apply lookup_delete_eq |].
  rewrite clearHandle_lookup_ne by exact He. rewrite lookup_insert_ne by congruence.
  destruct (decide (rulesInterval (chaos s) = Some id)) as [-> | Hr];
    [apply lookup_delete_eq |].
  rewrite clearHandle_lookup_ne by exact Hr. rewrite lookup_insert_ne by congruence.
  destruct (decide (floodInterval (chaos s) = Some id)) as [-> | Hf];
    [apply lookup_delete_eq |].
  exfalso.
  destruct (floodInterval (chaos s)) as [f |],
           (rulesInterval (chaos s)) as [r |],
           (explosionCheckInterval (chaos s)) as [e |];
    cbn in Hid; intuition congruence.
Qed.

(** X20. [enableChaos] restarts the three loops rather than adding to
    them. On a state whose loop timers are the ones its handles point to
    (true from the start, and kept by [enableChaos] itself, so also when
    chaos is on already), afterwards the timer table holds exactly three
    loop timers: the flood every 3000 ms with intensity 3, the rules every
    12000 ms and the explosion check every 100 ms, the three handles point
    to them, and the timers the handles pointed to before are gone. The
    report of [getChaosState] says everything is on and names a rule. *)
Theorem enableChaos_restarts_the_three_loops (s : Sys) :
  Chaos.loopsTracked s -> Terms.handlesBelowNext s ->
  let n1 := Host.nextTimer (host s) in
  let n2 := Pos.succ n1 in
  let n3 := Pos.succ n2 in
  let s' := Chaos.enableChaos s in
  (exists d1 d2 d3,
     Host.timers (host s') !! n1 = Some (Host.mkTimer d1 (Some 3000) (Host.FloodTick 3))
     /\ Host.timers (host s') !! n2 = Some (Host.mkTimer d2 (Some 12000) Host.RulesTick)
     /\ Host.timers (host s') !! n3
        = Some (Host.mkTimer d3 (Some 100) Host.ExplosionCheck))
  /\ Chaos.handles (chaos s') = [n1; n2; n3]
  /\ (forall id t, Host.timers (host s') !! id = Some t ->
        Chaos.isLoopTimer t = true -> In id [n1; n2; n3])
  /\ (forall id, id ∈ Chaos.handles (chaos s) -> Host.timers (host s') !! id = None)
  /\ (exists r,
        ChaosState.getChaosState s'
        = ChaosState.mkReport true true true true (Some (Chaos.ruleName r))).
Proof.
  intros Htracked Hbelow n1 n2 n3 s'.
  destruct (enableChaos_loops s Htracked Hbelow)
    as (d1 & d2 & d3 & H1 & H2 & H3 & Hh & Hl & _ & _).
  fold n1 n2 n3 s' in H1, H2, H3, Hh, Hl.
  split; [exists d1, d2, d3; repeat split; assumption |].
  split; [exact Hh |]. split; [exact Hl |].
  destruct (control_enableChaos_timers s) as (r & e1 & e2 & e3 & Hc).
  fold n1 n2 n3 s' in Hc. unfold control in Hc. injection Hc as Hch Ht Hn.
  split.
  - intros id Hid. rewrite Ht. pose proof (Hbelow id Hid) as Hlt.
    apply old_handle_cleared; [exact Hid | | |]; subst n1 n2 n3; lia.
  - exists r. unfold ChaosState.getChaosState. rewrite Hch. reflexivity.
Qed.

Lemma handlesBelowNext_initial_engine :
  Terms.handlesBelowNext (Scenario.fresh Scenario.half).
Proof.
  intros id Hid.
  assert (H : Chaos.handles (chaos (Scenario.fresh Scenario.half)) = []) by reflexivity.
  rewrite H in Hid. apply elem_of_nil in Hid. destruct Hid.
Qed.

Lemma world_stopObjectFlood (s : Sys) :
  engine (Chaos.stopObjectFlood s) = engine s /\ heap (Chaos.stopObjectFlood s) = heap s.
Proof.
  unfold Chaos.stopObjectFlood. destruct (floodInterval (chaos s)); split; reflexivity.
Qed.

Lemma world_stopExplosionChain (s : Sys) :
  engine (Chaos.stopExplosionChain s) = engine s
  /\ heap (Chaos.stopExplosionChain s) = heap s.
Proof.
  unfold Chaos.stopExplosionChain.
  destruct (explosionCheckInterval (chaos s)); split; reflexivity.
Qed.

Lemma world_showStatus (m : string) (s : Sys) :
  engine (Chaos.showStatus m s) = engine s /\ heap (Chaos.showStatus m s) = heap s.
Proof. unfold Chaos.showStatus. destruct (statusCallback (chaos s)); split; reflexivity. Qed.

Lemma world_stopSuddenRules (s : Sys) :
  engine (Chaos.stopSuddenRules s)
  = match engine s with
    | Some e => Some (mkEngine (bodies e) (Vector.mk 0 1) (timeScale e))
    | None => None
    end
  /\ heap (Chaos.stopSuddenRules s) = heap s.
Proof.
  unfold Chaos.stopSuddenRules, Engine.setGravity.
  destruct (rulesInterval (chaos s)); cbn; destruct (engine s) eqn:He; cbn;
    rewrite ?He; split; reflexivity.
Qed.

Lemma engine_disableChaos (s : Sys) :
  engine (Chaos.disableChaos s)
  = match engine s with
    | Some e => Some (mkEngine (bodies e) (Vector.mk 0 1) (timeScale e))
    | None => None
    end
  /\ heap (Chaos.disableChaos s) = heap s.
Proof.
  unfold Chaos.disableChaos. cbv zeta.
  set (s0 := setChaos _ s).
  destruct (world_stopObjectFlood s0) as [He1 Hh1].
  set (s1 := Chaos.stopObjectFlood s0) in *. clearbody s1.
  destruct (world_stopSuddenRules s1) as [He2 Hh2].
  set (s2 := Chaos.stopSuddenRules s1) in *. clearbody s2.
  destruct (world_stopExplosionChain s2) as [He3 Hh3].
  set (s3 := Chaos.stopExplosionChain s2) in *. clearbody s3.
  destruct (world_showStatus "Chaos disabled" s3) as [-> ->].
  rewrite He3, He2, He1, Hh3, Hh2, Hh1. split; reflexivity.
Qed.

(** X21. [disableChaos] switches the four flags off, but the report of
    [getChaosState] keeps naming the last rule applied: [currentRule] is
    never cleared. It also puts gravity back to (0, 1), whether or not a
    rule had changed it, so that a gravity flipped by hand is lost; no body
    object is touched. *)
Theorem disableChaos_keeps_the_rule_and_resets_gravity (s : Sys) :
  ChaosState.getChaosState (Chaos.disableChaos s)
  = ChaosState.mkReport false false false false
      (Chaos.ruleName <$> currentRule (chaos s))
  /\ Engine.getGravity (Chaos.disableChaos s) = Vector.mk 0 1
  /\ Engine.getGravity (Chaos.disableChaos (Engine.flipGravity s).2) = Vector.mk 0 1
  /\ Engine.getAllBodies (Chaos.disableChaos s) = Engine.getAllBodies s
  /\ heap (Chaos.disableChaos s) = heap s.
Proof.
  pose proof (control_disableChaos s) as Hc. unfold control in Hc.
  injection Hc as Hch _ _.
  assert (Hg : forall s0, Engine.getGravity (Chaos.disableChaos s0) = Vector.mk 0 1).
  { intros s0. unfold Engine.getGravity.
    rewrite (proj1 (engine_disableChaos s0)). destruct (engine s0); reflexivity. }
  split; [unfold ChaosState.getChaosState; rewrite Hch; reflexivity |].
  split; [apply Hg |]. split; [apply Hg |].
  split; [| apply engine_disableChaos].
  unfold Engine.getAllBodies. rewrite (proj1 (engine_disableChaos s)).
  destruct (engine s); reflexivity.
Qed.

End ChaosLoops.

Lemma enableChaos_restarts_the_three_loops_witness :
  let s := Chaos.enableChaos (Scenario.fresh Scenario.half) in
  let n1 := Host.nextTimer (State.host s) in
  Chaos.handles (State.chaos (Chaos.enableChaos s))
  = [n1; Pos.succ n1; Pos.succ (Pos.succ n1)].
Proof.
  cbv zeta.
  destruct (enableChaos_loops (Scenario.fresh Scenario.half)
              loopsTracked_initial_engine handlesBelowNext_initial_engine)
    as (_ & _ & _ & _ & _ & _ & _ & _ & Htracked & Hbelow).
  pose proof (enableChaos_restarts_the_three_loops
                (Chaos.enableChaos (Scenario.fresh Scenario.half)) Htracked Hbelow) as H.
  cbv zeta in H. destruct H as (_ & Hh & _). exact Hh.
Defined.

(** ** Explosions: one body, the rescan, the check *)

Section Explosions.
Import State.
Import View.


Lemma timerAfter_zero (n : positive) : Terms.timerAfter n 0 = n.
Proof. unfold Terms.timerAfter. rewrite Nat.add_0_r. apply Pos2Nat.id. Qed.

Lemma timerAfter_succ (n : positive) (i : nat) :
  Terms.timerAfter (Pos.succ n) i = Terms.timerAfter n (S i).
Proof. unfold Terms.timerAfter. f_equal. rewrite Pos2Nat.inj_succ. lia. Qed.

Lemma timerAfter_ge (n : positive) (i : nat) : (n <= Terms.timerAfter n i)%positive.
Proof.
  unfold Terms.timerAfter. apply Pos2Nat.inj_le.
  rewrite Nat2Pos.id by (pose proof (Pos2Nat.is_pos n); lia). lia.
Qed.

(** The timeouts of a rescan, one after the other. *)
Lemma schedule_spec (clock : R) (rnd : nat -> R) (targets : list loc)
    (table : gmap positive Host.Timer) (n : positive) (k : nat) :
  let plan := Chaos.schedule clock rnd targets table n k in
  Pos.to_nat plan.1.2 = (Pos.to_nat n + length targets)%nat
  /\ plan.2 = (k + length targets)%nat
  /\ (forall id, (id < n)%positive -> plan.1.1 !! id = table !! id)
  /\ (forall i l, nth_error targets i = Some l ->
        plan.1.1 !! Terms.timerAfter n i
        = Some (Host.mkTimer (clock + (100 + rnd (k + i)%nat * 200)) None
                  (Host.ChainExplode l)))
  /\ (forall id t, plan.1.1 !! id = Some t ->
        table !! id = Some t
        \/ exists i l,
             nth_error targets i = Some l /\ id = Terms.timerAfter n i
             /\ t = Host.mkTimer (clock + (100 + rnd (k + i)%nat * 200)) None
                      (Host.ChainExplode l)).
Proof.
  revert table n k. induction targets as [| a rest IH]; intros table n k;
    cbn [Chaos.schedule length].
  - cbn. split; [lia |]. split; [lia |]. split; [reflexivity |].
    split; [intros [| i] l H; discriminate |]. intros id t H. left. exact H.
  - destruct (IH (<[n := Host.mkTimer (clock + (100 + rnd k * 200)) None
                            (Host.ChainExplode a)]> table) (Pos.succ n) (S k))
      as (Hn & Hk & Hold & Hnew & Hall).
    cbv zeta in *.
    split; [rewrite Hn, Pos2Nat.inj_succ; lia |].
    split; [rewrite Hk; lia |].
    split.
    { intros id Hid. rewrite Hold by lia. apply lookup_insert_ne. lia. }
    split.
    { intros [| i] l Hl; cbn in Hl.
      - injection Hl as <-. rewrite timerAfter_zero, Nat.add_0_r.
        rewrite Hold by lia. apply lookup_insert_eq.
      - rewrite <- timerAfter_succ. rewrite (Hnew i l Hl).
        replace (S k + i)%nat with (k + S i)%nat by lia. reflexivity. }
    intros id t Hid. destruct (Hall id t Hid) as [Hin | (i & l & Hl & -> & ->)].
    + apply lookup_insert_Some in Hin as [[<- <-] | [_ Hin]]; [| left; exact Hin].
      right. exists 0%nat, a. rewrite timerAfter_zero, Nat.add_0_r.
      repeat split.
    + right. exists (S i), l. rewrite timerAfter_succ.
      split; [exact Hl |]. split; [reflexivity |].
      replace (S k + i)%nat with (k + S i)%nat by lia. reflexivity.
Qed.

(** X23. The rescan that follows an explosion changes neither the world
    nor any timer that is there. It registers one [explodeBody] timeout
    for each body of the world that is explosive, not static and closer
    than 0.8 times the radius to the place of the explosion, in the order
    of the world: the [i]-th of them gets the [i]-th new timer identifier
    and is due 100 to 300 ms later. Nothing else is registered. *)
Theorem chainRescan_queues_the_explosives_in_range (pos : Vector.t) (radius : R)
    (s : Sys) :
  let targets :=
    List.filter (Chaos.inRangeAt s pos radius) (Engine.getAllBodies s) in
  let s' := Chaos.chainRescan pos radius s in
  let n := Host.nextTimer (host s) in
  let now := Host.clock (host s) in
  Terms.randomInUnit s -> Terms.timersBelowNext s ->
  Engine.getAllBodies s' = Engine.getAllBodies s
  /\ Pos.to_nat (Host.nextTimer (host s')) = (Pos.to_nat n + length targets)%nat
  /\ (forall id t, Host.timers (host s) !! id = Some t ->
        Host.timers (host s') !! id = Some t)
  /\ (forall i l, nth_error targets i = Some l ->
        exists t,
          Host.timers (host s') !! Terms.timerAfter n i = Some t
          /\ Host.callback t = Host.ChainExplode l /\ Host.period t = None
          /\ now + 100 <= Host.due t < now + 300)
  /\ (forall id t, Host.timers (host s') !! id = Some t ->
        Host.timers (host s) !! id = Some t
        \/ exists l, In l targets /\ Host.callback t = Host.ChainExplode l).
Proof.
  intros targets s' n now Hrnd Hfresh.
  destruct (chainRescan_chain pos radius s) as [_ Hview].
  fold targets s' in Hview. unfold chainView in Hview.
  injection Hview as Hb Ht Hn _ _.
  destruct (schedule_spec (Host.clock (host s)) (Host.random (host s)) targets
              (Host.timers (host s)) (Host.nextTimer (host s)) (Host.drawn (host s)))
    as (Hcount & _ & Hold & Hnew & Hall).
  cbv zeta in *. rewrite <- Ht in Hold, Hnew, Hall. rewrite <- Hn in Hcount.
  fold n now in Hcount, Hold, Hnew, Hall.
  split; [exact Hb |]. split; [exact Hcount |].
  split.
  { intros id t Hid. rewrite Hold; [exact Hid |].
    destruct (Pos.ltb_spec id n) as [Hlt | Hge]; [exact Hlt |].
    rewrite (Hfresh id Hge) in Hid. discriminate. }
  split.
  { intros i l Hl. eexists. split; [apply (Hnew i l Hl) |].
    cbn. split; [reflexivity |]. split; [reflexivity |].
    pose proof (Hrnd (Host.drawn (host s) + i)%nat). lra. }
  intros id t Hid. destruct (Hall id t Hid) as [Hin | (i & l & Hl & _ & ->)];
    [left; exact Hin |].
  right. exists l. split; [apply nth_error_In with i; exact Hl | reflexivity].
Qed.

End Explosions.


Lemma thirdZero_in_unit (s : State.Sys) :
  Host.random (State.host s) = Scenario.thirdZero -> Terms.randomInUnit s.
Proof.
  intros H k. rewrite H. unfold Scenario.thirdZero. destruct (Nat.eqb k 2); lra.
Qed.

Lemma chainRescan_queues_the_explosives_in_range_witness :
  Engine.getAllBodies (Chaos.chainRescan (Vector.mk 100 100) 200 Scenario.threeBarrels)
  = [1; 2; 3; 4; 5; 6; 7]%positive.
Proof.
  destruct (chainRescan_queues_the_explosives_in_range (Vector.mk 100 100) 200
              Scenario.threeBarrels) as (Hb & _).
  - apply thirdZero_in_unit. exact threeBarrels_random.
  - intros id _.
    replace (Host.timers (State.host Scenario.threeBarrels))
      with (∅ : gmap positive Host.Timer) by reflexivity.
    apply lookup_empty.
  - rewrite Hb. reflexivity.
Defined.

Section ExplosionCheck.
Import State.
Import View.

Lemma sameMotion_explodeBodyAt (p : Vector.t) (f r : R) (s : Sys) (n : nat) (l : loc) :
  Terms.sameMotion s (Tools.explodeBodyAt p f r (s, n) l).1.
Proof.
  destruct (explodeBodyAt_spec p f r s n l) as (Hh & _). cbv zeta in Hh.
  intros l'. unfold Terms.motionAt. rewrite Hh.
  destruct (decide (l' = l)) as [-> | Hne].
  - rewrite lookup_alter_eq. destruct (heap s !! l) as [b |]; [| reflexivity].
    cbn. unfold Tools.explodeEffect.
    destruct (Matter.isStatic b) eqn:Hst; [rewrite Hst; reflexivity |].
    destruct (Rltb _ r && Rltb 0 _); cbn; rewrite ?Hst; reflexivity.
  - rewrite lookup_alter_ne by congruence. reflexivity.
Qed.

Lemma sameMotion_toolExplode (p : Vector.t) (f r : option R) (s : Sys) :
  Terms.sameMotion s (Tools.toolExplode p f r s).2.
Proof.
  unfold Tools.toolExplode.
  set (h := Tools.explodeBodyAt p _ _).
  assert (H : forall ls acc, Terms.sameMotion acc.1 (fold_left h ls acc).1).
  { induction ls as [| a ls IH]; intros acc; [intros l; reflexivity |].
    cbn [fold_left]. intros l. rewrite IH. destruct acc as [s0 n0].
    apply sameMotion_explodeBodyAt. }
  specialize (H (Engine.getAllBodies s) (s, 0%nat)).
  destruct (fold_left h (Engine.getAllBodies s) (s, 0%nat)) as [s1 n1].
  exact H.
Qed.

Lemma sameMotion_explodeBody (l : loc) (s : Sys) :
  Terms.sameMotion s (Chaos.explodeBody l s).
Proof.
  unfold Chaos.explodeBody. destruct (heap s !! l) as [body |]; [| intros l'; reflexivity].
  cbv zeta. intros l'.
  set (s1 := Chaos.triggerScreenShake _ s).
  set (s2 := Chaos.spawnParticles _ _ _ _ s1).
  assert (H1 : heap s1 = heap s).
  { subst s1. unfold Chaos.triggerScreenShake.
    destruct (screenShakeCallback (chaos s)); reflexivity. }
  assert (H2 : heap s2 = heap s1).
  { subst s2. unfold Chaos.spawnParticles.
    destruct (particleCallback (chaos s1)); reflexivity. }
  pose proof (sameMotion_toolExplode (Matter.position body)
                (Some (orElse (Matter.explosionForce body) (5 / 10)))
                (Some (orElse (Matter.explosionRadius body) 200)) s2 l') as H3.
  set (s3 := (Tools.toolExplode _ _ _ s2).2) in *.
  unfold Terms.motionAt in *. rewrite <- H1, <- H2, <- H3.
  unfold Chaos.setTimeoutIn, Engine.removeBody. destruct (engine s3); reflexivity.
Qed.

Lemma fastAt_sameMotion (s s' : Sys) (l : loc) :
  Terms.sameMotion s s' -> Terms.fastAt s' l = Terms.fastAt s l.
Proof. intros H. unfold Terms.fastAt. rewrite H. reflexivity. Qed.

Lemma explosionCheck_step (s : Sys) (l : loc) :
  match heap s !! l with
  | Some body =>
      if Matter.isExplosive body && negb (Matter.isStatic body) then
        let speed := Vector.magnitude (Matter.velocity body) in
        if Rltb 15 speed then Chaos.explodeBody l s else s
      else s
  | None => s
  end
  = if Terms.fastAt s l then Chaos.explodeBody l s else s.
Proof.
  unfold Terms.fastAt, Terms.motionAt.
  destruct (heap s !! l) as [body |]; [| reflexivity]. cbn.
  destruct (Matter.isExplosive body && negb (Matter.isStatic body)); reflexivity.
Qed.

Lemma fold_explosionCheck (s0 s : Sys) (ls : list loc) :
  Terms.sameMotion s0 s ->
  fold_left (fun s l =>
    match heap s !! l with
    | Some body =>
        if Matter.isExplosive body && negb (Matter.isStatic body) then
          let speed := Vector.magnitude (Matter.velocity body) in
          if Rltb 15 speed then Chaos.explodeBody l s else s
        else s
    | None => s
    end) ls s
  = fold_left (fun s l => Chaos.explodeBody l s) (List.filter (Terms.fastAt s0) ls) s.
Proof.
  revert s. induction ls as [| a ls IH]; intros s Hsame; [reflexivity |].
  cbn [fold_left List.filter]. rewrite explosionCheck_step.
  rewrite (fastAt_sameMotion s0 s a Hsame).
  destruct (Terms.fastAt s0 a); cbn [fold_left]; apply IH; [| exact Hsame].
  intros l. rewrite sameMotion_explodeBody. apply Hsame.
Qed.

Lemma filter_nothing (f : loc -> bool) (ls : list loc) :
  (forall l, In l ls -> f l = false) -> List.filter f ls = [].
Proof.
  induction ls as [| a ls IH]; intros Hnone; [reflexivity |].
  cbn [List.filter]. rewrite (Hnone a (or_introl eq_refl)).
  apply IH. intros l Hl. apply Hnone. right. exact Hl.
Qed.

(** X24. The callback of the explosion check explodes, in the order of the
    world, exactly the bodies that were explosive, not static and faster
    than 15 when it started: an explosion changes no velocity, so it
    triggers no further body within the same check. When no body is that
    fast (a speed of exactly 15 is not enough), the callback changes
    nothing. *)
Theorem explosionCheck_explodes_the_fast_explosives (s : Sys) :
  Chaos.explosionCheck s
  = fold_left (fun s l => Chaos.explodeBody l s)
      (List.filter (Terms.fastAt s) (Engine.getAllBodies s)) s
  /\ ((forall l, In l (Engine.getAllBodies s) -> Terms.fastAt s l = false) ->
        Chaos.explosionCheck s = s)
  /\ (forall l body, heap s !! l = Some body ->
        Vector.magnitude (Matter.velocity body) <= 15 -> Terms.fastAt s l = false).
Proof.
  assert (H : Chaos.explosionCheck s
              = fold_left (fun s l => Chaos.explodeBody l s)
                  (List.filter (Terms.fastAt s) (Engine.getAllBodies s)) s).
  { unfold Chaos.explosionCheck. apply fold_explosionCheck. intros l. reflexivity. }
  split; [exact H |]. split.
  - intros Hslow. rewrite H.
    rewrite (filter_nothing _ _ Hslow). reflexivity.
  - intros l body Hl Hspeed. unfold Terms.fastAt, Terms.motionAt. rewrite Hl. cbn.
    apply Rltb_false in Hspeed. rewrite Hspeed. apply andb_false_r.
Qed.

End ExplosionCheck.

Lemma threeBarrels_bodies :
  Engine.getAllBodies Scenario.threeBarrels = [1; 2; 3; 4; 5; 6; 7]%positive.
Proof. reflexivity. Qed.

Lemma threeBarrels_at_rest (l : positive) :
  In l (Engine.getAllBodies Scenario.threeBarrels) ->
  exists body, State.heap Scenario.threeBarrels !! l = Some body
               /\ Matter.velocity body = Vector.zero.
Proof.
  rewrite threeBarrels_bodies.
  destruct threeBarrels_heap as (H5 & H6 & H7).
  intros [<- | [<- | [<- | [<- | [<- | [<- | [<- | []]]]]]]].
  1-4: eexists; split; reflexivity.
  - exists (Scenario.barrel 100 100 0). split; [exact H5 | reflexivity].
  - exists (Scenario.barrel 150 100 1). split; [exact H6 | reflexivity].
  - exists (Scenario.barrel 200 100 2). split; [exact H7 | reflexivity].
Qed.

Lemma explosionCheck_explodes_the_fast_explosives_witness :
  Chaos.explosionCheck Scenario.threeBarrels = Scenario.threeBarrels.
Proof.
  destruct (explosionCheck_explodes_the_fast_explosives Scenario.threeBarrels)
    as (_ & Hnone & Hslow).
  apply Hnone. intros l Hl.
  destruct (threeBarrels_at_rest l Hl) as (body & Hb & Hv).
  apply (Hslow l body Hb). rewrite Hv. unfold Vector.magnitude, Vector.zero. cbn.
  replace (0 * 0 + 0 * 0) with 0 by lra. rewrite sqrt_0. lra.
Defined.

(** ** The tool dispatcher *)

Section ExecuteTool.
Import State.

Lemma toolPush_bodies (p d : Vector.t) (f : option R) (s : Sys) :
  Engine.getAllBodies (Tools.toolPush p d f s).2 = Engine.getAllBodies s.
Proof.
  unfold Tools.toolPush.
  set (h := Tools.pushBody p d _ _).
  assert (H : forall ls acc, engine (fold_left h ls acc).1 = engine acc.1).
  { induction ls as [| a ls IH]; intros acc; [reflexivity |].
    cbn [fold_left]. rewrite IH. destruct acc as [s0 n0].
    subst h. unfold Tools.pushBody. destruct (heap s0 !! a) as [b |]; [| reflexivity].
    destruct (Matter.isStatic b); [reflexivity |].
    destruct (Rltb _ _); reflexivity. }
  specialize (H (Engine.getAllBodies s) (s, 0%nat)).
  destruct (fold_left h (Engine.getAllBodies s) (s, 0%nat)) as [s1 n1].
  cbn in H. unfold Engine.getAllBodies.
  destruct (Nat.ltb 0 n1); cbn; rewrite H; reflexivity.
Qed.

Lemma toolScale_bodies (contains : Matter.Body -> Vector.t -> bool)
    (p : Vector.t) (grow : bool) (s : Sys) :
  Engine.getAllBodies (Tools.toolScale contains p grow s).2 = Engine.getAllBodies s.
Proof.
  unfold Tools.toolScale.
  destruct (Engine.getBodyAtPosition contains p s) as [l |]; [| reflexivity].
  destruct (heap s !! l) as [b |]; [| reflexivity].
  destruct (negb (Matter.isStatic b)); [| reflexivity].
  destruct (Rleb _ _ && Rleb _ _); reflexivity.
Qed.

Lemma toolGravityFlip_bodies (s : Sys) :
  Engine.getAllBodies (ToolActions.toolGravityFlip s).2 = Engine.getAllBodies s.
Proof.
  unfold ToolActions.toolGravityFlip, Engine.flipGravity, Engine.getAllBodies.
  destruct (engine s) as [e |] eqn:He; cbv beta iota zeta;
    match goal with |- context [if ?c then _ else _] => destruct c end;
    cbn; rewrite ?He; reflexivity.
Qed.

Lemma toolSpawn_bodies (type : string) (p : Vector.t) (o : Objects.Options) (s : Sys) :
  Engine.getAllBodies (Tools.toolSpawn type p o s).2
  = match engine s with
    | Some _ => Engine.getAllBodies s ++ [nextLoc s]
    | None => []
    end.
Proof.
  destruct (toolSpawn_allocates type p o s) as (body & Hres & _).
  rewrite Hres. unfold Engine.getAllBodies, Engine.addBody. cbn.
  destruct (engine s); reflexivity.
Qed.

(** X25. [executeTool] returns [null] and changes nothing for an
    identifier that is none of the five tools. No tool takes a body out
    of the world: the world has the same bodies, in the same order, after
    every tool but [spawn], which appends exactly one new body object
    when there is an engine. *)
Theorem executeTool_never_removes_a_body (contains : Matter.Body -> Vector.t -> bool)
    (toolId : string) (params : ToolActions.Params) (s : Sys) :
  let res := ToolActions.executeTool contains toolId params s in
  (~ In toolId ToolActions.toolIds -> res = (ToolActions.Returned None, s))
  /\ (toolId <> "spawn"%string -> Engine.getAllBodies res.2 = Engine.getAllBodies s)
  /\ (toolId = "spawn"%string ->
        Engine.getAllBodies res.2
        = match engine s with
          | Some _ => Engine.getAllBodies s ++ [nextLoc s]
          | None => []
          end
        /\ is_Some (heap res.2 !! nextLoc s)).
Proof.
  cbv zeta. unfold ToolActions.executeTool.
  destruct (String.eqb toolId "spawn") eqn:E1.
  { apply String.eqb_eq in E1. subst toolId. split; [| split].
    - intros H. exfalso. apply H. left. reflexivity.
    - intros H. exfalso. apply H. reflexivity.
    - intros _.
      pose proof (toolSpawn_bodies (ToolActions.objectTypeOr (ToolActions.objectType params))
                    (ToolActions.position params) Objects.noOptions s) as Hb.
      destruct (toolSpawn_allocates (ToolActions.objectTypeOr (ToolActions.objectType params))
                  (ToolActions.position params) Objects.noOptions s) as (body & Hres & _).
      destruct (Tools.toolSpawn _ _ _ s) as [r s1]. cbn [snd] in *.
      split; [exact Hb |].
      injection Hres as _ Hs. subst s1. exists body.
      unfold Engine.addBody. cbn. destruct (engine s); cbn; apply lookup_insert_eq. }
  apply String.eqb_neq in E1.
  destruct (String.eqb toolId "push") eqn:E2.
  { apply String.eqb_eq in E2. subst toolId. split; [| split].
    - intros H. exfalso. apply H. right. left. reflexivity.
    - intros _.
      pose proof (toolPush_bodies (ToolActions.position params)
                    (default (Vector.mk 0 (-1)) (ToolActions.direction params)) None s) as Hb.
      destruct (Tools.toolPush _ _ _ s) as [r s1]. exact Hb.
    - intros H. discriminate H. }
  destruct (String.eqb toolId "explode") eqn:E3.
  { apply String.eqb_eq in E3. subst toolId. split; [| split].
    - intros H. exfalso. apply H. right. right. left. reflexivity.
    - intros _.
      pose proof (toolExplode_bodies (ToolActions.position params) None None s) as Hb.
      destruct (Tools.toolExplode _ _ _ s) as [r s1]. exact Hb.
    - intros H. discriminate H. }
  destruct (String.eqb toolId "gravity") eqn:E4.
  { apply String.eqb_eq in E4. subst toolId. split; [| split].
    - intros H. exfalso. apply H. right. right. right. left. reflexivity.
    - intros _.
      pose proof (toolGravityFlip_bodies s) as Hb.
      destruct (ToolActions.toolGravityFlip s) as [r s1]. exact Hb.
    - intros H. discriminate H. }
  destruct (String.eqb toolId "scale") eqn:E5.
  { apply String.eqb_eq in E5. subst toolId. split; [| split].
    - intros H. exfalso. apply H. do 4 right. left. reflexivity.
    - intros _.
      pose proof (toolScale_bodies contains (ToolActions.position params)
                    (default true (ToolActions.grow params)) s) as Hb.
      destruct (Tools.toolScale _ _ _ s) as [r s1]. exact Hb.
    - intros H. discriminate H. }
  split; [reflexivity |]. split; [reflexivity |].
  intros H. contradiction.
Qed.

End ExecuteTool.

Lemma executeTool_never_removes_a_body_witness :
  let params := ToolActions.mkParams None Scenario.centre None None in
  ToolActions.executeTool Scenario.everywhere "teleport" params Scenario.oneBox
  = (ToolActions.Returned None, Scenario.oneBox)
  /\ Engine.getAllBodies
       (ToolActions.executeTool Scenario.everywhere "explode" params Scenario.oneBox).2
     = [1; 2; 3; 4; 5]%positive
  /\ Engine.getAllBodies
       (ToolActions.executeTool Scenario.everywhere "spawn" params Scenario.oneBox).2
     = [1; 2; 3; 4; 5; 6]%positive.
Proof.
  intros params. split; [| split].
  - apply (executeTool_never_removes_a_body Scenario.everywhere "teleport" params
             Scenario.oneBox).
    cbn. intuition discriminate.
  - rewrite <- oneBox_bodies.
    apply (executeTool_never_removes_a_body Scenario.everywhere "explode" params
             Scenario.oneBox).
    discriminate.
  - destruct (executeTool_never_removes_a_body Scenario.everywhere "spawn" params
                Scenario.oneBox) as (_ & _ & H).
    destruct (H eq_refl) as [Hb _]. rewrite Hb. reflexivity.
Defined.

(** ** Time control *)

Section TimeToggles.
Import State.
Import TimeControl.

Lemma press_spec (p : Press) (s : Sys) (f : Flags) (e : EngineRec) :
  engine s = Some e ->
  let st := press (s, f) p in
  isSlowMo st.2 = xorb (isSlowMo f) (isSlow p)
  /\ isFrozen st.2 = xorb (isFrozen f) (isFreeze p)
  /\ engine st.1
     = Some (mkEngine (bodies e) (gravity e)
               (match p with
                | Slow => if isSlowMo st.2 then 2 / 10 else 1
                | Freeze => if isFrozen st.2 then 0 else 1
                end))
  /\ heap st.1 = heap s.
Proof.
  intros He. destruct p; cbn; rewrite He.
  - destruct (isSlowMo f), (isFrozen f); cbn; repeat split.
  - destruct (isSlowMo f), (isFrozen f); cbn; repeat split.
Qed.

Lemma count_app (which : Press -> bool) (ps qs : list Press) :
  count which (ps ++ qs) = (count which ps + count which qs)%nat.
Proof. unfold count. rewrite List.filter_app, length_app. reflexivity. Qed.

Lemma xorb_odd_succ (b : bool) (n : nat) :
  xorb (xorb b (Nat.odd n)) true = xorb b (Nat.odd (n + 1)).
Proof.
  rewrite Nat.add_1_r, Nat.odd_succ, <- Nat.negb_odd.
  destruct b, (Nat.odd n); reflexivity.
Qed.

Lemma presses_spec (ps : list Press) (s : Sys) (f : Flags) (e : EngineRec) :
  engine s = Some e ->
  let st := presses ps (s, f) in
  isSlowMo st.2 = xorb (isSlowMo f) (Nat.odd (count isSlow ps))
  /\ isFrozen st.2 = xorb (isFrozen f) (Nat.odd (count isFreeze ps))
  /\ engine st.1
     = Some (mkEngine (bodies e) (gravity e)
               (match last ps with
                | None => timeScale e
                | Some Slow => if isSlowMo st.2 then 2 / 10 else 1
                | Some Freeze => if isFrozen st.2 then 0 else 1
                end))
  /\ heap st.1 = heap s.
Proof.
  intros He. induction ps as [| p ps IH] using rev_ind.
  - cbn. rewrite He. destruct (isSlowMo f), (isFrozen f), e; repeat split.
  - cbv zeta in *. unfold presses in *. rewrite fold_left_app. cbn [fold_left].
    destruct (fold_left press ps (s, f)) as [s1 f1].
    destruct IH as (Hs & Hf & Heng & Hheap). cbn [fst snd] in *.
    destruct (press_spec p s1 f1 _ Heng) as (Hs' & Hf' & Heng' & Hheap').
    cbv zeta in *. cbn [bodies gravity] in Heng'.
    rewrite last_snoc.
    rewrite !count_app.
    split; [| split; [| split]].
    + rewrite Hs', Hs. destruct p; cbn [isSlow count List.filter length].
      * apply xorb_odd_succ.
      * rewrite Nat.add_0_r. apply xorb_false_r.
    + rewrite Hf', Hf. destruct p; cbn [isFreeze count List.filter length].
      * rewrite Nat.add_0_r. apply xorb_false_r.
      * apply xorb_odd_succ.
    + exact Heng'.
    + congruence.
Qed.

(** X26. The two time toggles keep separate flags but write the same
    [timeScale]. After any sequence of presses, with an engine: each flag
    has flipped once per press of its own key, and the time scale is the
    one the last press wrote: 0.2 or 1 after the slow-motion key, 0 or 1
    after the freeze key, whatever the other flag says. So unfreezing ends
    slow motion's effect while [isSlowMo] stays true. The bodies, the
    gravity and the body objects are untouched. Without an engine a press
    changes neither flag. *)
Theorem time_toggles_share_the_time_scale (ps : list Press) (s : Sys) (f : Flags) :
  let st := presses ps (s, f) in
  match engine s with
  | Some e =>
      isSlowMo st.2 = xorb (isSlowMo f) (Nat.odd (count isSlow ps))
      /\ isFrozen st.2 = xorb (isFrozen f) (Nat.odd (count isFreeze ps))
      /\ timeScaleOf st.1
         = Some (match last ps with
                 | None => timeScale e
                 | Some Slow => if isSlowMo st.2 then 2 / 10 else 1
                 | Some Freeze => if isFrozen st.2 then 0 else 1
                 end)
      /\ Engine.getAllBodies st.1 = Engine.getAllBodies s
      /\ Engine.getGravity st.1 = Engine.getGravity s
      /\ heap st.1 = heap s
  | None => st.2 = f /\ engine st.1 = None /\ heap st.1 = heap s
  end.
Proof.
  cbv zeta. destruct (engine s) as [e |] eqn:He.
  - destruct (presses_spec ps s f e He) as (Hs & Hf & Heng & Hheap). cbv zeta in *.
    split; [exact Hs |]. split; [exact Hf |].
    unfold timeScaleOf, Engine.getAllBodies, Engine.getGravity.
    rewrite Heng, He. cbn. repeat split. exact Hheap.
  - revert s He. unfold presses.
    induction ps as [| p ps IH]; intros s He; [cbn; auto |].
    cbn [fold_left].
    assert (Hp : exists s1, press (s, f) p = (s1, f) /\ engine s1 = None
                            /\ heap s1 = heap s).
    { destruct p; cbn; rewrite He; eexists;
        (split; [reflexivity | split; [exact He | reflexivity]]). }
    destruct Hp as (s1 & -> & He1 & Hh1).
    destruct (IH s1 He1) as (H1 & H2 & H3). repeat split; congruence.
Qed.

Lemma time_toggles_share_the_time_scale_witness :
  let st := presses [Slow; Freeze; Freeze] (Scenario.oneBox, off) in
  isSlowMo st.2 = true /\ isFrozen st.2 = false /\ timeScaleOf st.1 = Some 1.
Proof.
  pose proof (time_toggles_share_the_time_scale [Slow; Freeze; Freeze]
                Scenario.oneBox off) as H.
  cbv zeta in H.
  replace (engine Scenario.oneBox)
    with (Some (mkEngine [1; 2; 3; 4; 5]%positive Engine.PHYSICS_GRAVITY 1)) in H
    by reflexivity.
  destruct H as (Hs & Hf & Hts & _).
  cbv zeta. rewrite Hts, Hs, Hf. repeat split.
Defined.

End TimeToggles.

(** ** Magnets *)

Section MagnetProperties.
Import State.
Import Magnets.













End MagnetProperties.

Section MagnetScenario.
Import State.
Import Magnets.






End MagnetScenario.


(** ** Black holes: what they record *)

Section ConsumedBodies.
Import State.

Lemma consumedMore_same (ls : list loc) (s s' : Sys) :
  holes (special s') = holes (special s) -> Terms.consumedMore ls s s'.
Proof.
  intros H h. exists []. unfold Special.consumedOf. rewrite H, app_nil_r.
  split; [reflexivity |]. split; [constructor |].
  intros l Hl. apply elem_of_nil in Hl. destruct Hl.
Qed.

Lemma consumedMore_trans (ls : list loc) (s1 s2 s3 : Sys) :
  Terms.consumedMore ls s1 s2 -> Terms.consumedMore ls s2 s3 ->
  Terms.consumedMore ls s1 s3.
Proof.
  intros H12 H23 h.
  destruct (H12 h) as (e1 & Heq1 & Hnd1 & Hin1).
  destruct (H23 h) as (e2 & Heq2 & Hnd2 & Hin2).
  exists (e1 ++ e2). split; [rewrite Heq2, Heq1, app_assoc; reflexivity |].
  split.
  - apply NoDup_app. split; [exact Hnd1 |]. split; [| exact Hnd2].
    intros l Hl1 Hl2. apply (Hin2 l Hl2). rewrite Heq1. apply elem_of_app. right. exact Hl1.
  - intros l Hl. apply elem_of_app in Hl as [Hl | Hl]; [exact (Hin1 l Hl) |].
    destruct (Hin2 l Hl) as [Hls Hnot]. split; [exact Hls |].
    intros Hc. apply Hnot. rewrite Heq1. apply elem_of_app. left. exact Hc.
Qed.

Lemma consumedMore_pushConsumed (ls : list loc) (h l : loc) (s : Sys) :
  l ∈ ls -> Special.includes l (Special.consumedOf h s) = false ->
  Terms.consumedMore ls s (Special.pushConsumed h l s).
Proof.
  intros Hl Hinc h'. unfold Special.consumedOf, Special.pushConsumed. cbn.
  destruct (decide (h' = h)) as [-> | Hne].
  - rewrite lookup_alter_eq. destruct (holes (special s) !! h) as [bh |] eqn:Hh.
    + cbn. exists [l]. split; [reflexivity |]. split; [apply NoDup_singleton |].
      intros l' Hl'. apply list_elem_of_singleton in Hl' as ->. split; [exact Hl |].
      intros Hc. apply includes_elem_of in Hc.
      unfold Special.consumedOf in Hinc. rewrite Hh in Hinc. congruence.
    + cbn. exists []. split; [reflexivity |]. split; [constructor |].
      intros l' Hl'. apply elem_of_nil in Hl'. destruct Hl'.
  - rewrite lookup_alter_ne by congruence. exists []. rewrite app_nil_r.
    split; [reflexivity |]. split; [constructor |].
    intros l' Hl'. apply elem_of_nil in Hl'. destruct Hl'.
Qed.

Lemma consumedMore_pullBody (ls : list loc) (h : loc) (bhPos : Vector.t) (s : Sys)
    (l : loc) :
  l ∈ ls -> Terms.consumedMore ls s (Special.pullBody h bhPos s l).
Proof.
  intros Hl. unfold Special.pullBody.
  destruct (heap s !! l) as [b |]; [| apply consumedMore_same; reflexivity].
  destruct (Special.skipped b); [apply consumedMore_same; reflexivity |].
  cbv zeta.
  set (d := Vector.magnitude (Vector.sub bhPos (Matter.position b))).
  destruct (Rltb d 20).
  - set (s1 := update (Matter.setVelocity (Vector.mk 0 0)) l s).
    destruct (Special.includes l (Special.consumedOf h s1)) eqn:Hinc; cbn [negb].
    + apply consumedMore_same. reflexivity.
    + apply (consumedMore_trans ls s s1); [apply consumedMore_same; reflexivity |].
      apply consumedMore_pushConsumed; assumption.
  - set (s1 := update (Matter.setVelocity (Special.pulledVelocity bhPos b)) l s).
    set (s2 := if Rltb d 80 && negb (Special.includes l (Special.consumedOf h s1))
               then Special.pushConsumed h l s1 else s1).
    assert (H2 : Terms.consumedMore ls s s2).
    { subst s2. destruct (Rltb d 80); cbn [andb];
        [| apply consumedMore_same; reflexivity].
      destruct (Special.includes l (Special.consumedOf h s1)) eqn:Hinc; cbn [negb].
      - apply consumedMore_same. reflexivity.
      - apply (consumedMore_trans ls s s1); [apply consumedMore_same; reflexivity |].
        apply consumedMore_pushConsumed; assumption. }
    destruct (Rltb d 250); [| exact H2].
    apply (consumedMore_trans ls s s2); [exact H2 |].
    apply consumedMore_same. reflexivity.
Qed.

Lemma consumedMore_fold_pullBody (ls : list loc) (h : loc) (bhPos : Vector.t)
    (bodies : list loc) (s : Sys) :
  (forall l, l ∈ bodies -> l ∈ ls) ->
  Terms.consumedMore ls s (fold_left (Special.pullBody h bhPos) bodies s).
Proof.
  revert s. induction bodies as [| a bodies IH]; intros s Hsub; cbn [fold_left].
  - apply consumedMore_same. reflexivity.
  - apply (consumedMore_trans ls s (Special.pullBody h bhPos s a)).
    + apply consumedMore_pullBody. apply Hsub. left.
    + apply IH. intros l Hl. apply Hsub. right. exact Hl.
Qed.

Lemma special_scatterBody (bh : BlackHole) (s : Sys) (l : loc) :
  special (Special.scatterBody bh s l) = special s
  /\ engine (Special.scatterBody bh s l) = engine s.
Proof.
  unfold Special.scatterBody.
  destruct (heap s !! l) as [b |]; [| split; reflexivity].
  destruct (Special.skipped b); [split; reflexivity |].
  rewrite mathRandom_eq. cbv beta iota zeta.
  destruct (Special.includes l (consumedBodies bh)); cbn [orb].
  - split; reflexivity.
  - destruct (Rltb _ _); split; reflexivity.
Qed.

Lemma special_fold_scatterBody (bh : BlackHole) (ls : list loc) (s : Sys) :
  special (fold_left (Special.scatterBody bh) ls s) = special s
  /\ engine (fold_left (Special.scatterBody bh) ls s) = engine s.
Proof.
  revert s. induction ls as [| a ls IH]; intros s; [split; reflexivity |].
  cbn [fold_left]. destruct (IH (Special.scatterBody bh s a)) as [H1 H2].
  destruct (special_scatterBody bh s a) as [H3 H4]. split; congruence.
Qed.

Lemma explodeBlackHole_frame (h : loc) (s : Sys) (bh : BlackHole) :
  holes (special s) !! h = Some bh ->
  let s' := Special.explodeBlackHole h s in
  holes (special s') = holes (special s)
  /\ nextHole (special s') = nextHole (special s)
  /\ activeBlackHoles (special s')
     = List.filter (fun h' => negb (Pos.eqb h' h)) (activeBlackHoles (special s))
  /\ Special.getAllBodiesInternal s'
     = Engine.removeFirst (body bh) (Special.getAllBodiesInternal s).
Proof.
  intros Hh. cbv zeta. unfold Special.explodeBlackHole. rewrite Hh. cbv zeta.
  destruct (special_fold_scatterBody bh (Special.getAllBodiesInternal s) s) as [Hsp Heng].
  set (s1 := fold_left (Special.scatterBody bh) (Special.getAllBodiesInternal s) s) in *.
  set (s2 := onHost (Host.windowShake 5) s1).
  match goal with
  | |- context [if Host.hasParticles (host s2) then ?a else s2] =>
      set (s3 := if Host.hasParticles (host s2) then a else s2)
  end.
  assert (H3 : special s3 = special s /\ engine s3 = engine s).
  { subst s3. destruct (Host.hasParticles (host s2)); split; assumption. }
  clearbody s3. destruct H3 as [Hsp3 Heng3].
  unfold Special.removeBodyInternal, Special.getAllBodiesInternal. cbn.
  rewrite Heng3. destruct (engine s) as [e |]; cbn; rewrite Hsp3, ?Heng3; repeat split.
Qed.

Lemma explodeBlackHole_holes (h : loc) (s : Sys) :
  holes (special (Special.explodeBlackHole h s)) = holes (special s).
Proof.
  destruct (holes (special s) !! h) as [bh |] eqn:Hh.
  - exact (proj1 (explodeBlackHole_frame h s bh Hh)).
  - unfold Special.explodeBlackHole. rewrite Hh. reflexivity.
Qed.

Lemma consumedMore_tickBlackHole (ls : list loc) (now : R) (s : Sys)
    (kept : list loc) (h : loc) :
  Terms.consumedMore ls s (Special.tickBlackHole now ls (s, kept) h).1.
Proof.
  unfold Special.tickBlackHole.
  destruct (holes (special s) !! h) as [bh |]; [| apply consumedMore_same; reflexivity].
  destruct (heap s !! body bh) as [hb |]; [| apply consumedMore_same; reflexivity].
  destruct (Rltb _ _); cbn [fst].
  - apply consumedMore_same. apply explodeBlackHole_holes.
  - apply consumedMore_fold_pullBody. auto.
Qed.

Lemma consumedMore_fold_tickBlackHole (ls : list loc) (now : R) (hs : list loc)
    (acc : Sys * list loc) :
  Terms.consumedMore ls acc.1 (fold_left (Special.tickBlackHole now ls) hs acc).1.
Proof.
  revert acc. induction hs as [| h hs IH]; intros acc; cbn [fold_left].
  - apply consumedMore_same. reflexivity.
  - apply (consumedMore_trans ls _ (Special.tickBlackHole now ls acc h).1); [| apply IH].
    destruct acc as [s kept]. apply consumedMore_tickBlackHole.
Qed.

(** X28. Between two ticks of [updateBlackHoles] the list
    [consumedBodies] of a black hole only grows at its end, by bodies of
    the world that it did not hold yet, each added once: no body is
    recorded twice, and nothing is ever taken off the list, not even when
    the black hole explodes in that tick. *)
Theorem updateBlackHoles_records_each_body_once (s : Sys) :
  Terms.consumedMore (Special.getAllBodiesInternal s) s (Special.updateBlackHoles s)
  /\ ((forall h, NoDup (Special.consumedOf h s)) ->
      forall h, NoDup (Special.consumedOf h (Special.updateBlackHoles s))).
Proof.
  assert (H : Terms.consumedMore (Special.getAllBodiesInternal s) s
                (Special.updateBlackHoles s)).
  { unfold Special.updateBlackHoles. cbv zeta.
    destruct (Special.getAllBodiesInternal s) as [| a ls] eqn:Hb;
      [apply consumedMore_same; reflexivity |].
    pose proof (consumedMore_fold_tickBlackHole (a :: ls) (Host.now (host s))
                  (activeBlackHoles (special s)) (s, [])) as Hfold.
    destruct (fold_left _ (activeBlackHoles (special s)) (s, [])) as [s1 kept].
    apply (consumedMore_trans _ s s1); [exact Hfold |].
    apply consumedMore_same. reflexivity. }
  split; [exact H |].
  intros Hnd h. destruct (H h) as (extra & Heq & Hnde & Hin).
  rewrite Heq. apply NoDup_app. split; [apply Hnd |]. split; [| exact Hnde].
  intros l Hl Hle. exact (proj2 (Hin l Hle) Hl).
Qed.

End ConsumedBodies.

Lemma updateBlackHoles_records_each_body_once_witness :
  NoDup (Special.consumedOf 1%positive (Special.updateBlackHoles Scenario.withHole)).
Proof.
  apply (proj2 (updateBlackHoles_records_each_body_once Scenario.withHole)).
  intros h. unfold Special.consumedOf.
  replace (State.holes (State.special Scenario.withHole))
    with (<[1%positive := Scenario.hole]> (∅ : gmap positive State.BlackHole))
    by reflexivity.
  destruct (decide (h = 1%positive)) as [-> | Hne].
  - rewrite lookup_insert_eq. constructor.
  - rewrite lookup_insert_ne by congruence. rewrite lookup_empty. constructor.
Defined.

(** ** Black holes: from creation to explosion *)

Section BlackHoleLife.
Import State.

Lemma createBlackHole_spec (x y : R) (o : Special.Options) (s : Sys) (e : EngineRec) :
  engine s = Some e ->
  let res := Special.createBlackHole x y o s in
  let h := nextHole (special s) in
  let lifetime := orElse (Special.lifetime o) 6000 in
  res.1 = Some h
  /\ Special.getAllBodiesInternal res.2 = bodies e ++ [nextLoc s]
  /\ activeBlackHoles (special res.2) = activeBlackHoles (special s) ++ [h]
  /\ holes (special res.2)
     = <[h := mkBlackHole (nextLoc s) (orElse (Special.pullRadius o) 350)
                (orElse (Special.pullStrength o) (8 / 1000)) (Host.now (host s))
                lifetime x y [] 60]> (holes (special s))
  /\ Host.timers (host res.2)
     = <[Host.nextTimer (host s) :=
           Host.mkTimer (Host.clock (host s) + lifetime) None (Host.BlackHoleExpire h)]>
         (Host.timers (host s))
  /\ Host.nextTimer (host res.2) = Pos.succ (Host.nextTimer (host s)).
Proof.
  intros He. cbv zeta. unfold Special.createBlackHole. rewrite He.
  destruct s as [hst hp nl en oc ch sp].
  destruct hst as [c rnd d ts n hasP hasSh hasSt out]. cbn in He. subst en.
  unfold Special.generateId, alloc, Engine.addBody, Special.getAllBodiesInternal,
    Host.windowParticles, Host.windowShake, Host.windowStatus.
  destruct hasP, hasSh, hasSt; cbn; repeat split.
Qed.

Lemma host_scatterBody (bh : BlackHole) (s : Sys) (l : loc) :
  Host.timers (host (Special.scatterBody bh s l)) = Host.timers (host s)
  /\ Host.nextTimer (host (Special.scatterBody bh s l)) = Host.nextTimer (host s)
  /\ Host.clock (host (Special.scatterBody bh s l)) = Host.clock (host s).
Proof.
  unfold Special.scatterBody.
  destruct (heap s !! l) as [b |]; [| repeat split].
  destruct (Special.skipped b); [repeat split |].
  rewrite mathRandom_eq. cbv beta iota zeta.
  destruct (Special.includes l (consumedBodies bh)); cbn [orb].
  - repeat split.
  - destruct (Rltb _ _); repeat split.
Qed.

Lemma host_fold_scatterBody (bh : BlackHole) (ls : list loc) (s : Sys) :
  Host.timers (host (fold_left (Special.scatterBody bh) ls s)) = Host.timers (host s)
  /\ Host.nextTimer (host (fold_left (Special.scatterBody bh) ls s))
     = Host.nextTimer (host s)
  /\ Host.clock (host (fold_left (Special.scatterBody bh) ls s)) = Host.clock (host s).
Proof.
  revert s. induction ls as [| a ls IH]; intros s; [repeat split |].
  cbn [fold_left]. destruct (IH (Special.scatterBody bh s a)) as (H1 & H2 & H3).
  destruct (host_scatterBody bh s a) as (H4 & H5 & H6). repeat split; congruence.
Qed.

(** The timers an explosion leaves: those there were, and the two delayed
    particle bursts when [window.spawnParticles] is installed. *)
Lemma explodeBlackHole_timers (h : loc) (s : Sys) (id : positive) :
  (id < Host.nextTimer (host s))%positive ->
  Host.timers (host (Special.explodeBlackHole h s)) !! id = Host.timers (host s) !! id.
Proof.
  intros Hid. unfold Special.explodeBlackHole.
  destruct (holes (special s) !! h) as [bh |]; [| reflexivity]. cbv zeta.
  destruct (host_fold_scatterBody bh (Special.getAllBodiesInternal s) s)
    as (Ht & Hn & _).
  set (s1 := fold_left (Special.scatterBody bh) (Special.getAllBodiesInternal s) s) in *.
  set (s2 := onHost (Host.windowShake 5) s1).
  assert (H2 : Host.timers (host s2) = Host.timers (host s)
               /\ Host.nextTimer (host s2) = Host.nextTimer (host s)).
  { subst s2. unfold onHost, Host.windowShake. cbn.
    destruct (Host.hasShake (host s1)); cbn; split; assumption. }
  clearbody s2. destruct H2 as [Ht2 Hn2].
  match goal with
  | |- context [if Host.hasParticles (host s2) then ?a else s2] =>
      set (s3 := if Host.hasParticles (host s2) then a else s2)
  end.
  assert (H3 : Host.timers (host s3) !! id = Host.timers (host s) !! id).
  { subst s3. destruct (Host.hasParticles (host s2)) eqn:Hp; [| congruence].
    unfold onHost, Host.windowParticles, Host.setTimeout. rewrite Hp. cbn.
    rewrite !lookup_insert_ne by (rewrite Hn2; lia). congruence. }
  clearbody s3.
  unfold Special.removeBodyInternal, onHost, Host.windowStatus. cbn.
  destruct (Host.hasStatus (host s3)), (engine s3); cbn; exact H3.
Qed.

(** X29. A black hole from its creation to its explosion, in a world
    whose bodies and active black holes were made earlier.
    [createBlackHole] returns the new black hole, appends its body to the
    world and the black hole to the active ones, and registers its expiry
    after [lifetime] ms (6000 when the option is missing or 0).
    [explodeBlackHole] then takes exactly that body and that black hole
    out again: the world and the active list are what they were before
    the creation. It does not cancel the expiry timeout, which is still
    pending when the explosion came from [updateBlackHoles]. *)
Theorem black_hole_leaves_the_world_as_it_was
    (x y : R) (o : Special.Options) (s : Sys) (e : EngineRec) :
  engine s = Some e ->
  ~ In (nextLoc s) (bodies e) ->
  ~ In (nextHole (special s)) (activeBlackHoles (special s)) ->
  let res := Special.createBlackHole x y o s in
  let h := nextHole (special s) in
  let s' := Special.explodeBlackHole h res.2 in
  let expiry :=
    Host.mkTimer (Host.clock (host s) + orElse (Special.lifetime o) 6000) None
      (Host.BlackHoleExpire h) in
  res.1 = Some h
  /\ Special.getAllBodiesInternal res.2 = Special.getAllBodiesInternal s ++ [nextLoc s]
  /\ activeBlackHoles (special res.2) = activeBlackHoles (special s) ++ [h]
  /\ Host.timers (host res.2) !! Host.nextTimer (host s) = Some expiry
  /\ Special.getAllBodiesInternal s' = Special.getAllBodiesInternal s
  /\ activeBlackHoles (special s') = activeBlackHoles (special s)
  /\ Host.timers (host s') !! Host.nextTimer (host s) = Some expiry.
Proof.
  intros He Hfresh Hnew res h s' expiry.
  destruct (createBlackHole_spec x y o s e He) as (Hr & Hb & Ha & Hh & Ht & Hn).
  cbv zeta in *. fold res in Hr, Hb, Ha, Hh, Ht, Hn. fold h in Hr, Ha, Hh, Ht.
  assert (Hbs : Special.getAllBodiesInternal s = bodies e)
    by (unfold Special.getAllBodiesInternal; rewrite He; reflexivity).
  assert (Hte : Host.timers (host res.2) !! Host.nextTimer (host s) = Some expiry)
    by (rewrite Ht; apply lookup_insert_eq).
  assert (Hhole : holes (special res.2) !! h
                  = Some (mkBlackHole (nextLoc s) (orElse (Special.pullRadius o) 350)
                            (orElse (Special.pullStrength o) (8 / 1000))
                            (Host.now (host s)) (orElse (Special.lifetime o) 6000)
                            x y [] 60))
    by (rewrite Hh; apply lookup_insert_eq).
  destruct (explodeBlackHole_frame h res.2 _ Hhole) as (_ & _ & Ha' & Hb').
  cbv zeta in *. fold s' in Ha', Hb'. cbn [body] in Hb'.
  split; [exact Hr |]. split; [rewrite Hbs; exact Hb |]. split; [exact Ha |].
  split; [exact Hte |]. split; [| split].
  - rewrite Hb', Hb, Hbs. rewrite removeFirst_app_absent by exact Hfresh.
    cbn. rewrite Pos.eqb_refl. apply app_nil_r.
  - rewrite Ha', Ha, List.filter_app. cbn. rewrite Pos.eqb_refl. cbn.
    rewrite app_nil_r. clear -Hnew.
    induction (activeBlackHoles (special s)) as [| a ls IH]; [reflexivity |].
    cbn. destruct (Pos.eqb_spec a h) as [-> | Hne].
    + exfalso. apply Hnew. left. reflexivity.
    + cbn. f_equal. apply IH. intros Hin. apply Hnew. right. exact Hin.
  - subst s'. rewrite explodeBlackHole_timers by (rewrite Hn; lia). exact Hte.
Qed.

Lemma black_hole_leaves_the_world_as_it_was_witness :
  let s' := Special.explodeBlackHole 1 Scenario.withHole in
  Special.getAllBodiesInternal s' = [1; 2; 3; 4; 5]%positive
  /\ activeBlackHoles (special s') = []
  /\ Host.timers (host s') !! 1%positive
     = Some (Host.mkTimer (0 + 6000) None (Host.BlackHoleExpire 1)).
Proof.
  destruct (black_hole_leaves_the_world_as_it_was 600 400 Special.noOptions
              Scenario.oneBox (mkEngine [1; 2; 3; 4; 5]%positive Engine.PHYSICS_GRAVITY 1))
    as (_ & _ & _ & _ & Hb & Ha & Ht).
  - reflexivity.
  - replace (nextLoc Scenario.oneBox) with 6%positive by reflexivity.
    cbn. intuition discriminate.
  - replace (activeBlackHoles (special Scenario.oneBox)) with (@nil loc) by reflexivity.
    intros [].
  - cbv zeta. split; [exact Hb |]. split; [exact Ha |]. exact Ht.
Defined.

End BlackHoleLife.

(** ** Magnets: creation and clean up *)

Section MagnetLife.
Import State.
Import Magnets.






End MagnetLife.

